(** * Order lifecycle and inventory ledger of the e-commerce backend

    A shallow embedding of the order / inventory core of the repository
    ([product_repository.py], [order_repository.py], [order_service.py],
    [inventory_service.py], with the pieces of [models.py], [validators.py],
    [formatters.py], [utils.py] and [notification_service.py] they call),
    followed by the properties of that core.

    Conventions of the embedding:
    - the module-level dictionaries ([_users_db], [_products_db],
      [_orders_db], [_user_order_index]) and the notification [_queue] are the
      fields of one record [db], threaded through a small state monad;
    - a Python [dict] used as a table is a [gmap string _]; a [dict] used as a
      record is a Rocq [Record]; a key that the code reads with
      [d.get(key, default)] and that may be absent is an [option] field;
    - Python [int] is [Z], Python [float] is the binary64 type [float];
    - Python [str] is [string] with one character per code point, which
      covers the texts of code points below 256;
    - [uuid.uuid4()] is not a function of the program state: every function
      that draws an identifier takes the drawn uuid as an explicit argument. *)

From Stdlib Require Import ZArith Floats Ascii String.
From stdpp Require Import relations gmap strings list pretty.
From stdpp Require Import sorting.

Set Warnings "-inexact-float".
Local Open Scope Z_scope.

(** ** Data model *)

(** [models.create_user_model]; [active] is read with [user.get("active")]. *)
Record user_dict := User {
  u_id : string;
  u_name : string;
  u_email : string;
  u_role : string;
  u_active : option bool;
}.

(** [models.create_product_model]; [stock] is read with
    [product.get("stock", 0)] everywhere. *)
Record product_dict := Product {
  p_id : string;
  p_name : string;
  p_sku : string;
  p_price : float;
  p_stock : option Z;
  p_active : bool;
}.

(** An item as the caller of [create_order] passes it: every key is read with
    [item.get], so every key may be missing. *)
Record item_request := ItemRequest {
  req_product_id : option string;
  req_quantity : option Z;
  req_price : option float;
}.

(** [models.create_order_item] *)
Record order_item := OrderItem {
  i_product_id : string;
  i_quantity : Z;
  i_price : float;
  i_subtotal : float;
}.

(** [models.create_order_model] *)
Record order_dict := Order {
  o_id : string;
  o_user_id : string;
  o_items : list order_item;
  o_total : float;
  o_currency : string;
  o_status : string;
}.

(** [models.create_notification_model] *)
Record notification_dict := Notification {
  n_id : string;
  n_user_id : string;
  n_channel : string;
  n_subject : string;
  n_body : string;
  n_read : bool;
}.

(** The entry built by [notification_service.queue_notification]. *)
Record queue_entry := QueueEntry {
  q_id : string;
  q_notification : notification_dict;
  q_priority : Z;
  q_status : string;
}.

(** The process-local tables. *)
Record db := Db {
  users_db : gmap string user_dict;
  products_db : gmap string product_dict;
  orders_db : gmap string order_dict;
  user_order_index : gmap string (list string);
  queue : list queue_entry;
}.

Definition set_products (m : gmap string product_dict) (s : db) : db :=
  {| users_db := users_db s; products_db := m; orders_db := orders_db s;
     user_order_index := user_order_index s; queue := queue s |}.

Definition set_orders (m : gmap string order_dict) (s : db) : db :=
  {| users_db := users_db s; products_db := products_db s; orders_db := m;
     user_order_index := user_order_index s; queue := queue s |}.

Definition set_user_order_index (m : gmap string (list string)) (s : db) : db :=
  {| users_db := users_db s; products_db := products_db s;
     orders_db := orders_db s; user_order_index := m; queue := queue s |}.

Definition set_queue (q : list queue_entry) (s : db) : db :=
  {| users_db := users_db s; products_db := products_db s;
     orders_db := orders_db s; user_order_index := user_order_index s;
     queue := q |}.

(** ** A state monad over the tables *)

Definition State (A : Type) : Type := db → A * db.

Definition ret {A} (a : A) : State A := λ s, (a, s).

Definition bind {A B} (m : State A) (k : A → State B) : State B :=
  λ s, let '(a, s') := m s in k a s'.

Definition gets {A} (f : db → A) : State A := λ s, (f s, s).

Definition modify (f : db → db) : State unit := λ s, (tt, f s).

Notation "x <- m ;; k" := (bind m (λ x, k))
  (at level 100, m at next level, right associativity,
   format "'[v' x  <-  m  ;;  '/' k ']'").
Notation "m ;;; k" := (bind m (λ _, k))
  (at level 100, right associativity).

(** [for x in xs: body(x)] with the results of the body dropped. *)
Fixpoint for_each {A B} (body : A → State B) (xs : list A) : State unit :=
  match xs with
  | [] => ret tt
  | x :: xs' => body x ;;; for_each body xs'
  end.

(** ** product_repository.py *)

Definition find_product_by_id (product_id : string) (s : db) : option product_dict :=
  products_db s !! product_id.

(** [product.get("stock", 0)] *)
Definition get_stock (p : product_dict) : Z := default 0 (p_stock p).

(** [product["stock"] = n] *)
Definition set_stock (n : Z) (p : product_dict) : product_dict :=
  {| p_id := p_id p; p_name := p_name p; p_sku := p_sku p;
     p_price := p_price p; p_stock := Some n; p_active := p_active p |}.

(** The product dictionary found under [product_id] is mutated in place, so the
    table maps [product_id] to the mutated record afterwards. *)
Definition update_stock (product_id : string) (quantity_change : Z)
  : State (option Z) :=
  product <- gets (find_product_by_id product_id) ;;
  match product with
  | None => ret None
  | Some product =>
      let new_stock := get_stock product + quantity_change in
      if new_stock <? 0 then ret None
      else
        modify (λ s, set_products
                       (<[product_id := set_stock new_stock product]>
                          (products_db s)) s) ;;;
        ret (Some new_stock)
  end.

(** ** inventory_service.py: classification *)

Definition classify_stock_level (stock : Z) : string :=
  if stock <=? 0 then "out_of_stock"
  else if stock <=? 10 then "low"
  else if stock <=? 50 then "medium"
  else "high".

(** ** utils.py *)

(** [generate_id(prefix)]; [uid] is the text of the uuid drawn by the call. *)
Definition generate_id (uid : string) (prefix : string) : string :=
  if bool_decide (prefix = "") then uid
  else prefix +:+ "_" +:+ String.substring 0 8 uid.

(** A [string] holds one character per code point, so the embedding covers
    the texts of code points below 256. [str.strip()] drops the characters
    for which [str.isspace()] holds; below 256 these are the code points
    9 to 13, 28 to 32, 133 (next line) and 160 (no-break space). *)
Definition is_space (c : ascii) : bool :=
  let n := nat_of_ascii c in
  ((9 <=? n)%nat && (n <=? 13)%nat) || ((28 <=? n)%nat && (n <=? 32)%nat)
  || (n =? 133)%nat || (n =? 160)%nat.

Fixpoint lstrip (value : string) : string :=
  match value with
  | String c rest => if is_space c then lstrip rest else value
  | EmptyString => EmptyString
  end.

Fixpoint rstrip (value : string) : string :=
  match value with
  | String c rest =>
      match rstrip rest with
      | EmptyString => if is_space c then EmptyString else String c EmptyString
      | rest' => String c rest'
      end
  | EmptyString => EmptyString
  end.

Definition strip (value : string) : string := rstrip (lstrip value).

Fixpoint remove_html_tags_from (in_tag : bool) (value : string) : string :=
  match value with
  | EmptyString => EmptyString
  | String char rest =>
      if Ascii.eqb char "<" then remove_html_tags_from true rest
      else if Ascii.eqb char ">" then remove_html_tags_from false rest
      else if negb in_tag then String char (remove_html_tags_from in_tag rest)
      else remove_html_tags_from in_tag rest
  end.

Definition remove_html_tags (value : string) : string :=
  remove_html_tags_from false value.

Definition sanitize_string (value : string) : string :=
  remove_html_tags (strip value).

(** [str.upper()] on [a-z]. The code upper-cases a text only to look it up
    among keys made of [A-Z] and digits; the characters from 128 to 255 that
    Python maps (to another character above 127, or the sharp s to [SS]) give
    no such key either way. *)
Definition upper_char (c : ascii) : ascii :=
  let n := nat_of_ascii c in
  if ((97 <=? n)%nat && (n <=? 122)%nat) then ascii_of_nat (n - 32) else c.

Fixpoint upper (value : string) : string :=
  match value with
  | EmptyString => EmptyString
  | String c rest => String (upper_char c) (upper rest)
  end.

(** ** formatters.py *)

Record meta := Meta { version : string; format : string }.

(** The two shapes of dictionary the services return:
    [{"status": .., "data": .., "meta": ..}] from [format_response] and
    [{"error": {"code": .., "message": ..}}] from [format_error]. *)
Inductive response (A : Type) : Type :=
  | Response (status : string) (data : A) (m : meta)
  | ErrorResponse (code message : string).
Arguments Response {A} status data m.
Arguments ErrorResponse {A} code message.

(** [max_len] is 500 at the one call site, so [max_len - 3] is not negative. *)
Definition truncate_string (value : string) (max_len : nat) : string :=
  if (String.length value <=? max_len)%nat then value
  else String.substring 0 (max_len - 3) value +:+ "...".

Definition format_error {A} (code message : string) : response A :=
  ErrorResponse code (truncate_string message 500).

Definition build_meta : meta := {| version := "1.0"; format := "json" |}.

Definition format_response {A} (data : A) : response A :=
  Response "success" data build_meta.

(** ** validators.py *)

Definition get_valid_currencies : gset string :=
  {[ "USD"; "EUR"; "GBP"; "JPY"; "PLN"; "CAD" ]}.

Definition validate_currency (currency : string) : bool :=
  bool_decide (upper currency ∈ get_valid_currencies).

(** [n * 2^e] rounded to the nearest integer, ties to even. *)
Definition round_half_even (n e : Z) : Z :=
  if 0 <=? e then n * 2 ^ e
  else
    let d := 2 ^ (- e) in
    let q := n / d in
    let r := n mod d in
    if 2 * r <? d then q
    else if d <? 2 * r then q + 1
    else if Z.even q then q else q + 1.

(** The ten digits that [f"{value:.10f}"] prints after the decimal point
    (the formatting is correctly rounded, ties to even). [nan] and the
    infinities print without a point: [None]. *)
Definition fraction_digits_10f (value : float) : option (list Z) :=
  match Prim2SF value with
  | S754_zero _ => Some (replicate 10 0)
  | S754_finite _ m e =>
      let scaled := round_half_even (Z.pos m * 10 ^ 10) e in
      Some (map (λ k, (scaled / 10 ^ Z.of_nat k) mod 10) (rev (seq 0 10)))
  | S754_infinity _ | S754_nan => None
  end.

(** [digits.rstrip("0")] *)
Fixpoint rstrip_zeros (digits : list Z) : list Z :=
  match digits with
  | [] => []
  | d :: rest =>
      match rstrip_zeros rest with
      | [] => if d =? 0 then [] else [d]
      | rest' => d :: rest'
      end
  end.

(** [str_val.split(".")[1]] raises [IndexError] when the text has no point;
    the exception is the result [None]. *)
Definition validate_decimal_places (value : float) (max_places : Z)
  : option bool :=
  decimal_part ← rstrip_zeros <$> fraction_digits_10f value;
  Some (Z.of_nat (length decimal_part) <=? max_places).

Definition validate_amount (amount min_val max_val : float) : option bool :=
  if PrimFloat.ltb amount min_val || PrimFloat.ltb max_val amount
  then Some false
  else validate_decimal_places amount 2.

(** Default bounds of [validate_amount]. *)
Definition min_val_default : float := 0.01%float.
Definition max_val_default : float := 999999.99%float.

(** [isinstance(quantity, int)] holds of every [Z]. *)
Definition validate_quantity (quantity : Z) : bool :=
  (0 <? quantity) && (quantity <=? 10000).

(** ** user_repository.py *)

Definition find_user_by_id (user_id : string) (s : db) : option user_dict :=
  users_db s !! user_id.

(** ** order_repository.py *)

Definition find_order_by_id (order_id : string) (s : db) : option order_dict :=
  orders_db s !! order_id.

Definition index_order_by_user (order : order_dict) : State unit :=
  let user_id := o_user_id order in
  modify (λ s,
    let index :=
      match user_order_index s !! user_id with
      | None => <[user_id := []]> (user_order_index s)
      | Some _ => user_order_index s
      end in
    set_user_order_index
      (<[user_id := default [] (index !! user_id) ++ [o_id order]]> index) s).

Definition create_order_record (order : order_dict) : State order_dict :=
  modify (λ s, set_orders (<[o_id order := order]> (orders_db s)) s) ;;;
  index_order_by_user order ;;;
  ret order.

Definition valid_transitions : gmap string (list string) :=
  list_to_map [
    ("created", ["pending"; "cancelled"]);
    ("pending", ["processing"; "cancelled"]);
    ("processing", ["shipped"; "cancelled"]);
    ("shipped", ["delivered"]);
    ("delivered", ["returned"])
  ].

Definition is_valid_status_transition (current target : string) : bool :=
  bool_decide (target ∈ default [] (valid_transitions !! current)).

(** [order["status"] = status] *)
Definition set_status (status : string) (o : order_dict) : order_dict :=
  {| o_id := o_id o; o_user_id := o_user_id o; o_items := o_items o;
     o_total := o_total o; o_currency := o_currency o; o_status := status |}.

Definition update_order_status (order_id status : string)
  : State (option order_dict) :=
  order <- gets (find_order_by_id order_id) ;;
  match order with
  | None => ret None
  | Some order =>
      if negb (is_valid_status_transition (o_status order) status)
      then ret None
      else
        let order' := set_status status order in
        modify (λ s, set_orders (<[order_id := order']> (orders_db s)) s) ;;;
        ret (Some order')
  end.

Definition get_order_items (order_id : string) (s : db) : list order_item :=
  match find_order_by_id order_id s with
  | None => []
  | Some order => o_items order
  end.

(** Python's [sum]: a left fold of [+] from the integer [0]. (CPython 3.12 and
    later carry a compensation term through the fold; the two agree on a list
    of one float and wherever the additions are exact.) *)
Definition sum_floats (xs : list float) : float :=
  fold_left PrimFloat.add xs 0%float.

Definition calculate_order_total (order_id : string) (s : db) : float :=
  sum_floats (i_subtotal <$> get_order_items order_id s).

(** ** models.py *)

(** The conversion Python applies to the [int] operand of [int * float]:
    the nearest binary64 value, ties to even. (Python raises [OverflowError]
    beyond the binary64 range; the quantities that reach the multiplication
    through [create_order] lie in (0, 10000], where the conversion is exact.) *)
Definition float_of_int (z : Z) : float :=
  SF2Prim (binary_normalize prec emax z 0 false).

Definition create_order_item (item : item_request) : order_item :=
  let qty := default 1 (req_quantity item) in
  let price := default 0%float (req_price item) in
  {| i_product_id := default "" (req_product_id item);
     i_quantity := qty;
     i_price := price;
     i_subtotal := PrimFloat.mul (float_of_int qty) price |}.

Definition create_order_model (uid user_id : string)
    (items : list item_request) (currency : string) : order_dict :=
  let order_items := create_order_item <$> items in
  let total := sum_floats (i_subtotal <$> order_items) in
  {| o_id := generate_id uid "ord";
     o_user_id := user_id;
     o_items := order_items;
     o_total := total;
     o_currency := currency;
     o_status := "created" |}.

Definition create_notification_model (uid user_id channel subject body : string)
  : notification_dict :=
  {| n_id := generate_id uid "ntf";
     n_user_id := user_id;
     n_channel := channel;
     n_subject := sanitize_string subject;
     n_body := sanitize_string body;
     n_read := false |}.

(** ** order_service.py *)

(** [{"valid": .., "reason": ..}] *)
Record validation := Validation { valid : bool; reason : string }.

Definition check_product_exists (product_id : string) (s : db) : bool :=
  bool_decide (find_product_by_id product_id s ≠ None).

(** [f"Product {item.get('product_id')} not found"]: a missing key prints as
    [None]. *)
Definition product_not_found_reason (item : item_request) : string :=
  "Product " +:+ default "None" (req_product_id item) +:+ " not found".

(** The [for] loop of [validate_order_items]; [None] is the [IndexError] that
    [validate_amount] lets escape. *)
Fixpoint validate_each_item (items : list item_request) (s : db)
  : option validation :=
  match items with
  | [] => Some {| valid := true; reason := "" |}
  | item :: rest =>
      if negb (validate_quantity (default 0 (req_quantity item)))
      then Some {| valid := false; reason := "Invalid quantity" |}
      else
        amount_ok ← validate_amount (default 0%float (req_price item))
                      min_val_default max_val_default;
        if negb amount_ok
        then Some {| valid := false; reason := "Invalid price" |}
        else if negb (check_product_exists
                        (default "" (req_product_id item)) s)
        then Some {| valid := false;
                     reason := product_not_found_reason item |}
        else validate_each_item rest s
  end.

Definition validate_order_items (items : list item_request) (s : db)
  : option validation :=
  match items with
  | [] => Some {| valid := false; reason := "No items" |}
  | _ => validate_each_item items s
  end.

Definition reserve_order_stock (order : order_dict) : State unit :=
  for_each (λ item, update_stock (i_product_id item) (- i_quantity item))
           (o_items order).

Definition release_order_stock (order : order_dict) : State unit :=
  for_each (λ item, update_stock (i_product_id item) (i_quantity item))
           (o_items order).

(** Truth value of [user.get("active")]. *)
Definition is_active (user : user_dict) : bool := default false (u_active user).

(** The result is [None] when the call raises instead of returning. *)
Definition create_order (uid user_id : string) (items : list item_request)
    (currency : string) : State (option (response order_dict)) :=
  user <- gets (find_user_by_id user_id) ;;
  match user with
  | None => ret (Some (format_error "USER_NOT_FOUND" "User does not exist"))
  | Some user =>
      if negb (is_active user)
      then ret (Some (format_error "USER_INACTIVE" "User account is inactive"))
      else if negb (validate_currency currency)
      then ret (Some (format_error "BAD_CURRENCY" "Unsupported currency"))
      else
        validation <- gets (validate_order_items items) ;;
        match validation with
        | None => ret None
        | Some validation =>
            if negb (valid validation)
            then ret (Some (format_error "INVALID_ITEMS" (reason validation)))
            else
              let order := create_order_model uid user_id items currency in
              created <- create_order_record order ;;
              reserve_order_stock created ;;;
              ret (Some (format_response created))
        end
  end.

(** [order] and [updated] are one dictionary in the source; its items are not
    touched by [update_order_status], so the record read before the update
    carries the items that [release_order_stock] walks. *)
Definition cancel_order (order_id user_id : string)
  : State (response order_dict) :=
  order <- gets (find_order_by_id order_id) ;;
  match order with
  | None => ret (format_error "NOT_FOUND" "Order not found")
  | Some order =>
      if bool_decide (o_user_id order ≠ user_id)
      then ret (format_error "FORBIDDEN" "Not your order")
      else
        updated <- update_order_status order_id "cancelled" ;;
        match updated with
        | None =>
            ret (format_error "INVALID_STATE" "Cannot cancel in current state")
        | Some updated =>
            release_order_stock order ;;;
            ret (format_response updated)
        end
  end.

(** [{"refunded": amount, "reason": reason}] *)
Record refund := Refund { refunded : float; refund_reason : string }.

Definition process_refund (order_id reason : string) : State (response refund) :=
  order <- gets (find_order_by_id order_id) ;;
  match order with
  | None => ret (format_error "NOT_FOUND" "Order not found")
  | Some order =>
      updated <- update_order_status order_id "returned" ;;
      match updated with
      | None =>
          ret (format_error "INVALID_STATE" "Cannot refund in current state")
      | Some _ =>
          release_order_stock order ;;;
          amount <- gets (calculate_order_total order_id) ;;
          ret (format_response {| refunded := amount; refund_reason := reason |})
      end
  end.

Definition validate_order (order_id : string) (s : db) : validation :=
  match find_order_by_id order_id s with
  | None => {| valid := false; reason := "Order not found" |}
  | Some _ =>
      match get_order_items order_id s with
      | [] => {| valid := false; reason := "No items" |}
      | _ => {| valid := true; reason := "" |}
      end
  end.

(** [{"submitted": True, "order_id": order_id}] *)
Record submission := Submission { submitted : bool; submitted_order_id : string }.

Definition submit_order (order_id : string) : State (response submission) :=
  validation <- gets (validate_order order_id) ;;
  if negb (valid validation)
  then ret (format_error "INVALID" (reason validation))
  else
    updated <- update_order_status order_id "pending" ;;
    match updated with
    | None => ret (format_error "STATE_ERROR" "Cannot submit")
    | Some _ =>
        ret (format_response
               {| submitted := true; submitted_order_id := order_id |})
    end.

(** ** notification_service.py: the queue *)

(** [_queue.sort(key=priority)]: Python's sort is stable, so is this insertion
    sort. *)
Fixpoint insert_by_priority (entry : queue_entry) (q : list queue_entry)
  : list queue_entry :=
  match q with
  | [] => [entry]
  | e :: rest =>
      if q_priority entry <=? q_priority e then entry :: q
      else e :: insert_by_priority entry rest
  end.

Definition sort_queue_list (q : list queue_entry) : list queue_entry :=
  foldr insert_by_priority [] q.

Definition sort_queue : State unit :=
  modify (λ s, set_queue (sort_queue_list (queue s)) s).

Definition queue_notification (uid : string) (notification : notification_dict)
    (priority : Z) : State queue_entry :=
  let entry := {| q_id := generate_id uid "q";
                  q_notification := notification;
                  q_priority := priority;
                  q_status := "queued" |} in
  modify (λ s, set_queue (queue s ++ [entry]) s) ;;;
  sort_queue ;;;
  ret entry.

(** ** inventory_service.py: reservation *)

(** [{"available": .., "requested": .., "in_stock": ..}] *)
Record availability := Availability {
  available : bool;
  requested : Z;
  in_stock : Z;
}.

Definition check_availability (product_id : string) (quantity : Z) (s : db)
  : response availability :=
  match find_product_by_id product_id s with
  | None => format_error "NOT_FOUND" "Product not found"
  | Some product =>
      format_response {| available := quantity <=? get_stock product;
                         requested := quantity;
                         in_stock := get_stock product |}
  end.

(** [uid_ntf] and [uid_q] are the uuids drawn for the notification and for its
    queue entry. *)
Definition trigger_reorder_alert (uid_ntf uid_q : string)
    (product : product_dict) : State unit :=
  let notification :=
    create_notification_model uid_ntf "system" "email"
      ("Low stock: " +:+ p_name product)
      ("Product " +:+ p_sku product +:+ " has only "
         +:+ pretty (get_stock product) +:+ " units left.") in
  queue_notification uid_q notification 1 ;;;
  ret tt.

Definition check_reorder_needed (uid_ntf uid_q product_id : string)
  : State bool :=
  product <- gets (find_product_by_id product_id) ;;
  match product with
  | None => ret false
  | Some product =>
      if get_stock product <=? 10
      then trigger_reorder_alert uid_ntf uid_q product ;;; ret true
      else ret false
  end.

(** [{"reserved": quantity, "remaining": new_stock}] *)
Record reservation := Reservation { reserved : Z; remaining : Z }.

(** [availability.get("data", {}).get("available") is not True] *)
Definition not_available (r : response availability) : bool :=
  match r with
  | Response _ data _ => negb (available data)
  | ErrorResponse _ _ => true
  end.

Definition reserve_stock (uid_ntf uid_q product_id : string) (quantity : Z)
  : State (response reservation) :=
  availability <- gets (check_availability product_id quantity) ;;
  if not_available availability
  then ret (format_error "OUT_OF_STOCK" "Insufficient stock")
  else
    new_stock <- update_stock product_id (- quantity) ;;
    match new_stock with
    | None => ret (format_error "RESERVE_FAILED" "Could not reserve stock")
    | Some new_stock =>
        check_reorder_needed uid_ntf uid_q product_id ;;;
        ret (format_response
               {| reserved := quantity; remaining := new_stock |})
    end.

(** [{"released": quantity, "current_stock": new_stock}] *)
Record release := Release { released : Z; current_stock : Z }.

Definition release_stock (product_id : string) (quantity : Z)
  : State (response release) :=
  new_stock <- update_stock product_id quantity ;;
  match new_stock with
  | None => ret (format_error "RELEASE_FAILED" "Could not release stock")
  | Some new_stock =>
      ret (format_response
             {| released := quantity; current_stock := new_stock |})
  end.

(** ** Fixtures for the scenarios of the specification *)

Definition uuid_a : string := "123e4567-e89b-12d3-a456-426614174000".
Definition uuid_b : string := "9b2e0c1a-7d44-4f0e-8c55-0a1b2c3d4e5f".

Definition user_u1 : user_dict :=
  {| u_id := "u1"; u_name := "Ada"; u_email := "ada@example.org";
     u_role := "user"; u_active := Some true |}.

(** Product [P] holding [stock] units. *)
Definition product_P (stock : Z) : product_dict :=
  {| p_id := "P"; p_name := "Widget"; p_sku := "W-001";
     p_price := 10%float; p_stock := Some stock; p_active := true |}.

(** User [u1], the product [P] with [stock] units, no order, nothing queued. *)
Definition shop (stock : Z) : db :=
  {| users_db := {[ "u1" := user_u1 ]};
     products_db := {[ "P" := product_P stock ]};
     orders_db := ∅;
     user_order_index := ∅;
     queue := [] |}.

(** [{productId=P, quantity=3, price=10.00}] *)
Definition three_of_P : item_request :=
  {| req_product_id := Some "P"; req_quantity := Some 3;
     req_price := Some 10%float |}.

(** The stock the table holds for a product, if the product is there. *)
Definition stock_of (product_id : string) (s : db) : option Z :=
  get_stock <$> products_db s !! product_id.

(** ** Vocabulary of the properties *)

(** Data-model invariant of the ledger: no product holds a negative stock. *)
Definition stock_nonneg (s : db) : Prop :=
  map_Forall (λ _ p, 0 ≤ get_stock p) (products_db s).

(** A sequence of [update_stock(product_id, delta)] calls, results dropped. *)
Fixpoint run_adjustments (calls : list (string * Z)) (s : db) : db :=
  match calls with
  | [] => s
  | (product_id, delta) :: rest =>
      run_adjustments rest (update_stock product_id delta s).2
  end.

(** The boundary table as the specification prints it: the inputs
    0, 10, 11, 50, 51 paired in order with the categories it lists. *)
Definition spec_boundary_table : list (Z * string) :=
  zip [0; 10; 11; 50; 51]
      ["out_of_stock"; "low"; "low"; "medium"; "medium"; "high"].

(** The boundary table the thresholds give: each threshold and its successor. *)
Definition boundary_table : list (Z * string) :=
  zip [0; 1; 10; 11; 50; 51]
      ["out_of_stock"; "low"; "low"; "medium"; "medium"; "high"].

(** The transition table of the order life cycle, row by row. *)
Inductive transition : string → string → Prop :=
  | created_pending : transition "created" "pending"
  | created_cancelled : transition "created" "cancelled"
  | pending_processing : transition "pending" "processing"
  | pending_cancelled : transition "pending" "cancelled"
  | processing_shipped : transition "processing" "shipped"
  | processing_cancelled : transition "processing" "cancelled"
  | shipped_delivered : transition "shipped" "delivered"
  | delivered_returned : transition "delivered" "returned".

(** A status that the table reaches from [created] in zero or more moves. *)
Definition reachable_status (status : string) : Prop :=
  rtc transition "created" status.

Definition statuses_reachable (s : db) : Prop :=
  map_Forall (λ _ o, reachable_status (o_status o)) (orders_db s).

(** The calls a client of the order / inventory core can make. *)
Inductive request :=
  | CreateOrder (uid user_id : string) (items : list item_request)
      (currency : string)
  | CancelOrder (order_id user_id : string)
  | SubmitOrder (order_id : string)
  | ProcessRefund (order_id reason : string)
  | UpdateOrderStatus (order_id status : string)
  | UpdateStock (product_id : string) (quantity_change : Z)
  | ReserveStock (uid_ntf uid_q product_id : string) (quantity : Z)
  | ReleaseStock (product_id : string) (quantity : Z).

(** The tables after one call. *)
Definition handle (r : request) (s : db) : db :=
  match r with
  | CreateOrder uid user_id items currency =>
      (create_order uid user_id items currency s).2
  | CancelOrder order_id user_id => (cancel_order order_id user_id s).2
  | SubmitOrder order_id => (submit_order order_id s).2
  | ProcessRefund order_id reason => (process_refund order_id reason s).2
  | UpdateOrderStatus order_id status =>
      (update_order_status order_id status s).2
  | UpdateStock product_id quantity_change =>
      (update_stock product_id quantity_change s).2
  | ReserveStock uid_ntf uid_q product_id quantity =>
      (reserve_stock uid_ntf uid_q product_id quantity s).2
  | ReleaseStock product_id quantity => (release_stock product_id quantity s).2
  end.

(** The tables after a sequence of calls. *)
Definition serve (requests : list request) (s : db) : db :=
  foldl (λ s r, handle r s) s requests.

(** An order of user [u1] for three units of [P], at the given status. *)
Definition order_of_u1 (status : string) : order_dict :=
  {| o_id := "ord_1"; o_user_id := "u1";
     o_items := [ {| i_product_id := "P"; i_quantity := 3;
                     i_price := 10%float; i_subtotal := 30%float |} ];
     o_total := 30%float; o_currency := "USD"; o_status := status |}.

(** [shop stock] with that order on record. *)
Definition shop_with_order (stock : Z) (status : string) : db :=
  {| users_db := {[ "u1" := user_u1 ]};
     products_db := {[ "P" := product_P stock ]};
     orders_db := {[ "ord_1" := order_of_u1 status ]};
     user_order_index := {[ "u1" := ["ord_1"] ]};
     queue := [] |}.

(** The sum of [f item] over the items that name [product_id]. *)
Definition adjustment (f : order_item → Z) (product_id : string)
    (items : list order_item) : Z :=
  foldr (λ item acc,
           if bool_decide (i_product_id item = product_id)
           then f item + acc else acc) 0 items.

(** The units of [product_id] that the items of an order ask for. *)
Definition ordered_quantity (product_id : string) (items : list order_item)
  : Z :=
  adjustment i_quantity product_id items.

(** Data-model invariant of an order item: [quantity > 0]. *)
Definition quantities_positive (items : list order_item) : Prop :=
  Forall (λ item, 0 < i_quantity item) items.

(** A price the default bounds of [validate_amount] let through: not below
    0.01 and not above 999999.99. *)
Definition price_in_range (price : float) : Prop :=
  PrimFloat.ltb price min_val_default = false
  ∧ PrimFloat.ltb max_val_default price = false.

(** The values [validate_order_items] reads off an item. *)
Definition requested_quantity (item : item_request) : Z :=
  default 0 (req_quantity item).
Definition requested_price (item : item_request) : float :=
  default 0%float (req_price item).
Definition requested_product (item : item_request) : string :=
  default "" (req_product_id item).

(** An item that [validate_order_items] accepts. *)
Definition item_valid (s : db) (item : item_request) : Prop :=
  0 < requested_quantity item ≤ 10000
  ∧ price_in_range (requested_price item)
  ∧ validate_decimal_places (requested_price item) 2 = Some true
  ∧ is_Some (products_db s !! requested_product item).

(** How far a price is from a whole number of hundredths, in exact
    arithmetic. A finite [float] is, up to its sign, [m * 2^e] for its
    mantissa [m] and exponent [e], that is the fraction [num / den] below;
    the price is within [slack] times 0.00000000005 of [hundredths / 100]
    when [|2 * 10^10 * num - 2 * 10^8 * hundredths * den| ≤ slack * den].
    With [slack = 0] the price is a whole number of hundredths; with
    [slack = 1] it is one when rounded to ten decimals. *)
Definition decimal_places_within (slack : Z) (price : float) : Prop :=
  match Prim2SF price with
  | S754_zero _ => True
  | S754_finite _ m e =>
      let num := Z.pos m * 2 ^ Z.max e 0 in
      let den := 2 ^ Z.max (- e) 0 in
      ∃ hundredths : Z,
        Z.abs (2 * 10 ^ 10 * num - 2 * 10 ^ 8 * hundredths * den)
        ≤ slack * den
  | S754_infinity _ | S754_nan => False
  end.

(** An item in order: a quantity in (0, 10000], a price in
    [0.01, 999999.99] that is within 0.00000000005 of a whole number of
    hundredths, and a product on record. *)
Definition item_in_order (s : db) (item : item_request) : Prop :=
  0 < requested_quantity item ≤ 10000
  ∧ price_in_range (requested_price item)
  ∧ decimal_places_within 1 (requested_price item)
  ∧ is_Some (products_db s !! requested_product item).

(** The conditions under which [create_order] answers with an error. *)
Definition validation_fails (user_id : string) (items : list item_request)
    (currency : string) (s : db) : Prop :=
  users_db s !! user_id = None
  ∨ (∃ user, users_db s !! user_id = Some user ∧ is_active user = false)
  ∨ upper currency ∉ get_valid_currencies
  ∨ items = []
  ∨ Exists (λ item, ¬ item_in_order s item) items.

(** The same two notions in the words of the specification: a valid item has
    its quantity in (0, 10000], a price that is at least 0 with at most two
    decimal places (read strictly: a whole number of hundredths), and a
    product that exists; validation fails when the user does not exist or is
    inactive, the currency is outside the supported set, or some item is
    invalid. *)
Definition spec_item_valid (s : db) (item : item_request) : Prop :=
  0 < requested_quantity item ≤ 10000
  ∧ PrimFloat.leb 0%float (requested_price item) = true
  ∧ decimal_places_within 0 (requested_price item)
  ∧ is_Some (products_db s !! requested_product item).

Definition spec_validation_fails (user_id : string)
    (items : list item_request) (currency : string) (s : db) : Prop :=
  users_db s !! user_id = None
  ∨ (∃ user, users_db s !! user_id = Some user ∧ is_active user = false)
  ∨ currency ∉ get_valid_currencies
  ∨ Exists (λ item, ¬ spec_item_valid s item) items.

(** The answer is an error dictionary. *)
Definition is_error {A} (r : option (response A)) : Prop :=
  ∃ code message, r = Some (ErrorResponse code message).

(** The error codes with which [create_order] reports a failed validation. *)
Definition validation_error_codes : list string :=
  ["USER_NOT_FOUND"; "USER_INACTIVE"; "BAD_CURRENCY"; "INVALID_ITEMS"].

(** The answer is an error dictionary that reports a failed validation. *)
Definition is_validation_error {A} (r : option (response A)) : Prop :=
  ∃ code message,
    r = Some (ErrorResponse code message) ∧ code ∈ validation_error_codes.

(** The answer is a success dictionary around [data]. *)
Definition is_success {A} (r : option (response A)) (data : A) : Prop :=
  r = Some (format_response data).

(** Three units of [P] at a price with eleven decimals. *)
Definition three_of_P_eleven_decimals : item_request :=
  {| req_product_id := Some "P"; req_quantity := Some 3;
     req_price := Some 19.99000000004%float |}.

(** Three units of [P] offered at the price 0. *)
Definition three_of_P_for_free : item_request :=
  {| req_product_id := Some "P"; req_quantity := Some 3;
     req_price := Some 0%float |}.

(** Data-model invariant of the order table: every item of every order has a
    positive quantity. *)
Definition orders_positive (s : db) : Prop :=
  map_Forall (λ _ o, quantities_positive (o_items o)) (orders_db s).

(** The invariants of the data model that the core maintains. *)
Definition data_model (s : db) : Prop := stock_nonneg s ∧ orders_positive s.

(** * The rest of the order / inventory core *)

(** ** Python slices *)

(** [xs[:n]] for an [int] [n]: a negative [n] counts from the end. *)
Definition slice_to {A} (n : Z) (xs : list A) : list A :=
  if 0 <=? n then take (Z.to_nat n) xs
  else take (Z.to_nat (Z.of_nat (length xs) + n)) xs.

(** [xs[n:]] *)
Definition slice_from {A} (n : Z) (xs : list A) : list A :=
  if 0 <=? n then drop (Z.to_nat n) xs
  else drop (Z.to_nat (Z.of_nat (length xs) + n)) xs.

(** ** order_repository.py: listing, counting, deleting *)

Definition delete_order_record (order_id : string) : State bool :=
  present <- gets (λ s, bool_decide (is_Some (orders_db s !! order_id))) ;;
  if present
  then modify (λ s, set_orders (delete order_id (orders_db s)) s) ;;;
       ret true
  else ret false.

(** [o.get("created_at", "")]: an [order_dict] has no such key. *)
Definition created_at (o : order_dict) : string := "".

(** [sorted(orders, key=created_at, reverse=True)]: descending and stable. *)
Fixpoint insert_by_date (o : order_dict) (sorted : list order_dict)
  : list order_dict :=
  match sorted with
  | [] => [o]
  | o' :: rest =>
      if String.ltb (created_at o) (created_at o')
      then o' :: insert_by_date o rest
      else o :: sorted
  end.

Definition sort_by_date (orders : list order_dict) : list order_dict :=
  foldr insert_by_date [] orders.

Definition list_orders_by_user (user_id : string) (limit : Z) (s : db)
  : list order_dict :=
  let order_ids := default [] (user_order_index s !! user_id) in
  let orders := omap (λ oid, find_order_by_id oid s) order_ids in
  slice_to limit (sort_by_date orders).

(** [user_id] is [Optional[str]]; [None] and the empty string are both
    false. *)
Definition count_orders (user_id : option string) (s : db) : nat :=
  match user_id with
  | Some u =>
      if bool_decide (u = "") then size (orders_db s)
      else length (list_orders_by_user u 999999 s)
  | None => size (orders_db s)
  end.

(** [{"id": .., "status": .., "total": .., "item_count": ..}] *)
Record order_summary := OrderSummary {
  sum_id : string;
  sum_status : string;
  sum_total : float;
  sum_item_count : nat;
}.

Definition summarize_order (o : order_dict) : order_summary :=
  {| sum_id := o_id o; sum_status := o_status o; sum_total := o_total o;
     sum_item_count := length (o_items o) |}.

Definition get_order_history (user_id : string) (s : db) : list order_summary :=
  summarize_order <$> list_orders_by_user user_id 999 s.

(** ** order_service.py: discounts and listings *)

(** [{"orders": orders, "count": len(orders)}] *)
Record order_listing := OrderListing {
  listed_orders : list order_dict;
  listed_count : nat;
}.

Definition list_user_orders (user_id : string) (limit : Z) (s : db)
  : response order_listing :=
  let orders := list_orders_by_user user_id limit s in
  format_response {| listed_orders := orders; listed_count := length orders |}.

(** [codes.get(code.upper())], the percentage of the code. *)
Definition discount_codes : gmap string Z :=
  list_to_map [("SAVE10", 10); ("SAVE20", 20)].

Definition lookup_discount (code : string) : option Z :=
  discount_codes !! upper code.

(** [{"original": .., "discounted": .., "code": ..}] *)
Record discount_quote := DiscountQuote {
  original : float;
  discounted : float;
  quoted_code : string;
}.

(** [percentage / 100] divides two [int]s into a [float]; [1 - _] and
    [total * _] are float operations. The function reads the order table and
    writes nothing. *)
Definition apply_discount (order_id code : string) (s : db)
  : response discount_quote :=
  match find_order_by_id order_id s with
  | None => format_error "NOT_FOUND" "Order not found"
  | Some order =>
      match lookup_discount code with
      | None => format_error "INVALID_CODE" "Discount code not valid"
      | Some percentage =>
          let new_total :=
            PrimFloat.mul (o_total order)
              (PrimFloat.sub 1%float
                 (PrimFloat.div (float_of_int percentage)
                    (float_of_int 100))) in
          format_response {| original := o_total order;
                             discounted := new_total;
                             quoted_code := code |}
      end
  end.

(** ** inventory_service.py: setting and reading the stock *)

(** [{"product_id": .., "new_stock": ..}] *)
Record inventory_update := InventoryUpdate {
  updated_product_id : string;
  new_stock : Z;
}.

(** The result of [update_stock] is dropped. *)
Definition update_inventory (product_id : string) (new_quantity : Z)
  : State (response inventory_update) :=
  product <- gets (find_product_by_id product_id) ;;
  match product with
  | None => ret (format_error "NOT_FOUND" "Product not found")
  | Some product =>
      let diff := new_quantity - get_stock product in
      update_stock product_id diff ;;;
      ret (format_response {| updated_product_id := product_id;
                              new_stock := new_quantity |})
  end.

(** [{"product_id": .., "stock": .., "status": ..}] *)
Record stock_level := StockLevel {
  level_product_id : string;
  level_stock : Z;
  level_status : string;
}.

Definition get_stock_level (product_id : string) (s : db)
  : response stock_level :=
  match find_product_by_id product_id s with
  | None => format_error "NOT_FOUND" "Product not found"
  | Some product =>
      format_response
        {| level_product_id := product_id;
           level_stock := get_stock product;
           level_status := classify_stock_level (get_stock product) |}
  end.

(** ** notification_service.py: working the queue off *)

(** [dispatch_notification(notification).get("success")] *)
Definition dispatch_notification (notification : notification_dict) : bool :=
  let channel := n_channel notification in
  if bool_decide (channel = "email") then true
  else if bool_decide (channel = "sms") then true
  else if bool_decide (channel = "push") then true
  else if bool_decide (channel = "webhook") then true
  else false.

(** [entry["status"] = status] *)
Definition set_entry_status (status : string) (entry : queue_entry)
  : queue_entry :=
  {| q_id := q_id entry; q_notification := q_notification entry;
     q_priority := q_priority entry; q_status := status |}.

(** The body of the [for] loop, as far as the entry goes. *)
Definition process_entry (entry : queue_entry) : queue_entry :=
  if dispatch_notification (q_notification entry)
  then set_entry_status "sent" entry
  else set_entry_status "failed" entry.

(** [{"processed": .., "errors": .., "remaining": ..}] *)
Record queue_report := QueueReport {
  processed : Z;
  errors : Z;
  remaining_entries : Z;
}.

(** The entries of the batch are the dictionaries of the queue itself: the
    statuses the loop writes are the statuses the queue holds afterwards.
    [_queue[:batch_size] = kept] puts [kept] in the place of the batch. *)
Definition process_queue (batch_size : Z) : State queue_report :=
  q <- gets queue ;;
  let batch := slice_to batch_size q in
  let succeeded :=
    filter (λ e, dispatch_notification (q_notification e) = true) batch in
  let failed :=
    filter (λ e, dispatch_notification (q_notification e) = false) batch in
  let kept := filter (λ e, q_status e ≠ "sent") (process_entry <$> batch) in
  let q' := kept ++ slice_from batch_size q in
  modify (set_queue q') ;;;
  ret {| processed := Z.of_nat (length succeeded);
         errors := Z.of_nat (length failed);
         remaining_entries := Z.of_nat (length q') |}.

(** ** Vocabulary of the further properties *)

(** The stored total of every order is the sum of its item subtotals. *)
Definition totals_consistent (s : db) : Prop :=
  map_Forall (λ _ o, o_total o = sum_floats (i_subtotal <$> o_items o))
             (orders_db s).

(** Two product records that differ at most in their stock. *)
Definition same_but_stock (p p' : product_dict) : Prop :=
  p_id p' = p_id p ∧ p_name p' = p_name p ∧ p_sku p' = p_sku p
  ∧ p_price p' = p_price p ∧ p_active p' = p_active p.

(** The product table of [s'] has the products of [s], under the same ids,
    with at most their stock changed. *)
Definition catalogue_kept (s s' : db) : Prop :=
  ∀ pid, option_Forall2 same_but_stock
           (products_db s !! pid) (products_db s' !! pid).

(** The queue in the order [_queue.sort] leaves it in: priorities ascend. *)
Definition by_priority (a b : queue_entry) : Prop :=
  q_priority a ≤ q_priority b.

Definition queue_sorted (q : list queue_entry) : Prop :=
  StronglySorted by_priority q.

(** ** product_repository.py: the sku index *)

(** [_sku_index] lives beside the tables of [db]; the functions that use it
    take it as an argument and hand the new index back. A [product_dict]
    always has its [sku], so the tests ["sku" in product] hold. *)
Definition find_product_by_sku (sku : string) (index : gmap string string)
    (s : db) : option product_dict :=
  match index !! sku with
  | None => None
  | Some product_id =>
      if bool_decide (product_id = "") then None
      else find_product_by_id product_id s
  end.

Definition create_product_record (product : product_dict)
    (index : gmap string string) (s : db)
  : product_dict * gmap string string * db :=
  (product,
   <[p_sku product := p_id product]> index,
   set_products (<[p_id product := product]> (products_db s)) s).

Definition delete_product_record (product_id : string)
    (index : gmap string string) (s : db) : bool * gmap string string * db :=
  match find_product_by_id product_id s with
  | None => (false, index, s)
  | Some product =>
      (true,
       delete (p_sku product) index,
       set_products (delete product_id (products_db s)) s)
  end.

(** ** inventory_service.py: synchronisation *)

(** An item of [external_data]: both keys are read with [item.get]. *)
Record sync_item := SyncItem {
  sync_sku : option string;
  sync_quantity : option Z;
}.

(** The stock is adjusted under the id the product carries. *)
Definition sync_single_product (index : gmap string string) (item : sync_item)
  : State bool :=
  match sync_sku item with
  | None => ret false
  | Some sku =>
      if bool_decide (sku = "") then ret false
      else
        product <- gets (find_product_by_sku sku index) ;;
        match product with
        | None => ret false
        | Some product =>
            let new_qty := default 0 (sync_quantity item) in
            let diff := new_qty - get_stock product in
            update_stock (p_id product) diff ;;;
            ret true
        end
  end.

(** [{"synced": .., "errors": ..}] *)
Record sync_report := SyncReport { synced : Z; sync_errors : Z }.

(** The [for] loop of [sync_inventory] with its two counters. *)
Fixpoint sync_each (index : gmap string string) (external_data : list sync_item)
    (counts : sync_report) : State sync_report :=
  match external_data with
  | [] => ret counts
  | item :: rest =>
      result <- sync_single_product index item ;;
      sync_each index rest
        (if result
         then {| synced := synced counts + 1;
                 sync_errors := sync_errors counts |}
         else {| synced := synced counts;
                 sync_errors := sync_errors counts + 1 |})
  end.

Definition sync_inventory (index : gmap string string)
    (external_data : list sync_item) : State (response sync_report) :=
  counts <- sync_each index external_data {| synced := 0; sync_errors := 0 |} ;;
  ret (format_response counts).

(** ** validators.py: names and addresses *)

(** [c in value] for a one-character [c]. *)
Fixpoint contains_char (c : ascii) (value : string) : bool :=
  match value with
  | EmptyString => false
  | String c' rest => Ascii.eqb c' c || contains_char c rest
  end.

(** [value.split(sep)] for a one-character [sep]. *)
Fixpoint split_char (sep : ascii) (value : string) : list string :=
  match value with
  | EmptyString => [EmptyString]
  | String c rest =>
      match split_char sep rest with
      | [] => [EmptyString]
      | part :: parts =>
          if Ascii.eqb c sep then EmptyString :: part :: parts
          else String c part :: parts
      end
  end.

(** The character class of [contains_special_chars]: the characters
    [<], [>], [&], the single quote, the double quote and the backslash. *)
Definition is_special_char (c : ascii) : bool :=
  let n := nat_of_ascii c in
  (n =? 60)%nat || (n =? 62)%nat || (n =? 38)%nat
  || (n =? 39)%nat || (n =? 34)%nat || (n =? 92)%nat.

Fixpoint contains_special_chars (value : string) : bool :=
  match value with
  | EmptyString => false
  | String c rest => is_special_char c || contains_special_chars rest
  end.

Definition validate_name (name : string) : bool :=
  if bool_decide (name = "") || (String.length name <? 2)%nat then false
  else negb (contains_special_chars name).

Definition validate_domain (domain : string) : bool :=
  if bool_decide (domain = "") || negb (contains_char "." domain) then false
  else (3 <=? String.length domain)%nat.

Definition validate_email (email : string) : bool :=
  if bool_decide (email = "") || negb (contains_char "@" email) then false
  else
    match split_char "@" email with
    | [_; domain] => validate_domain domain
    | _ => false
    end.

(** ** models.py and services.py: users *)

Definition create_user_model (uid name email role : string) : user_dict :=
  {| u_id := generate_id uid "usr";
     u_name := sanitize_string name;
     u_email := email;
     u_role := role;
     u_active := Some true |}.

(** [inl message] is [raise ValueError(message)]. *)
Definition create_user (uid name email : string) : string + user_dict :=
  if negb (validate_name name) then inl "Invalid name"
  else if negb (validate_email email) then inl "Invalid email"
  else inr (create_user_model uid name email "user").

(** ** Order ids drawn again *)

(** The call is a [create_order] whose uuid gives the id [order_id]: an order
    id is [ord_] followed by the first eight characters of the uuid drawn,
    and [create_order_record] writes over what is on record under it. *)
Definition draws_order_id (order_id : string) (r : request) : Prop :=
  match r with
  | CreateOrder uid _ _ _ => generate_id uid "ord" = order_id
  | _ => False
  end.

(** A uuid that shares its first eight characters with [uuid_a]. *)
Definition uuid_a' : string := "123e4567-0c1d-4b7a-9f3e-5a6b7c8d9e0f".

(** * Properties *)

(** Closes a goal [is_validation_error (Some (ErrorResponse code _))] for one
    of the four codes. *)
Ltac validation_error :=
  eexists _, _; split;
  [reflexivity | unfold validation_error_codes; by repeat constructor].

(** ** The state monad and the repositories, unfolded *)

Lemma update_stock_unfold product_id delta s :
  update_stock product_id delta s =
  match products_db s !! product_id with
  | None => (None, s)
  | Some p =>
      if get_stock p + delta <? 0 then (None, s)
      else (Some (get_stock p + delta),
            set_products
              (<[product_id := set_stock (get_stock p + delta) p]>
                 (products_db s)) s)
  end.
Proof.
  unfold update_stock, bind, gets, find_product_by_id.
  destruct (products_db s !! product_id) as [p|]; [|reflexivity].
  destruct (get_stock p + delta <? 0); reflexivity.
Qed.

Lemma update_stock_missing product_id delta s :
  products_db s !! product_id = None →
  update_stock product_id delta s = (None, s).
Proof. intros H. rewrite update_stock_unfold, H. reflexivity. Qed.

Lemma update_stock_rejected product_id delta s p :
  products_db s !! product_id = Some p →
  get_stock p + delta < 0 →
  update_stock product_id delta s = (None, s).
Proof.
  intros H Hneg. rewrite update_stock_unfold, H.
  destruct (Z.ltb_spec (get_stock p + delta) 0); [reflexivity | lia].
Qed.

Lemma update_stock_committed product_id delta s p :
  products_db s !! product_id = Some p →
  0 ≤ get_stock p + delta →
  update_stock product_id delta s =
    (Some (get_stock p + delta),
     set_products
       (<[product_id := set_stock (get_stock p + delta) p]> (products_db s)) s).
Proof.
  intros H Hge. rewrite update_stock_unfold, H.
  destruct (Z.ltb_spec (get_stock p + delta) 0); [lia | reflexivity].
Qed.

Lemma update_stock_preserves_nonneg product_id delta s :
  stock_nonneg s → stock_nonneg (update_stock product_id delta s).2.
Proof.
  intros Hs. rewrite update_stock_unfold.
  destruct (products_db s !! product_id) as [p|] eqn:Hp; [|exact Hs].
  destruct (Z.ltb_spec (get_stock p + delta) 0); [exact Hs|].
  unfold stock_nonneg; simpl. apply map_Forall_insert_2; [|exact Hs].
  change (0 ≤ get_stock p + delta). lia.
Qed.

Lemma run_adjustments_preserves_nonneg calls :
  ∀ s, stock_nonneg s → stock_nonneg (run_adjustments calls s).
Proof.
  induction calls as [|[product_id delta] rest IH]; intros s Hs; simpl.
  - exact Hs.
  - apply IH, update_stock_preserves_nonneg, Hs.
Qed.

Lemma stock_nonneg_shop stock : 0 ≤ stock → stock_nonneg (shop stock).
Proof.
  intros H. unfold stock_nonneg, shop; simpl.
  apply map_Forall_singleton. simpl. exact H.
Qed.

(** ** C1: the ledger never goes negative *)

(** C1. From a ledger without negative stock, no sequence of [update_stock]
    calls makes any stock negative; on a product that exists, a call whose
    result [current + delta] would be negative returns [None] and leaves the
    tables as they were, and any other call returns the new stock and commits
    it as the product's stock. *)
Theorem update_stock_never_negative (s : db) (calls : list (string * Z)) :
  stock_nonneg s →
  stock_nonneg (run_adjustments calls s)
  ∧ (∀ product_id delta p,
       products_db s !! product_id = Some p →
       get_stock p + delta < 0 →
       update_stock product_id delta s = (None, s))
  ∧ (∀ product_id delta p,
       products_db s !! product_id = Some p →
       0 ≤ get_stock p + delta →
       (update_stock product_id delta s).1 = Some (get_stock p + delta)
       ∧ stock_of product_id (update_stock product_id delta s).2
         = Some (get_stock p + delta)).
Proof.
  intros Hs. split; [|split].
  - apply run_adjustments_preserves_nonneg, Hs.
  - intros product_id delta p Hp Hneg.
    eapply update_stock_rejected; eassumption.
  - intros product_id delta p Hp Hge.
    rewrite (update_stock_committed _ _ _ _ Hp Hge). split; [reflexivity|].
    unfold stock_of; simpl. rewrite lookup_insert_eq. reflexivity.
Qed.

Lemma update_stock_never_negative_witness :
  stock_nonneg (run_adjustments [("P", -3); ("P", -3); ("P", 4)] (shop 5))
  ∧ update_stock "P" (-6) (shop 5) = (None, shop 5)
  ∧ (update_stock "P" (-3) (shop 5)).1 = Some 2
  ∧ stock_of "P" (update_stock "P" (-3) (shop 5)).2 = Some 2.
Proof.
  destruct (update_stock_never_negative (shop 5)
              [("P", -3); ("P", -3); ("P", 4)]) as (Hinv & Hrej & Hok).
  { apply stock_nonneg_shop. lia. }
  split; [exact Hinv|]. split.
  - apply (Hrej "P" (-6) (product_P 5)); [reflexivity | by vm_compute].
  - apply (Hok "P" (-3) (product_P 5)); [reflexivity | by vm_compute].
Defined.

(** ** C4: stock classification *)

(** C4, as the thresholds define it. [classify_stock_level] is a function of
    its argument alone; it answers by the fixed thresholds (at most 0: out of
    stock, at most 10: low, at most 50: medium, above 50: high), and the
    boundary inputs 0, 1, 10, 11, 50, 51 map to out of stock, low, low,
    medium, medium, high. *)
Theorem classify_stock_level_thresholds :
  (∀ a b, a = b → classify_stock_level a = classify_stock_level b)
  ∧ (∀ stock,
       (stock ≤ 0 → classify_stock_level stock = "out_of_stock")
       ∧ (0 < stock ≤ 10 → classify_stock_level stock = "low")
       ∧ (10 < stock ≤ 50 → classify_stock_level stock = "medium")
       ∧ (50 < stock → classify_stock_level stock = "high"))
  ∧ Forall (λ row, classify_stock_level row.1 = row.2) boundary_table.
Proof.
  split; [intros a b ->; reflexivity|]. split.
  - intros stock. unfold classify_stock_level.
    destruct (Z.leb_spec stock 0), (Z.leb_spec stock 10),
      (Z.leb_spec stock 50); repeat split; intros; first [reflexivity | lia].
  - unfold boundary_table; simpl. repeat constructor.
Qed.

(** The table as printed (0, 10, 11, 50, 51 against out of stock, low, low,
    medium, medium, ...) does not hold of the code: 11 is medium, 51 is high. *)
Lemma classify_stock_level_printed_table_fails :
  ¬ Forall (λ row, classify_stock_level row.1 = row.2) spec_boundary_table.
Proof.
  unfold spec_boundary_table; simpl. intros H.
  apply Forall_cons_1 in H as [_ H]. apply Forall_cons_1 in H as [_ H].
  apply Forall_cons_1 in H as [H _]. vm_compute in H. discriminate H.
Qed.

(** ** The order repository, unfolded *)

Lemma valid_transitions_lookup current :
  default [] (valid_transitions !! current) =
  if decide (current = "created") then ["pending"; "cancelled"]
  else if decide (current = "pending") then ["processing"; "cancelled"]
  else if decide (current = "processing") then ["shipped"; "cancelled"]
  else if decide (current = "shipped") then ["delivered"]
  else if decide (current = "delivered") then ["returned"]
  else [].
Proof.
  unfold valid_transitions. cbn [list_to_map foldr uncurry fst snd].
  repeat (rewrite lookup_insert; case_decide; subst;
          [ simpl; try reflexivity | ]).
  all: repeat case_decide; try congruence; reflexivity.
Qed.

(** The lookup in the code's table decides the transition relation. *)
Lemma is_valid_status_transition_spec current target :
  is_valid_status_transition current target = true ↔ transition current target.
Proof.
  unfold is_valid_status_transition.
  rewrite bool_decide_eq_true, valid_transitions_lookup. split.
  - repeat case_decide; subst; intros Hin;
      repeat (apply elem_of_cons in Hin as [->|Hin]); try constructor;
      by apply elem_of_nil in Hin.
  - destruct 1; simpl; set_solver.
Qed.

Lemma update_order_status_unfold order_id status s :
  update_order_status order_id status s =
  match orders_db s !! order_id with
  | None => (None, s)
  | Some o =>
      if is_valid_status_transition (o_status o) status
      then (Some (set_status status o),
            set_orders (<[order_id := set_status status o]> (orders_db s)) s)
      else (None, s)
  end.
Proof.
  unfold update_order_status, bind, gets, find_order_by_id.
  destruct (orders_db s !! order_id) as [o|]; [|reflexivity].
  destruct (is_valid_status_transition (o_status o) status); reflexivity.
Qed.

Lemma create_order_record_unfold o s :
  create_order_record o s =
  (o, set_user_order_index
        (<[o_user_id o :=
             default []
               (match user_order_index s !! o_user_id o with
                | None => <[o_user_id o := []]> (user_order_index s)
                | Some _ => user_order_index s
                end !! o_user_id o) ++ [o_id o]]>
           (match user_order_index s !! o_user_id o with
            | None => <[o_user_id o := []]> (user_order_index s)
            | Some _ => user_order_index s
            end))
        (set_orders (<[o_id o := o]> (orders_db s)) s)).
Proof. reflexivity. Qed.

(** ** Frame properties: which table each operation can touch *)

Lemma for_each_invariant {A B} (body : A → State B) (I : db → Prop) xs :
  (∀ x s, I s → I (body x s).2) →
  ∀ s, I s → I (for_each body xs s).2.
Proof.
  intros Hbody. induction xs as [|x xs IH]; intros s Hs; simpl.
  - exact Hs.
  - unfold bind. destruct (body x s) as [b s1] eqn:E.
    apply IH. specialize (Hbody x s Hs). rewrite E in Hbody. exact Hbody.
Qed.

(** [update_stock] writes the product table only. *)
Lemma update_stock_frame product_id delta s :
  let s' := (update_stock product_id delta s).2 in
  users_db s' = users_db s ∧ orders_db s' = orders_db s
  ∧ user_order_index s' = user_order_index s ∧ queue s' = queue s.
Proof.
  simpl. rewrite update_stock_unfold.
  destruct (products_db s !! product_id) as [p|]; [|done].
  destruct (get_stock p + delta <? 0); done.
Qed.

Lemma stock_loop_frame (f : order_item → Z) items s :
  let s' := (for_each (λ item, update_stock (i_product_id item) (f item))
               items s).2 in
  users_db s' = users_db s ∧ orders_db s' = orders_db s
  ∧ user_order_index s' = user_order_index s ∧ queue s' = queue s.
Proof.
  simpl.
  apply (for_each_invariant _
           (λ s', users_db s' = users_db s ∧ orders_db s' = orders_db s
                  ∧ user_order_index s' = user_order_index s
                  ∧ queue s' = queue s)); [|done].
  intros item s1 (H1 & H2 & H3 & H4).
  destruct (update_stock_frame (i_product_id item) (f item) s1)
    as (F1 & F2 & F3 & F4).
  rewrite F1, F2, F3, F4. done.
Qed.

Lemma stock_loop_nonneg (f : order_item → Z) items s :
  stock_nonneg s →
  stock_nonneg (for_each (λ item, update_stock (i_product_id item) (f item))
                  items s).2.
Proof.
  apply for_each_invariant. intros item s1.
  apply update_stock_preserves_nonneg.
Qed.

(** [update_order_status] writes the order table only. *)
Lemma update_order_status_frame order_id status s :
  let s' := (update_order_status order_id status s).2 in
  users_db s' = users_db s ∧ products_db s' = products_db s
  ∧ user_order_index s' = user_order_index s ∧ queue s' = queue s.
Proof.
  simpl. rewrite update_order_status_unfold.
  destruct (orders_db s !! order_id) as [o|]; [|done].
  destruct (is_valid_status_transition (o_status o) status); done.
Qed.

(** A rejected status update changes nothing at all. *)
Lemma update_order_status_rejected order_id status s :
  (update_order_status order_id status s).1 = None →
  update_order_status order_id status s = (None, s).
Proof.
  rewrite update_order_status_unfold.
  destruct (orders_db s !! order_id) as [o|]; [|done].
  destruct (is_valid_status_transition (o_status o) status); done.
Qed.

(** ** The services, unfolded *)

Lemma create_order_unfold uid user_id items currency s :
  create_order uid user_id items currency s =
  match users_db s !! user_id with
  | None => (Some (format_error "USER_NOT_FOUND" "User does not exist"), s)
  | Some user =>
      if negb (is_active user)
      then (Some (format_error "USER_INACTIVE" "User account is inactive"), s)
      else if negb (validate_currency currency)
      then (Some (format_error "BAD_CURRENCY" "Unsupported currency"), s)
      else
        match validate_order_items items s with
        | None => (None, s)
        | Some v =>
            if negb (valid v)
            then (Some (format_error "INVALID_ITEMS" (reason v)), s)
            else
              let order := create_order_model uid user_id items currency in
              (Some (format_response order),
               (reserve_order_stock order (create_order_record order s).2).2)
        end
  end.
Proof.
  unfold create_order, bind, gets, find_user_by_id.
  destruct (users_db s !! user_id) as [user|]; [|reflexivity].
  destruct (negb (is_active user)); [reflexivity|].
  destruct (negb (validate_currency currency)); [reflexivity|].
  destruct (validate_order_items items s) as [v|]; [|reflexivity].
  destruct (negb (valid v)); [reflexivity|].
  rewrite create_order_record_unfold.
  destruct (reserve_order_stock _ _); reflexivity.
Qed.

Lemma cancel_order_unfold order_id user_id s :
  cancel_order order_id user_id s =
  match orders_db s !! order_id with
  | None => (format_error "NOT_FOUND" "Order not found", s)
  | Some o =>
      if bool_decide (o_user_id o ≠ user_id)
      then (format_error "FORBIDDEN" "Not your order", s)
      else if is_valid_status_transition (o_status o) "cancelled"
      then (format_response (set_status "cancelled" o),
            (release_order_stock o
               (set_orders (<[order_id := set_status "cancelled" o]>
                              (orders_db s)) s)).2)
      else (format_error "INVALID_STATE" "Cannot cancel in current state", s)
  end.
Proof.
  unfold cancel_order, bind, gets, find_order_by_id.
  destruct (orders_db s !! order_id) as [o|] eqn:Ho; [|reflexivity].
  destruct (bool_decide (o_user_id o ≠ user_id)); [reflexivity|].
  rewrite update_order_status_unfold, Ho.
  destruct (is_valid_status_transition (o_status o) "cancelled");
    [|reflexivity].
  destruct (release_order_stock _ _); reflexivity.
Qed.

Lemma process_refund_state order_id reason s :
  (process_refund order_id reason s).2 =
  match orders_db s !! order_id with
  | None => s
  | Some o =>
      if is_valid_status_transition (o_status o) "returned"
      then (release_order_stock o
              (set_orders (<[order_id := set_status "returned" o]>
                             (orders_db s)) s)).2
      else s
  end.
Proof.
  unfold process_refund, bind, gets, find_order_by_id.
  destruct (orders_db s !! order_id) as [o|] eqn:Ho; [|reflexivity].
  rewrite update_order_status_unfold, Ho.
  destruct (is_valid_status_transition (o_status o) "returned");
    [|reflexivity].
  destruct (release_order_stock _ _); reflexivity.
Qed.

Lemma submit_order_state order_id s :
  (submit_order order_id s).2 = s
  ∨ (submit_order order_id s).2 = (update_order_status order_id "pending" s).2.
Proof.
  unfold submit_order, bind, gets.
  destruct (negb (valid (validate_order order_id s))); [by left|].
  destruct (update_order_status order_id "pending" s) as [[o|] s1];
    by right.
Qed.

Lemma reserve_stock_unfold uid_ntf uid_q product_id quantity s :
  reserve_stock uid_ntf uid_q product_id quantity s =
  match products_db s !! product_id with
  | None => (format_error "OUT_OF_STOCK" "Insufficient stock", s)
  | Some p =>
      if quantity <=? get_stock p
      then
        let left := get_stock p + - quantity in
        let s1 := set_products
                    (<[product_id := set_stock left p]> (products_db s)) s in
        (format_response {| reserved := quantity; remaining := left |},
         if left <=? 10
         then (trigger_reorder_alert uid_ntf uid_q (set_stock left p) s1).2
         else s1)
      else (format_error "OUT_OF_STOCK" "Insufficient stock", s)
  end.
Proof.
  unfold reserve_stock, bind, gets, check_availability, find_product_by_id.
  destruct (products_db s !! product_id) as [p|] eqn:Hp; [|reflexivity].
  simpl. destruct (Z.leb_spec quantity (get_stock p)); [|reflexivity].
  simpl. rewrite (update_stock_committed product_id (- quantity) s p Hp) by lia.
  unfold check_reorder_needed, bind, gets, find_product_by_id.
  simpl. rewrite lookup_insert_eq.
  change (get_stock (set_stock (get_stock p + - quantity) p))
    with (get_stock p + - quantity).
  destruct (get_stock p + - quantity <=? 10); reflexivity.
Qed.

Lemma trigger_reorder_alert_state uid_ntf uid_q product s :
  (trigger_reorder_alert uid_ntf uid_q product s).2 =
  set_queue
    (sort_queue_list
       (queue s ++
        [{| q_id := generate_id uid_q "q";
            q_notification :=
              create_notification_model uid_ntf "system" "email"
                ("Low stock: " +:+ p_name product)
                ("Product " +:+ p_sku product +:+ " has only "
                   +:+ pretty (get_stock product) +:+ " units left.");
            q_priority := 1;
            q_status := "queued" |}])) s.
Proof. reflexivity. Qed.

Lemma reserve_stock_orders uid_ntf uid_q product_id quantity s :
  orders_db (reserve_stock uid_ntf uid_q product_id quantity s).2 = orders_db s.
Proof.
  rewrite reserve_stock_unfold.
  destruct (products_db s !! product_id) as [p|]; [|reflexivity].
  destruct (quantity <=? get_stock p); [|reflexivity].
  simpl. destruct (get_stock p + - quantity <=? 10); reflexivity.
Qed.

Lemma release_stock_state product_id quantity s :
  (release_stock product_id quantity s).2
  = (update_stock product_id quantity s).2.
Proof.
  unfold release_stock, bind.
  destruct (update_stock product_id quantity s) as [[n|] s1]; reflexivity.
Qed.

(** ** Reachability of order statuses *)

Lemma update_order_status_reachable order_id status s :
  statuses_reachable s →
  statuses_reachable (update_order_status order_id status s).2.
Proof.
  intros Hs. rewrite update_order_status_unfold.
  destruct (orders_db s !! order_id) as [o|] eqn:Ho; [|exact Hs].
  destruct (is_valid_status_transition (o_status o) status) eqn:Hv;
    [|exact Hs].
  unfold statuses_reachable; simpl. apply map_Forall_insert_2; [|exact Hs].
  simpl. eapply rtc_r.
  - exact (Hs _ _ Ho).
  - by apply is_valid_status_transition_spec.
Qed.

Lemma statuses_reachable_same_orders s s' :
  orders_db s' = orders_db s → statuses_reachable s → statuses_reachable s'.
Proof. unfold statuses_reachable. by intros ->. Qed.

Lemma release_order_stock_reachable o s :
  statuses_reachable s → statuses_reachable (release_order_stock o s).2.
Proof.
  apply statuses_reachable_same_orders.
  apply (stock_loop_frame i_quantity (o_items o) s).
Qed.

Lemma handle_reachable r s :
  statuses_reachable s → statuses_reachable (handle r s).
Proof.
  intros Hs. destruct r; simpl.
  - rewrite create_order_unfold.
    destruct (users_db s !! user_id) as [user|]; [|exact Hs].
    destruct (negb (is_active user)); [exact Hs|].
    destruct (negb (validate_currency currency)); [exact Hs|].
    destruct (validate_order_items items s) as [v|]; [|exact Hs].
    destruct (negb (valid v)); [exact Hs|].
    cbv zeta. eapply statuses_reachable_same_orders.
    { apply (stock_loop_frame (λ item, - i_quantity item)). }
    rewrite create_order_record_unfold. unfold statuses_reachable; simpl.
    apply map_Forall_insert_2; [|exact Hs]. simpl. apply rtc_refl.
  - rewrite cancel_order_unfold.
    destruct (orders_db s !! order_id) as [o|] eqn:Ho; [|exact Hs].
    destruct (bool_decide (o_user_id o ≠ user_id)); [exact Hs|].
    pose proof (update_order_status_reachable order_id "cancelled" s Hs) as Hu.
    rewrite update_order_status_unfold, Ho in Hu.
    destruct (is_valid_status_transition (o_status o) "cancelled");
      [|exact Hs].
    by apply release_order_stock_reachable.
  - destruct (submit_order_state order_id s) as [-> | ->]; [exact Hs|].
    by apply update_order_status_reachable.
  - rewrite process_refund_state.
    destruct (orders_db s !! order_id) as [o|] eqn:Ho; [|exact Hs].
    pose proof (update_order_status_reachable order_id "returned" s Hs) as Hu.
    rewrite update_order_status_unfold, Ho in Hu.
    destruct (is_valid_status_transition (o_status o) "returned");
      [|exact Hs].
    by apply release_order_stock_reachable.
  - by apply update_order_status_reachable.
  - eapply statuses_reachable_same_orders; [|exact Hs].
    apply update_stock_frame.
  - eapply statuses_reachable_same_orders; [|exact Hs].
    apply reserve_stock_orders.
  - rewrite release_stock_state.
    eapply statuses_reachable_same_orders; [|exact Hs].
    apply update_stock_frame.
Qed.

Lemma serve_reachable requests :
  ∀ s, statuses_reachable s → statuses_reachable (serve requests s).
Proof.
  unfold serve. induction requests as [|r rest IH]; intros s Hs; simpl.
  - exact Hs.
  - apply IH, handle_reachable, Hs.
Qed.

(** The statuses the table reaches from [created] are these seven. *)
Lemma reachable_status_cases status :
  reachable_status status ↔
  status ∈ ["created"; "pending"; "processing"; "shipped"; "delivered";
            "returned"; "cancelled"].
Proof.
  split.
  - revert status. unfold reachable_status.
    apply rtc_ind_r; [set_solver|].
    intros y z _ Hstep _. destruct Hstep; set_solver.
  - intros H. unfold reachable_status.
    repeat (apply elem_of_cons in H as [->|H]).
    + apply rtc_refl.
    + eauto using rtc_l, rtc_refl, transition.
    + eauto using rtc_l, rtc_refl, transition.
    + eauto 6 using rtc_l, rtc_refl, transition.
    + eauto 7 using rtc_l, rtc_refl, transition.
    + eauto 8 using rtc_l, rtc_refl, transition.
    + eauto using rtc_l, rtc_refl, transition.
    + by apply elem_of_nil in H.
Qed.

(** ** C2: the status of an order follows the transition table *)

(** C2. The code's table is the transition table of the specification; an
    order is born at status [created]; whatever calls the core serves, every
    order's status stays among the statuses the table reaches from [created]
    (from an empty order table these are the seven statuses of the table);
    and a status update outside the table returns the error result [None] and
    leaves the order, and every table, as it was. *)
Theorem order_status_follows_transition_table :
  (∀ current target,
     is_valid_status_transition current target = true
     ↔ transition current target)
  ∧ (∀ uid user_id items currency,
       o_status (create_order_model uid user_id items currency) = "created")
  ∧ (∀ s requests,
       statuses_reachable s → statuses_reachable (serve requests s))
  ∧ (∀ s requests order_id o,
       orders_db s = ∅ →
       orders_db (serve requests s) !! order_id = Some o →
       o_status o ∈ ["created"; "pending"; "processing"; "shipped";
                     "delivered"; "returned"; "cancelled"])
  ∧ (∀ s order_id o target,
       orders_db s !! order_id = Some o →
       ¬ transition (o_status o) target →
       update_order_status order_id target s = (None, s)).
Proof.
  split; [exact is_valid_status_transition_spec|].
  split; [reflexivity|].
  split; [intros s requests; apply serve_reachable|].
  split.
  - intros s requests order_id o Hempty Ho.
    apply reachable_status_cases.
    refine (serve_reachable requests s _ order_id o Ho).
    unfold statuses_reachable. rewrite Hempty. apply map_Forall_empty.
  - intros s order_id o target Ho Hno.
    rewrite update_order_status_unfold, Ho.
    destruct (is_valid_status_transition (o_status o) target) eqn:Hv;
      [|reflexivity].
    apply is_valid_status_transition_spec in Hv. contradiction.
Qed.

(** ** C10: a status update touches the status field only *)

(** C10. On an order that exists, [update_order_status] leaves the order's id,
    user id, items, total and currency as they were, whether the update is
    accepted (the status becomes the target) or rejected (the status stays);
    no other order changes either. *)
Theorem update_order_status_changes_status_only
    (s : db) (order_id status : string) (o : order_dict) :
  orders_db s !! order_id = Some o →
  ∃ o',
    orders_db (update_order_status order_id status s).2 !! order_id = Some o'
    ∧ o_id o' = o_id o
    ∧ o_user_id o' = o_user_id o
    ∧ o_items o' = o_items o
    ∧ o_total o' = o_total o
    ∧ o_currency o' = o_currency o
    ∧ o_status o' = (if is_valid_status_transition (o_status o) status
                     then status else o_status o)
    ∧ ∀ other, other ≠ order_id →
        orders_db (update_order_status order_id status s).2 !! other
        = orders_db s !! other.
Proof.
  intros Ho. rewrite update_order_status_unfold, Ho.
  destruct (is_valid_status_transition (o_status o) status); simpl.
  - exists (set_status status o). rewrite lookup_insert_eq.
    repeat split; try reflexivity.
    intros other Hne. by rewrite lookup_insert_ne.
  - exists o. repeat split; done.
Qed.

Lemma update_order_status_changes_status_only_witness :
  ∃ o',
    orders_db (update_order_status "ord_1" "pending"
                 (shop_with_order 2 "created")).2 !! "ord_1" = Some o'
    ∧ o_id o' = "ord_1"
    ∧ o_user_id o' = "u1"
    ∧ o_items o' = o_items (order_of_u1 "created")
    ∧ o_total o' = 30%float
    ∧ o_currency o' = "USD"
    ∧ o_status o' = "pending"
    ∧ ∀ other, other ≠ "ord_1" →
        orders_db (update_order_status "ord_1" "pending"
                     (shop_with_order 2 "created")).2 !! other
        = orders_db (shop_with_order 2 "created") !! other.
Proof.
  exact (update_order_status_changes_status_only
           (shop_with_order 2 "created") "ord_1" "pending"
           (order_of_u1 "created") eq_refl).
Defined.

(** ** The stock loops of reservation and release *)

Lemma adjustment_cons (f : order_item → Z) pid item rest :
  adjustment f pid (item :: rest) =
  if bool_decide (i_product_id item = pid)
  then f item + adjustment f pid rest else adjustment f pid rest.
Proof. reflexivity. Qed.

Lemma adjustment_nonneg (f : order_item → Z) pid items :
  Forall (λ item, 0 ≤ f item) items → 0 ≤ adjustment f pid items.
Proof.
  induction 1 as [|item rest Hitem _ IH]; [done|].
  rewrite adjustment_cons. case_bool_decide; lia.
Qed.

Lemma adjustment_opp (f : order_item → Z) pid items :
  adjustment (λ item, - f item) pid items = - adjustment f pid items.
Proof.
  induction items as [|item rest IH]; [done|].
  rewrite !adjustment_cons, IH. case_bool_decide; lia.
Qed.

Lemma adjustment_take_le (f : order_item → Z) pid items k :
  Forall (λ item, 0 ≤ f item) items →
  adjustment f pid (take k items) ≤ adjustment f pid items.
Proof.
  intros H. revert k. induction H as [|item rest Hitem Hrest IH]; intros k.
  - by rewrite take_nil.
  - pose proof (adjustment_nonneg f pid rest Hrest).
    destruct k as [|k]; [rewrite take_0 | rewrite firstn_cons];
      rewrite ?adjustment_cons; [|specialize (IH k)];
      case_bool_decide; simpl; lia.
Qed.

(** A loop of [update_stock] calls in which no call is rejected moves every
    stock by the sum of the adjustments to its product. No call is rejected
    when the running stock of every product stays at or above zero. *)
Lemma stock_loop_stock (f : order_item → Z) items :
  ∀ s,
    (∀ pid p k, products_db s !! pid = Some p →
                0 ≤ get_stock p + adjustment f pid (take k items)) →
    ∀ pid,
      stock_of pid
        (for_each (λ item, update_stock (i_product_id item) (f item))
           items s).2
      = (λ n, n + adjustment f pid items) <$> stock_of pid s.
Proof.
  induction items as [|item rest IH]; intros s Hrun pid.
  - simpl. unfold stock_of. destruct (products_db s !! pid); simpl; [|done].
    f_equal. unfold adjustment; simpl. lia.
  - cbn [for_each]. unfold bind at 1.
    destruct (update_stock (i_product_id item) (f item) s) as [r s1] eqn:Hupd.
    rewrite update_stock_unfold in Hupd. rewrite adjustment_cons.
    assert (Hstep : ∀ pid' p' k, products_db s !! pid' = Some p' →
              0 ≤ get_stock p'
                  + (if bool_decide (i_product_id item = pid')
                     then f item + adjustment f pid' (take k rest)
                     else adjustment f pid' (take k rest))).
    { intros pid' p' k Hp'. apply (Hrun pid' p' (S k) Hp'). }
    destruct (products_db s !! i_product_id item) as [p|] eqn:Hp.
    + pose proof (Hstep _ _ 0%nat Hp) as Hfirst.
      rewrite bool_decide_eq_true_2, take_0 in Hfirst by done.
      change (adjustment f (i_product_id item) []) with 0 in Hfirst.
      destruct (Z.ltb_spec (get_stock p + f item) 0); [lia|].
      injection Hupd as <- <-. rewrite IH.
      * unfold stock_of; simpl.
        destruct (decide (i_product_id item = pid)) as [<-|Hne].
        -- rewrite lookup_insert_eq, Hp, bool_decide_eq_true_2 by done.
           simpl. f_equal. change (get_stock (set_stock ?n p)) with n. lia.
        -- rewrite lookup_insert_ne, bool_decide_eq_false_2 by done.
           done.
      * intros pid' p' k Hp'. simpl in Hp'.
        destruct (decide (i_product_id item = pid')) as [<-|Hne].
        -- rewrite lookup_insert_eq in Hp'. injection Hp' as <-.
           pose proof (Hstep _ _ k Hp) as Hk.
           rewrite bool_decide_eq_true_2 in Hk by done.
           change (get_stock (set_stock ?n p)) with n. lia.
        -- rewrite lookup_insert_ne in Hp' by done.
           pose proof (Hstep _ _ k Hp') as Hk.
           by rewrite bool_decide_eq_false_2 in Hk.
    + injection Hupd as <- <-. rewrite IH.
      * unfold stock_of.
        destruct (decide (i_product_id item = pid)) as [<-|Hne].
        -- by rewrite Hp.
        -- by rewrite bool_decide_eq_false_2.
      * intros pid' p' k Hp'.
        pose proof (Hstep _ _ k Hp') as Hk.
        rewrite bool_decide_eq_false_2 in Hk by congruence.
        exact Hk.
Qed.

Lemma quantities_positive_nonneg items :
  quantities_positive items → Forall (λ item, 0 ≤ i_quantity item) items.
Proof. intros H. eapply Forall_impl; [exact H|]. intros item. simpl. lia. Qed.

(** Release: with no negative stock and no negative quantity, every product
    gains what the items ask of it. *)
Lemma release_order_stock_stock o s :
  stock_nonneg s →
  quantities_positive (o_items o) →
  ∀ pid,
    stock_of pid (release_order_stock o s).2
    = (λ n, n + ordered_quantity pid (o_items o)) <$> stock_of pid s.
Proof.
  intros Hs Hq pid. unfold release_order_stock, ordered_quantity.
  apply stock_loop_stock. intros pid' p k Hp.
  pose proof (Hs _ _ Hp) as Hp0. simpl in Hp0.
  assert (0 ≤ adjustment i_quantity pid' (take k (o_items o))); [|lia].
  apply adjustment_nonneg, Forall_take, quantities_positive_nonneg, Hq.
Qed.

(** Reservation: when every product holds at least what the items ask of it,
    every product loses exactly that. *)
Lemma reserve_order_stock_stock o s :
  quantities_positive (o_items o) →
  (∀ pid p, products_db s !! pid = Some p →
            ordered_quantity pid (o_items o) ≤ get_stock p) →
  ∀ pid,
    stock_of pid (reserve_order_stock o s).2
    = (λ n, n - ordered_quantity pid (o_items o)) <$> stock_of pid s.
Proof.
  intros Hq Henough pid. unfold reserve_order_stock.
  rewrite stock_loop_stock.
  - rewrite adjustment_opp. unfold ordered_quantity.
    destruct (stock_of pid s); simpl; [f_equal; lia | done].
  - intros pid' p k Hp. rewrite adjustment_opp.
    pose proof (Henough _ _ Hp) as Hle. unfold ordered_quantity in Hle.
    pose proof (adjustment_take_le i_quantity pid' (o_items o) k
                  (quantities_positive_nonneg _ Hq)).
    lia.
Qed.

(** ** C7: cancellation *)

(** An error answer of [cancel_order] comes with untouched tables. *)
Lemma cancel_order_error_keeps_state order_id user_id s code message :
  (cancel_order order_id user_id s).1 = ErrorResponse code message →
  (cancel_order order_id user_id s).2 = s.
Proof.
  rewrite cancel_order_unfold.
  destruct (orders_db s !! order_id) as [o|]; [|done].
  destruct (bool_decide (o_user_id o ≠ user_id)); [done|].
  destruct (is_valid_status_transition (o_status o) "cancelled"); done.
Qed.

(** C7. [cancel_order] answers [NOT_FOUND] when the order table has no such
    id, [FORBIDDEN] when the order belongs to another user, and
    [INVALID_STATE] when the table has no move from the order's status to
    [cancelled] (from [shipped], for one); whenever it answers with an error,
    every table, the stock of every product included, is as before. When it
    succeeds, on a ledger without negative stock and an order whose
    quantities are positive, every product's stock has grown by the
    quantities of the order's items for that product. *)
Theorem cancel_order_outcomes (s : db) (order_id user_id : string) :
  (orders_db s !! order_id = None →
   cancel_order order_id user_id s
   = (format_error "NOT_FOUND" "Order not found", s))
  ∧ (∀ o, orders_db s !! order_id = Some o →
          o_user_id o ≠ user_id →
          cancel_order order_id user_id s
          = (format_error "FORBIDDEN" "Not your order", s))
  ∧ (∀ o, orders_db s !! order_id = Some o →
          o_user_id o = user_id →
          ¬ transition (o_status o) "cancelled" →
          cancel_order order_id user_id s
          = (format_error "INVALID_STATE" "Cannot cancel in current state", s))
  ∧ (∀ code message,
       (cancel_order order_id user_id s).1 = ErrorResponse code message →
       (cancel_order order_id user_id s).2 = s)
  ∧ (∀ o, orders_db s !! order_id = Some o →
          o_user_id o = user_id →
          transition (o_status o) "cancelled" →
          stock_nonneg s →
          quantities_positive (o_items o) →
          (cancel_order order_id user_id s).1
          = format_response (set_status "cancelled" o)
          ∧ ∀ pid,
              stock_of pid (cancel_order order_id user_id s).2
              = (λ n, n + ordered_quantity pid (o_items o))
                  <$> stock_of pid s).
Proof.
  split; [|split; [|split; [|split]]].
  - intros Ho. by rewrite cancel_order_unfold, Ho.
  - intros o Ho Hother. rewrite cancel_order_unfold, Ho.
    by rewrite bool_decide_eq_true_2.
  - intros o Ho Hown Hno. rewrite cancel_order_unfold, Ho.
    rewrite bool_decide_eq_false_2 by (intros Hne; by apply Hne).
    destruct (is_valid_status_transition (o_status o) "cancelled") eqn:Hv;
      [|reflexivity].
    apply is_valid_status_transition_spec in Hv. contradiction.
  - apply cancel_order_error_keeps_state.
  - intros o Ho Hown Hmove Hs Hq.
    rewrite cancel_order_unfold, Ho.
    rewrite bool_decide_eq_false_2 by (intros Hne; by apply Hne).
    apply is_valid_status_transition_spec in Hmove. rewrite Hmove.
    split; [reflexivity|].
    intros pid. cbn [snd]. by rewrite release_order_stock_stock.
Qed.

(** The scenario of the specification: an order at [shipped] cannot be
    cancelled, and the stock of [P] stays at 2. *)
Lemma cancel_shipped_order_rejected :
  cancel_order "ord_1" "u1" (shop_with_order 2 "shipped")
  = (ErrorResponse "INVALID_STATE" "Cannot cancel in current state",
     shop_with_order 2 "shipped").
Proof. reflexivity. Qed.

(** An order at [created] is cancelled and its three units return. *)
Lemma cancel_created_order_releases :
  (cancel_order "ord_1" "u1" (shop_with_order 2 "created")).1
  = format_response (order_of_u1 "cancelled")
  ∧ stock_of "P" (cancel_order "ord_1" "u1" (shop_with_order 2 "created")).2
    = Some 5.
Proof. split; reflexivity. Qed.

(** ** Validation of order items *)

(** Only [nan] makes [validate_amount] raise: an infinity is out of range. *)
Lemma validate_amount_returns amount :
  PrimFloat.is_nan amount = false →
  validate_amount amount min_val_default max_val_default ≠ None.
Proof.
  intros Hnan. unfold validate_amount.
  destruct (PrimFloat.ltb amount min_val_default
            || PrimFloat.ltb max_val_default amount) eqn:Hrange; [done|].
  apply orb_false_iff in Hrange as [Hlo Hhi].
  unfold validate_decimal_places, fraction_digits_10f.
  rewrite FloatAxioms.ltb_spec in Hlo, Hhi.
  unfold PrimFloat.is_nan in Hnan. rewrite FloatAxioms.eqb_spec in Hnan.
  destruct (Prim2SF amount) as [sg|sg| |sg m e]; try done.
  destruct sg; vm_compute in Hlo, Hhi; congruence.
Qed.

Lemma validate_amount_true amount :
  validate_amount amount min_val_default max_val_default = Some true
  ↔ price_in_range amount ∧ validate_decimal_places amount 2 = Some true.
Proof.
  unfold validate_amount, price_in_range.
  destruct (PrimFloat.ltb amount min_val_default);
    destruct (PrimFloat.ltb max_val_default amount); simpl;
    split; try done; try (by intros [[? ?] ?]).
Qed.

Lemma validate_quantity_true quantity :
  validate_quantity quantity = true ↔ 0 < quantity ≤ 10000.
Proof. unfold validate_quantity. lia. Qed.

Lemma check_product_exists_true product_id s :
  check_product_exists product_id s = true
  ↔ is_Some (products_db s !! product_id).
Proof.
  unfold check_product_exists, find_product_by_id.
  rewrite bool_decide_eq_true.
  destruct (products_db s !! product_id) as [p|].
  - split; [eauto | done].
  - split; [done | by intros [p Hp]].
Qed.

(** What the loop of [validate_order_items] answers, when it answers. *)
Lemma validate_each_item_sound items s v :
  validate_each_item items s = Some v →
  (valid v = true ∧ reason v = "" ∧ Forall (item_valid s) items)
  ∨ (valid v = false ∧ Exists (λ item, ¬ item_valid s item) items).
Proof.
  revert v. induction items as [|item rest IH]; intros v; simpl.
  - intros [= <-]. left. by repeat split.
  - fold (requested_quantity item) (requested_price item)
         (requested_product item).
    destruct (validate_quantity (requested_quantity item)) eqn:Hq; simpl.
    2:{ intros [= <-]. right. split; [done|]. left.
        intros (Hq' & _). apply validate_quantity_true in Hq'. congruence. }
    destruct (validate_amount (requested_price item) min_val_default
                max_val_default) as [[]|] eqn:Ha; simpl; [| |done].
    2:{ intros [= <-]. right. split; [done|]. left.
        intros (_ & Hr & Hd & _).
        assert (validate_amount (requested_price item) min_val_default
                  max_val_default = Some true) as Ha'
          by by apply validate_amount_true.
        congruence. }
    destruct (check_product_exists (requested_product item) s) eqn:He; simpl.
    2:{ intros [= <-]. right. split; [done|]. left.
        intros (_ & _ & _ & He'). apply check_product_exists_true in He'.
        congruence. }
    intros Hrest. destruct (IH v Hrest) as [(Hv & Hr & Hall)|(Hv & Hex)].
    + left. repeat split; [done|done|]. constructor; [|done].
      apply validate_quantity_true in Hq. apply validate_amount_true in Ha.
      apply check_product_exists_true in He.
      exact (conj Hq (conj (proj1 Ha) (conj (proj2 Ha) He))).
    + right. split; [done|]. by right.
Qed.

(** Without a [nan] price the loop always answers. *)
Lemma validate_each_item_returns items s :
  Forall (λ item, PrimFloat.is_nan (requested_price item) = false) items →
  is_Some (validate_each_item items s).
Proof.
  induction 1 as [|item rest Hitem _ IH]; simpl; [done|].
  fold (requested_quantity item) (requested_price item)
       (requested_product item).
  destruct (validate_quantity (requested_quantity item)); simpl; [|done].
  destruct (validate_amount (requested_price item) min_val_default
              max_val_default) as [[]|] eqn:Ha; simpl; [|done|].
  - destruct (check_product_exists (requested_product item) s); done.
  - by apply validate_amount_returns in Hitem.
Qed.

Lemma validate_order_items_sound items s v :
  validate_order_items items s = Some v →
  (valid v = true ∧ reason v = "" ∧ items ≠ [] ∧ Forall (item_valid s) items)
  ∨ (valid v = false
     ∧ (items = [] ∨ Exists (λ item, ¬ item_valid s item) items)).
Proof.
  destruct items as [|item rest].
  - intros [= <-]. right. split; [done|]. by left.
  - intros Hv. apply validate_each_item_sound in Hv as [(? & ? & ?)|(? & ?)].
    + left. by repeat split.
    + right. split; [done|]. by right.
Qed.

Lemma validate_order_items_returns items s :
  Forall (λ item, PrimFloat.is_nan (requested_price item) = false) items →
  is_Some (validate_order_items items s).
Proof.
  intros H. destruct items; [done|]. by apply validate_each_item_returns.
Qed.

Lemma validate_currency_true currency :
  validate_currency currency = true ↔ upper currency ∈ get_valid_currencies.
Proof. unfold validate_currency. apply bool_decide_eq_true. Qed.

Lemma validate_each_item_complete items s :
  Forall (item_valid s) items →
  validate_each_item items s = Some {| valid := true; reason := "" |}.
Proof.
  induction 1 as [|item rest (Hq & Hr & Hd & He) _ IH]; simpl; [done|].
  fold (requested_quantity item) (requested_price item)
       (requested_product item).
  apply validate_quantity_true in Hq. rewrite Hq. simpl.
  assert (validate_amount (requested_price item) min_val_default
            max_val_default = Some true) as ->
    by by apply validate_amount_true.
  simpl. apply check_product_exists_true in He. rewrite He. simpl.
  exact IH.
Qed.

Lemma validate_order_items_complete items s :
  items ≠ [] →
  Forall (item_valid s) items →
  validate_order_items items s = Some {| valid := true; reason := "" |}.
Proof.
  intros Hne Hall. destruct items; [done|].
  by apply validate_each_item_complete.
Qed.

(** The quantities of a validated order are those asked for, all positive. *)
Lemma create_order_items_positive uid user_id items currency s :
  Forall (item_valid s) items →
  quantities_positive (o_items (create_order_model uid user_id items currency)).
Proof.
  intros Hall. unfold quantities_positive; simpl.
  apply Forall_fmap. eapply Forall_impl; [exact Hall|].
  intros item ((Hq & _) & _). simpl.
  unfold requested_quantity in Hq.
  destruct (req_quantity item); simpl in *; lia.
Qed.

(** ** The decimal places of a price *)

(** [validate_decimal_places] reads the ten digits that [f"{value:.10f}"]
    prints; the lemmas below say in exact arithmetic which prices leave at
    most two of them after the trailing zeros are stripped. *)

Lemma rstrip_zeros_nil digits :
  rstrip_zeros digits = [] ↔ Forall (λ d, d = 0) digits.
Proof.
  induction digits as [|d rest IH]; simpl; [done|].
  rewrite Forall_cons, <- IH.
  destruct (rstrip_zeros rest) as [|d' rest'].
  - destruct (Z.eqb_spec d 0); split; try done. by intros [? _].
  - split; [done | by intros [_ ?]].
Qed.

Lemma rstrip_zeros_length digits :
  ∀ n, (length (rstrip_zeros digits) ≤ n)%nat
       ↔ Forall (λ d, d = 0) (drop n digits).
Proof.
  induction digits as [|d rest IH]; intros n.
  - rewrite drop_nil. simpl. split; [done | lia].
  - destruct n as [|n].
    + rewrite drop_0, <- rstrip_zeros_nil.
      destruct (rstrip_zeros (d :: rest)); simpl; split; try done; lia.
    + cbn [drop]. rewrite <- IH. cbn [rstrip_zeros].
      destruct (rstrip_zeros rest) as [|d' rest'] eqn:Hrest.
      * destruct (d =? 0); simpl; split; lia.
      * simpl. split; lia.
Qed.

Lemma low_digits_zero N :
  Forall (λ d, d = 0)
    (drop 2 (map (λ k, (N / 10 ^ Z.of_nat k) mod 10)
               [9; 8; 7; 6; 5; 4; 3; 2; 1; 0]%nat))
  ↔ N mod 10 ^ 8 = 0.
Proof.
  cbn [drop map]. rewrite !Forall_cons, Forall_nil.
  change (10 ^ 8) with 100000000.
  change (10 ^ Z.of_nat 7) with 10000000.
  change (10 ^ Z.of_nat 6) with 1000000.
  change (10 ^ Z.of_nat 5) with 100000.
  change (10 ^ Z.of_nat 4) with 10000.
  change (10 ^ Z.of_nat 3) with 1000.
  change (10 ^ Z.of_nat 2) with 100.
  change (10 ^ Z.of_nat 1) with 10.
  change (10 ^ Z.of_nat 0) with 1.
  split.
  - intros (H7 & H6 & H5 & H4 & H3 & H2 & H1 & H0 & _).
    Z.div_mod_to_equations. lia.
  - intros H. repeat split; Z.div_mod_to_equations; lia.
Qed.

Lemma round_half_even_even n e K :
  e < 0 → Z.even K = true →
  round_half_even n e = K ↔ Z.abs (2 * n - 2 * K * 2 ^ (- e)) ≤ 2 ^ (- e).
Proof.
  intros He HK. unfold round_half_even.
  destruct (Z.leb_spec 0 e); [lia|].
  assert (0 < 2 ^ (- e)) as Hd by (apply Z.pow_pos_nonneg; lia).
  set (d := 2 ^ (- e)) in *.
  pose proof (Z.div_mod n d ltac:(lia)) as Hn.
  pose proof (Z.mod_pos_bound n d Hd) as Hr.
  set (q := n / d) in *. set (r := n mod d) in *.
  cbv zeta.
  assert (Hq : Z.abs (2 * n - 2 * K * d) ≤ d ↔
               (q = K ∧ 2 * r ≤ d) ∨ (q = K - 1 ∧ d ≤ 2 * r)).
  { split.
    - intros Habs.
      assert (q = K ∨ q = K - 1) as [-> | ->] by nia; [left|right]; nia.
    - intros [[-> ?] | [-> ?]]; nia. }
  rewrite Hq.
  destruct (Z.ltb_spec (2 * r) d).
  { split; [intros ->; left; lia | intros [[? ?]|[? ?]]; lia]. }
  destruct (Z.ltb_spec d (2 * r)).
  { split; [intros <-; right; lia | intros [[? ?]|[? ?]]; lia]. }
  destruct (Z.even q) eqn:Heven.
  - split; [intros ->; left; lia|].
    intros [[? ?]|[-> ?]]; [done|].
    rewrite Z.even_sub, HK in Heven. done.
  - split; [intros <-; right; lia|].
    intros [[-> ?]|[? ?]]; [congruence | lia].
Qed.

Lemma validate_decimal_places_digits price digits :
  fraction_digits_10f price = Some digits →
  validate_decimal_places price 2 = Some true
  ↔ Forall (λ d, d = 0) (drop 2 digits).
Proof.
  intros Hdigits. unfold validate_decimal_places. rewrite Hdigits.
  cbn [mbind option_bind fmap option_fmap option_map].
  rewrite <- rstrip_zeros_length.
  split.
  - intros [= Hlen]. apply Z.leb_le in Hlen. lia.
  - intros Hlen. f_equal. apply Z.leb_le. lia.
Qed.

Lemma validate_decimal_places_two price :
  validate_decimal_places price 2 = Some true ↔ decimal_places_within 1 price.
Proof.
  unfold decimal_places_within.
  destruct (Prim2SF price) as [sg|sg| |sg m e] eqn:Hprice.
  - rewrite (validate_decimal_places_digits price (replicate 10 0))
      by (unfold fraction_digits_10f; by rewrite Hprice).
    split; [done|]. intros _. by repeat constructor.
  - unfold validate_decimal_places, fraction_digits_10f. by rewrite Hprice.
  - unfold validate_decimal_places, fraction_digits_10f. by rewrite Hprice.
  - rewrite (validate_decimal_places_digits price
               (map (λ k, (round_half_even (Z.pos m * 10 ^ 10) e
                           / 10 ^ Z.of_nat k) mod 10)
                  [9; 8; 7; 6; 5; 4; 3; 2; 1; 0]%nat))
      by (unfold fraction_digits_10f; by rewrite Hprice).
    rewrite (low_digits_zero _).
    cbv zeta.
    destruct (Z.leb_spec 0 e) as [He|He].
    + rewrite Z.max_l, Z.max_r by lia.
      unfold round_half_even. rewrite (proj2 (Z.leb_le 0 e)) by lia.
      assert (0 < 2 ^ e) by (apply Z.pow_pos_nonneg; lia).
      split.
      * intros _. exists (100 * (Z.pos m * 2 ^ e)).
        change (2 ^ 0) with 1. change (10 ^ 10) with 10000000000.
        change (10 ^ 8) with 100000000. lia.
      * intros _.
        replace (Z.pos m * 10 ^ 10 * 2 ^ e)
          with (Z.pos m * 100 * 2 ^ e * 10 ^ 8) by lia.
        by apply Z.mod_mul.
    + rewrite (Z.max_r e 0), (Z.max_l (- e) 0) by lia.
      change (2 ^ 0) with 1. rewrite Z.mul_1_r.
      split.
      * intros Hmod.
        exists (round_half_even (Z.pos m * 10 ^ 10) e / 10 ^ 8).
        assert (round_half_even (Z.pos m * 10 ^ 10) e
                = 10 ^ 8 * (round_half_even (Z.pos m * 10 ^ 10) e / 10 ^ 8))
          as HN.
        { pose proof (Z.div_mod (round_half_even (Z.pos m * 10 ^ 10) e)
                        (10 ^ 8) ltac:(done)). lia. }
        apply (round_half_even_even _ _ _ He) in HN.
        -- rewrite Z.mul_1_l.
           replace (2 * 10 ^ 10 * Z.pos m) with (2 * (Z.pos m * 10 ^ 10))
             by lia.
           replace (2 * 10 ^ 8
                    * (round_half_even (Z.pos m * 10 ^ 10) e / 10 ^ 8))
             with (2 * (10 ^ 8 * (round_half_even (Z.pos m * 10 ^ 10) e
                                  / 10 ^ 8))) by lia.
           exact HN.
        -- rewrite Z.even_mul. reflexivity.
      * intros (h & Hh).
        assert (round_half_even (Z.pos m * 10 ^ 10) e = 10 ^ 8 * h) as ->.
        { apply (round_half_even_even _ _ _ He).
          - rewrite Z.even_mul. reflexivity.
          - rewrite Z.mul_1_l in Hh.
            replace (2 * (Z.pos m * 10 ^ 10)) with (2 * 10 ^ 10 * Z.pos m)
              by lia.
            replace (2 * (10 ^ 8 * h)) with (2 * 10 ^ 8 * h) by lia.
            exact Hh. }
        rewrite Z.mul_comm. apply Z.mod_mul. done.
Qed.

Lemma item_valid_in_order s item : item_valid s item ↔ item_in_order s item.
Proof.
  unfold item_valid, item_in_order. by rewrite validate_decimal_places_two.
Qed.

(** ** C5: when [create_order] answers with a validation error *)

(** C5, as the code decides it. With no [nan] among the prices,
    [create_order] answers with a validation error exactly when the user does
    not exist or is inactive, the currency, upper-cased, is outside the
    supported set, the item list is empty, or some item is invalid, where an
    item is valid iff its quantity is in (0, 10000], its price is in
    [0.01, 999999.99] and within 0.00000000005 of a whole number of
    hundredths (the two decimal places are read off the price printed with
    ten decimals), and its product exists; and a validation error leaves
    every table as it was. *)
Theorem create_order_validation
    (uid user_id : string) (items : list item_request) (currency : string)
    (s : db) :
  Forall (λ item, PrimFloat.is_nan (requested_price item) = false) items →
  (is_validation_error (create_order uid user_id items currency s).1
   ↔ validation_fails user_id items currency s)
  ∧ (is_validation_error (create_order uid user_id items currency s).1 →
     (create_order uid user_id items currency s).2 = s).
Proof.
  intros Hnan. rewrite create_order_unfold. unfold validation_fails.
  destruct (users_db s !! user_id) as [user|] eqn:Hu.
  2:{ split; [|done]. split; [by left|]. intros _. validation_error. }
  destruct (is_active user) eqn:Hact; simpl.
  2:{ split; [|done]. split; [|intros _; validation_error].
      intros _. right. left. by exists user. }
  destruct (validate_currency currency) eqn:Hcur; simpl.
  2:{ split; [|done]. split; [|intros _; validation_error].
      intros _. right. right. left.
      intros Hin. apply validate_currency_true in Hin. congruence. }
  apply validate_currency_true in Hcur.
  destruct (validate_order_items_returns items s Hnan) as [v Hv].
  rewrite Hv.
  destruct (validate_order_items_sound items s v Hv)
    as [(Hvalid & _ & Hne & Hall)|(Hvalid & Hbad)]; rewrite Hvalid; simpl.
  - split; [|by intros (code & message & [=] & _)]. split.
    + by intros (code & message & [=] & _).
    + intros [Hno|[(u & Hu' & Hina)|[Hout|[Hnil|Hex]]]];
        try congruence; try done.
      apply Exists_not_Forall in Hex. destruct Hex.
      eapply Forall_impl; [exact Hall|].
      intros item. apply item_valid_in_order.
  - split; [|done]. split; [|intros _; validation_error].
    intros _. do 3 right. destruct Hbad as [Hnil|Hex]; [by left|right].
    eapply Exists_impl; [exact Hex|].
    intros item Hno Hin. apply Hno. by apply item_valid_in_order.
Qed.

Lemma create_order_validation_witness :
  (is_validation_error
     (create_order uuid_a "u1" [three_of_P_for_free] "USD" (shop 5)).1
   ↔ validation_fails "u1" [three_of_P_for_free] "USD" (shop 5))
  ∧ (is_validation_error
       (create_order uuid_a "u1" [three_of_P_for_free] "USD" (shop 5)).1 →
     (create_order uuid_a "u1" [three_of_P_for_free] "USD" (shop 5)).2
     = shop 5).
Proof.
  apply (create_order_validation uuid_a "u1" [three_of_P_for_free] "USD"
           (shop 5)).
  apply Forall_singleton. reflexivity.
Defined.

(** An item at the price 0 has a quantity in (0, 10000], a price that is at
    least 0 with no decimal place and a product that exists, and its user and
    currency are in order; [create_order] answers with the validation error
    [INVALID_ITEMS] all the same. *)
Lemma create_order_rejects_price_zero :
  (create_order uuid_a "u1" [three_of_P_for_free] "USD" (shop 5)).1
  = Some (ErrorResponse "INVALID_ITEMS" "Invalid price")
  ∧ is_validation_error
      (create_order uuid_a "u1" [three_of_P_for_free] "USD" (shop 5)).1
  ∧ ¬ spec_validation_fails "u1" [three_of_P_for_free] "USD" (shop 5).
Proof.
  split; [reflexivity|]. split; [validation_error|].
  intros [Hno|[(u & Hu & Hina)|[Hout|Hex]]].
  - by vm_compute in Hno.
  - vm_compute in Hu. injection Hu as <-. by vm_compute in Hina.
  - apply Hout. unfold get_valid_currencies. set_solver.
  - apply Exists_cons in Hex as [Hbad|Hex]; [|by apply Exists_nil in Hex].
    apply Hbad. unfold spec_item_valid. by repeat split.
Qed.

(** The other way round, a price with eleven decimals is no whole number of
    hundredths, and [create_order] accepts it: the check rounds the price to
    ten decimals first. So does it accept [0.1 + 0.2], and it rejects a price
    that differs from 19.99 in the tenth decimal. *)
Lemma create_order_accepts_eleven_decimals :
  ¬ decimal_places_within 0 19.99000000004%float
  ∧ (create_order uuid_a "u1" [three_of_P_eleven_decimals] "USD" (shop 5)).1
    = Some (format_response
              (create_order_model uuid_a "u1" [three_of_P_eleven_decimals]
                 "USD"))
  ∧ validate_amount (PrimFloat.add 0.1%float 0.2%float)
      min_val_default max_val_default = Some true
  ∧ validate_amount 19.9900000001%float min_val_default max_val_default
    = Some false.
Proof.
  split; [|by vm_compute].
  unfold decimal_places_within.
  let sf := eval vm_compute in (Prim2SF 19.99000000004%float) in
  change (Prim2SF 19.99000000004%float) with sf.
  cbv beta iota zeta. intros (h & Hh).
  repeat match type of Hh with
         | context [Z.max ?a ?b] =>
             let v := eval vm_compute in (Z.max a b) in
             change (Z.max a b) with v in Hh
         end.
  lia.
Qed.

(** ** C3: a validated order is built, recorded, and its stock reserved *)

Lemma sum_floats_subtotals items :
  sum_floats (i_subtotal <$> (create_order_item <$> items))
  = sum_floats ((λ item, PrimFloat.mul (float_of_int (i_quantity item))
                           (i_price item))
                  <$> (create_order_item <$> items)).
Proof. f_equal. induction items as [|item rest IH]; simpl; by f_equal. Qed.

Lemma create_order_accepted uid user_id items currency s user :
  users_db s !! user_id = Some user →
  is_active user = true →
  upper currency ∈ get_valid_currencies →
  items ≠ [] →
  Forall (item_valid s) items →
  create_order uid user_id items currency s
  = (Some (format_response (create_order_model uid user_id items currency)),
     (reserve_order_stock (create_order_model uid user_id items currency)
        (create_order_record (create_order_model uid user_id items currency)
           s).2).2).
Proof.
  intros Hu Hact Hcur Hne Hall.
  rewrite create_order_unfold, Hu, Hact.
  apply validate_currency_true in Hcur. rewrite Hcur.
  by rewrite (validate_order_items_complete _ _ Hne Hall).
Qed.

(** C3, with the stock that the reservation needs. When the user exists and is
    active, the currency is supported, every item of a non-empty list is valid
    and every product holds at least the quantity the order asks of it,
    [create_order] succeeds with an order that is on record, has the status
    [created] and has for total the sum over its items of quantity * price,
    and every product's stock is decremented by the quantity ordered of it. *)
Theorem create_order_builds_and_reserves
    (uid user_id : string) (items : list item_request) (currency : string)
    (s : db) (user : user_dict) :
  users_db s !! user_id = Some user →
  is_active user = true →
  upper currency ∈ get_valid_currencies →
  items ≠ [] →
  Forall (item_valid s) items →
  (∀ pid p, products_db s !! pid = Some p →
     ordered_quantity pid
       (o_items (create_order_model uid user_id items currency))
     ≤ get_stock p) →
  let order := create_order_model uid user_id items currency in
  let s' := (create_order uid user_id items currency s).2 in
  is_success (create_order uid user_id items currency s).1 order
  ∧ orders_db s' !! o_id order = Some order
  ∧ o_status order = "created"
  ∧ o_total order
    = sum_floats ((λ item, PrimFloat.mul (float_of_int (i_quantity item))
                             (i_price item)) <$> o_items order)
  ∧ ∀ pid, stock_of pid s'
           = (λ n, n - ordered_quantity pid (o_items order))
               <$> stock_of pid s.
Proof.
  intros Hu Hact Hcur Hne Hall Henough order s'. subst s'.
  rewrite (create_order_accepted _ _ _ _ _ _ Hu Hact Hcur Hne Hall).
  fold order. cbn [fst snd].
  split; [reflexivity|]. split.
  { unfold reserve_order_stock.
    destruct (stock_loop_frame (λ item, - i_quantity item) (o_items order)
                (create_order_record order s).2) as (_ & -> & _).
    rewrite create_order_record_unfold. simpl. apply lookup_insert_eq. }
  split; [reflexivity|]. split; [apply sum_floats_subtotals|].
  intros pid.
  rewrite reserve_order_stock_stock.
  - reflexivity.
  - by apply create_order_items_positive with (s := s).
  - exact Henough.
Qed.

Lemma three_of_P_valid stock : item_valid (shop stock) three_of_P.
Proof.
  unfold item_valid.
  split; [cbv; split; [reflexivity | discriminate]|].
  split; [split; reflexivity|]. split; [reflexivity|]. by eexists.
Qed.

Lemma shop_products stock pid p :
  products_db (shop stock) !! pid = Some p → pid = "P" ∧ p = product_P stock.
Proof. simpl. by intros [<- <-]%lookup_singleton_Some. Qed.

(** The scenario of the specification: stock 5, three units at 10.00. *)
Lemma create_order_builds_and_reserves_witness :
  is_success (create_order uuid_a "u1" [three_of_P] "USD" (shop 5)).1
    (create_order_model uuid_a "u1" [three_of_P] "USD")
  ∧ o_status (create_order_model uuid_a "u1" [three_of_P] "USD") = "created"
  ∧ o_total (create_order_model uuid_a "u1" [three_of_P] "USD") = 30%float
  ∧ stock_of "P" (create_order uuid_a "u1" [three_of_P] "USD" (shop 5)).2
    = Some 2.
Proof.
  destruct (create_order_builds_and_reserves uuid_a "u1" [three_of_P] "USD"
              (shop 5) user_u1) as (Hok & _ & Hstatus & Htotal & Hstock).
  - reflexivity.
  - reflexivity.
  - unfold get_valid_currencies. set_solver.
  - discriminate.
  - apply Forall_singleton, three_of_P_valid.
  - intros pid p [-> ->]%shop_products. by vm_compute.
  - split; [exact Hok|]. split; [exact Hstatus|]. split; [exact Htotal|].
    exact (Hstock "P").
Defined.

(** With stock 2 the same order passes the same validation and succeeds, and
    the stock of [P] is not decremented by 3. *)
Lemma create_order_short_stock_not_decremented :
  Forall (item_valid (shop 2)) [three_of_P]
  ∧ is_success (create_order uuid_a "u1" [three_of_P] "USD" (shop 2)).1
      (create_order_model uuid_a "u1" [three_of_P] "USD")
  ∧ stock_of "P" (shop 2) = Some 2
  ∧ stock_of "P" (create_order uuid_a "u1" [three_of_P] "USD" (shop 2)).2
    ≠ Some (2 - 3).
Proof.
  split; [|by repeat split].
  apply Forall_singleton, three_of_P_valid.
Qed.

(** ** C6: an order for more than the stock *)

(** [create_order] does not look at what [update_stock] returns: an accepted
    order stays accepted whatever the ledger answered. *)
Lemma create_order_queue uid user_id items currency s :
  queue (create_order uid user_id items currency s).2 = queue s.
Proof.
  rewrite create_order_unfold.
  destruct (users_db s !! user_id) as [user|]; [|done].
  destruct (negb (is_active user)); [done|].
  destruct (negb (validate_currency currency)); [done|].
  destruct (validate_order_items items s) as [v|]; [|done].
  destruct (negb (valid v)); [done|].
  cbv zeta. cbn [snd]. unfold reserve_order_stock.
  by destruct (stock_loop_frame (λ item, - i_quantity item)
                 (o_items (create_order_model uid user_id items currency))
                 (create_order_record
                    (create_order_model uid user_id items currency) s).2)
    as (_ & _ & _ & ->).
Qed.

(** C6, at the input where it fails: product [P] holds 2 units and the order
    asks for 3. The ledger rejects the adjustment, yet [create_order] answers
    with a success, the order is on record at status [created], and the stock
    of [P] is still 2. *)
Theorem create_order_ignores_insufficient_stock :
  (update_stock "P" (-3) (shop 2)).1 = None
  ∧ is_success (create_order uuid_a "u1" [three_of_P] "USD" (shop 2)).1
      (create_order_model uuid_a "u1" [three_of_P] "USD")
  ∧ ¬ is_error (create_order uuid_a "u1" [three_of_P] "USD" (shop 2)).1
  ∧ orders_db (create_order uuid_a "u1" [three_of_P] "USD" (shop 2)).2
      !! "ord_123e4567"
    = Some (create_order_model uuid_a "u1" [three_of_P] "USD")
  ∧ stock_of "P" (create_order uuid_a "u1" [three_of_P] "USD" (shop 2)).2
    = Some 2.
Proof.
  split; [reflexivity|]. split; [reflexivity|].
  split; [by intros (code & message & [=])|].
  split; reflexivity.
Qed.

(** ** C8: reserve, then release *)

Lemma create_order_record_products o s :
  products_db (create_order_record o s).2 = products_db s.
Proof. reflexivity. Qed.

(** When the stock covers the order, creating it and cancelling it brings
    every stock back to where it was. *)
Lemma create_then_cancel_restores_stock
    uid user_id items currency s user :
  users_db s !! user_id = Some user →
  is_active user = true →
  upper currency ∈ get_valid_currencies →
  items ≠ [] →
  Forall (item_valid s) items →
  stock_nonneg s →
  (∀ pid p, products_db s !! pid = Some p →
     ordered_quantity pid
       (o_items (create_order_model uid user_id items currency))
     ≤ get_stock p) →
  ∀ pid,
    stock_of pid
      (cancel_order (o_id (create_order_model uid user_id items currency))
         user_id (create_order uid user_id items currency s).2).2
    = stock_of pid s.
Proof.
  intros Hu Hact Hcur Hne Hall Hs Henough pid.
  rewrite (create_order_accepted _ _ _ _ _ _ Hu Hact Hcur Hne Hall).
  set (order := create_order_model uid user_id items currency) in *.
  cbn [snd].
  set (s0 := (create_order_record order s).2).
  set (s1 := (reserve_order_stock order s0).2).
  assert (Hq : quantities_positive (o_items order))
    by by apply create_order_items_positive with (s := s).
  assert (Horder : orders_db s1 !! o_id order = Some order).
  { unfold s1, reserve_order_stock.
    destruct (stock_loop_frame (λ item, - i_quantity item) (o_items order) s0)
      as (_ & -> & _).
    unfold s0. rewrite create_order_record_unfold. simpl.
    apply lookup_insert_eq. }
  assert (Hs1 : stock_nonneg s1).
  { unfold s1, reserve_order_stock. by apply stock_loop_nonneg. }
  assert (Hreserved : stock_of pid s1
            = (λ n, n - ordered_quantity pid (o_items order))
                <$> stock_of pid s).
  { unfold s1. by rewrite reserve_order_stock_stock. }
  rewrite cancel_order_unfold, Horder.
  rewrite bool_decide_eq_false_2 by (intros Hne'; by apply Hne').
  change (is_valid_status_transition (o_status order) "cancelled")
    with (is_valid_status_transition "created" "cancelled").
  replace (is_valid_status_transition "created" "cancelled") with true
    by by vm_compute.
  cbn [snd]. rewrite release_order_stock_stock; [|exact Hs1|exact Hq].
  change (stock_of pid (set_orders ?m s1)) with (stock_of pid s1).
  rewrite Hreserved. destruct (stock_of pid s); simpl; [f_equal; lia|done].
Qed.

(** C8, at the input where it fails: product [P] holds 2 units, an order for 3
    units is created and then cancelled, both with success; the reservation
    was rejected by the ledger and the release is not, so [P] ends at 5. *)
Theorem create_then_cancel_inflates_short_stock :
  stock_of "P" (shop 2) = Some 2
  ∧ is_success (create_order uuid_a "u1" [three_of_P] "USD" (shop 2)).1
      (create_order_model uuid_a "u1" [three_of_P] "USD")
  ∧ (cancel_order "ord_123e4567" "u1"
       (create_order uuid_a "u1" [three_of_P] "USD" (shop 2)).2).1
    = format_response
        (set_status "cancelled"
           (create_order_model uuid_a "u1" [three_of_P] "USD"))
  ∧ stock_of "P"
      (cancel_order "ord_123e4567" "u1"
         (create_order uuid_a "u1" [three_of_P] "USD" (shop 2)).2).2
    = Some 5.
Proof. repeat split; reflexivity. Qed.

(** ** C9: the reorder alert *)

Lemma insert_by_priority_perm entry q :
  insert_by_priority entry q ≡ₚ entry :: q.
Proof.
  induction q as [|e rest IH]; simpl; [done|].
  destruct (q_priority entry <=? q_priority e); [done|].
  rewrite IH. apply Permutation_swap.
Qed.

Lemma sort_queue_list_perm q : sort_queue_list q ≡ₚ q.
Proof.
  induction q as [|e rest IH]; simpl; [done|].
  by rewrite insert_by_priority_perm, IH.
Qed.

(** The reservation of [inventory_service] queues an alert when the stock it
    leaves is at most 10. *)
Lemma reserve_stock_alerts uid_ntf uid_q product_id quantity s p :
  products_db s !! product_id = Some p →
  quantity ≤ get_stock p →
  get_stock p - quantity ≤ 10 →
  (reserve_stock uid_ntf uid_q product_id quantity s).1
  = format_response {| reserved := quantity;
                       remaining := get_stock p + - quantity |}
  ∧ length (queue (reserve_stock uid_ntf uid_q product_id quantity s).2)
    = S (length (queue s))
  ∧ ∃ entry,
      entry ∈ queue (reserve_stock uid_ntf uid_q product_id quantity s).2
      ∧ q_priority entry = 1
      ∧ q_status entry = "queued"
      ∧ n_user_id (q_notification entry) = "system"
      ∧ n_body (q_notification entry)
        = sanitize_string
            ("Product " +:+ p_sku p +:+ " has only "
               +:+ pretty (get_stock p + - quantity) +:+ " units left.").
Proof.
  intros Hp Have Hlow. rewrite reserve_stock_unfold, Hp.
  destruct (Z.leb_spec quantity (get_stock p)); [|lia].
  cbv zeta. destruct (Z.leb_spec (get_stock p + - quantity) 10); [|lia].
  rewrite trigger_reorder_alert_state. cbn [fst snd queue set_queue].
  split; [reflexivity|]. split.
  - rewrite sort_queue_list_perm, length_app. simpl. lia.
  - eexists. split.
    + rewrite sort_queue_list_perm. apply elem_of_app. right.
      apply list_elem_of_singleton. reflexivity.
    + by repeat split.
Qed.

(** C9, at the input where it fails: product [P] holds 5 units and an order
    for 3 is created. The reservation succeeds and leaves 2 units, which is
    not above 10, and nothing is queued; the same reservation made through
    [reserve_stock] queues the alert. *)
Theorem create_order_emits_no_reorder_alert :
  is_success (create_order uuid_a "u1" [three_of_P] "USD" (shop 5)).1
    (create_order_model uuid_a "u1" [three_of_P] "USD")
  ∧ stock_of "P" (create_order uuid_a "u1" [three_of_P] "USD" (shop 5)).2
    = Some 2
  ∧ queue (create_order uuid_a "u1" [three_of_P] "USD" (shop 5)).2 = []
  ∧ stock_of "P" (reserve_stock uuid_a uuid_b "P" 3 (shop 5)).2 = Some 2
  ∧ length (queue (reserve_stock uuid_a uuid_b "P" 3 (shop 5)).2) = 1%nat.
Proof. repeat split; reflexivity. Qed.

(** ** The data model is an invariant of the core *)

Lemma stock_nonneg_same_products s s' :
  products_db s' = products_db s → stock_nonneg s → stock_nonneg s'.
Proof. unfold stock_nonneg. by intros ->. Qed.

Lemma orders_positive_same_orders s s' :
  orders_db s' = orders_db s → orders_positive s → orders_positive s'.
Proof. unfold orders_positive. by intros ->. Qed.

Lemma update_order_status_data_model order_id status s :
  data_model s → data_model (update_order_status order_id status s).2.
Proof.
  intros [Hstock Horders]. split.
  - eapply stock_nonneg_same_products; [|exact Hstock].
    apply update_order_status_frame.
  - rewrite update_order_status_unfold.
    destruct (orders_db s !! order_id) as [o|] eqn:Ho; [|exact Horders].
    destruct (is_valid_status_transition (o_status o) status);
      [|exact Horders].
    unfold orders_positive; simpl.
    apply map_Forall_insert_2; [|exact Horders]. exact (Horders _ _ Ho).
Qed.

Lemma stock_loop_data_model (f : order_item → Z) items s :
  data_model s →
  data_model (for_each (λ item, update_stock (i_product_id item) (f item))
                items s).2.
Proof.
  intros [Hstock Horders]. split.
  - by apply stock_loop_nonneg.
  - eapply orders_positive_same_orders; [|exact Horders].
    apply stock_loop_frame.
Qed.

Lemma update_stock_data_model product_id delta s :
  data_model s → data_model (update_stock product_id delta s).2.
Proof.
  intros [Hstock Horders]. split.
  - by apply update_stock_preserves_nonneg.
  - eapply orders_positive_same_orders; [|exact Horders].
    apply update_stock_frame.
Qed.

Lemma handle_data_model r s : data_model s → data_model (handle r s).
Proof.
  intros Hs. destruct r; simpl.
  - rewrite create_order_unfold.
    destruct (users_db s !! user_id) as [user|]; [|exact Hs].
    destruct (negb (is_active user)); [exact Hs|].
    destruct (negb (validate_currency currency)); [exact Hs|].
    destruct (validate_order_items items s) as [v|] eqn:Hv; [|exact Hs].
    destruct (validate_order_items_sound items s v Hv)
      as [(Hvalid & _ & _ & Hall)|(Hvalid & _)]; rewrite Hvalid; simpl;
      [|exact Hs].
    apply (stock_loop_data_model (λ item, - i_quantity item)).
    destruct Hs as [Hstock Horders]. split; [exact Hstock|].
    unfold orders_positive; simpl.
    apply map_Forall_insert_2; [|exact Horders].
    by apply create_order_items_positive with (s := s).
  - rewrite cancel_order_unfold.
    destruct (orders_db s !! order_id) as [o|] eqn:Ho; [|exact Hs].
    destruct (bool_decide (o_user_id o ≠ user_id)); [exact Hs|].
    pose proof (update_order_status_data_model order_id "cancelled" s Hs)
      as Hu.
    rewrite update_order_status_unfold, Ho in Hu.
    destruct (is_valid_status_transition (o_status o) "cancelled");
      [|exact Hs].
    by apply (stock_loop_data_model i_quantity).
  - destruct (submit_order_state order_id s) as [-> | ->]; [exact Hs|].
    by apply update_order_status_data_model.
  - rewrite process_refund_state.
    destruct (orders_db s !! order_id) as [o|] eqn:Ho; [|exact Hs].
    pose proof (update_order_status_data_model order_id "returned" s Hs)
      as Hu.
    rewrite update_order_status_unfold, Ho in Hu.
    destruct (is_valid_status_transition (o_status o) "returned");
      [|exact Hs].
    by apply (stock_loop_data_model i_quantity).
  - by apply update_order_status_data_model.
  - by apply update_stock_data_model.
  - rewrite reserve_stock_unfold.
    destruct (products_db s !! product_id) as [p|] eqn:Hp; [|exact Hs].
    destruct (Z.leb_spec quantity (get_stock p)); [|exact Hs].
    cbv zeta. cbn [snd].
    pose proof (update_stock_data_model product_id (- quantity) s Hs) as Hu.
    rewrite (update_stock_committed product_id (- quantity) s p Hp) in Hu
      by lia.
    destruct (get_stock p + - quantity <=? 10); exact Hu.
  - rewrite release_stock_state. by apply update_stock_data_model.
Qed.

(** Whatever calls the core serves, no stock becomes negative and every order
    on record keeps positive quantities. *)
Lemma serve_data_model requests :
  ∀ s, data_model s → data_model (serve requests s).
Proof.
  unfold serve. induction requests as [|r rest IH]; intros s Hs; simpl.
  - exact Hs.
  - apply IH, handle_data_model, Hs.
Qed.

Lemma data_model_shop stock : 0 ≤ stock → data_model (shop stock).
Proof.
  intros H. split; [by apply stock_nonneg_shop|].
  unfold orders_positive, shop; simpl. apply map_Forall_empty.
Qed.

(** * Further properties of the core *)

(** ** Refunds *)


Lemma transition_to_pending status :
  is_valid_status_transition status "pending" = true ↔ status = "created".
Proof.
  rewrite is_valid_status_transition_spec. split.
  - by inversion 1.
  - intros ->. constructor.
Qed.

Lemma release_order_stock_orders o s :
  orders_db (release_order_stock o s).2 = orders_db s.
Proof. apply (stock_loop_frame i_quantity (o_items o) s). Qed.

Lemma process_refund_unfold order_id reason s :
  process_refund order_id reason s =
  match orders_db s !! order_id with
  | None => (format_error "NOT_FOUND" "Order not found", s)
  | Some o =>
      if is_valid_status_transition (o_status o) "returned"
      then
        let s1 := (release_order_stock o
                     (set_orders (<[order_id := set_status "returned" o]>
                                    (orders_db s)) s)).2 in
        (format_response {| refunded := sum_floats (i_subtotal <$> o_items o);
                            refund_reason := reason |}, s1)
      else (format_error "INVALID_STATE" "Cannot refund in current state", s)
  end.
Proof.
  unfold process_refund, bind, gets, find_order_by_id.
  destruct (orders_db s !! order_id) as [o|] eqn:Ho; [|reflexivity].
  rewrite update_order_status_unfold, Ho.
  destruct (is_valid_status_transition (o_status o) "returned");
    [|reflexivity].
  destruct (release_order_stock o _) as [u s1] eqn:Hrel. cbv zeta.
  unfold ret. do 3 f_equal.
  unfold calculate_order_total, get_order_items, find_order_by_id.
  assert (orders_db s1 = <[order_id := set_status "returned" o]> (orders_db s))
    as ->.
  { change s1 with (u, s1).2. rewrite <- Hrel.
    by rewrite release_order_stock_orders. }
  by rewrite lookup_insert_eq.
Qed.


(** ** Submission *)

Lemma submit_order_unfold order_id s :
  submit_order order_id s =
  match orders_db s !! order_id with
  | None => (format_error "INVALID" "Order not found", s)
  | Some o =>
      match o_items o with
      | [] => (format_error "INVALID" "No items", s)
      | _ =>
          if is_valid_status_transition (o_status o) "pending"
          then (format_response
                  {| submitted := true; submitted_order_id := order_id |},
                set_orders (<[order_id := set_status "pending" o]>
                              (orders_db s)) s)
          else (format_error "STATE_ERROR" "Cannot submit", s)
      end
  end.
Proof.
  unfold submit_order, bind, gets, validate_order, get_order_items,
    find_order_by_id.
  destruct (orders_db s !! order_id) as [o|] eqn:Ho; [|reflexivity].
  destruct (o_items o) as [|item rest]; [reflexivity|]. simpl.
  rewrite update_order_status_unfold, Ho.
  destruct (is_valid_status_transition (o_status o) "pending"); reflexivity.
Qed.

(** X2. [submit_order] answers [INVALID] for an id that is not on record
    and for an order without items, and [STATE_ERROR] for an order with items
    at any status but [created]; in these cases nothing changes. An order with
    items at [created] is put at [pending], and that is the only change. *)
Theorem submit_order_outcomes (s : db) (order_id : string) :
  (orders_db s !! order_id = None →
   submit_order order_id s = (format_error "INVALID" "Order not found", s))
  ∧ (∀ o, orders_db s !! order_id = Some o →
          o_items o = [] →
          submit_order order_id s = (format_error "INVALID" "No items", s))
  ∧ (∀ o, orders_db s !! order_id = Some o →
          o_items o ≠ [] →
          o_status o ≠ "created" →
          submit_order order_id s
          = (format_error "STATE_ERROR" "Cannot submit", s))
  ∧ (∀ o, orders_db s !! order_id = Some o →
          o_items o ≠ [] →
          o_status o = "created" →
          submit_order order_id s
          = (format_response
               {| submitted := true; submitted_order_id := order_id |},
             set_orders (<[order_id := set_status "pending" o]>
                           (orders_db s)) s)).
Proof.
  split; [|split; [|split]].
  - intros Ho. by rewrite submit_order_unfold, Ho.
  - intros o Ho Hitems. by rewrite submit_order_unfold, Ho, Hitems.
  - intros o Ho Hitems Hst. rewrite submit_order_unfold, Ho.
    destruct (o_items o); [done|].
    destruct (is_valid_status_transition (o_status o) "pending") eqn:Hv;
      [|reflexivity].
    by apply transition_to_pending in Hv.
  - intros o Ho Hitems Hst. rewrite submit_order_unfold, Ho.
    destruct (o_items o); [done|].
    apply transition_to_pending in Hst. by rewrite Hst.
Qed.

(** ** Closed orders *)

Lemma closed_status_no_move status target :
  status = "cancelled" ∨ status = "returned" →
  is_valid_status_transition status target = false.
Proof.
  intros Hst. unfold is_valid_status_transition.
  rewrite valid_transitions_lookup, bool_decide_eq_false.
  destruct Hst as [-> | ->]; simpl; apply not_elem_of_nil.
Qed.

(** On an order at [cancelled] or [returned] every operation of the life
    cycle is rejected and changes nothing. *)
Lemma closed_order_rejects s order_id o :
  orders_db s !! order_id = Some o →
  o_status o = "cancelled" ∨ o_status o = "returned" →
  (∀ caller, ∃ code message,
     cancel_order order_id caller s = (ErrorResponse code message, s))
  ∧ (∀ reason,
       process_refund order_id reason s
       = (format_error "INVALID_STATE" "Cannot refund in current state", s))
  ∧ (∃ code message,
       submit_order order_id s = (ErrorResponse code message, s))
  ∧ (∀ status, update_order_status order_id status s = (None, s)).
Proof.
  intros Ho Hclosed.
  pose proof (closed_status_no_move (o_status o)) as Hno.
  split; [|split; [|split]].
  - intros caller. rewrite cancel_order_unfold, Ho.
    destruct (bool_decide (o_user_id o ≠ caller)); [by eexists _, _|].
    rewrite Hno by done. by eexists _, _.
  - intros reason. rewrite process_refund_unfold, Ho. by rewrite Hno.
  - rewrite submit_order_unfold, Ho.
    destruct (o_items o); [by eexists _, _|].
    rewrite Hno by done. by eexists _, _.
  - intros status. rewrite update_order_status_unfold, Ho. by rewrite Hno.
Qed.

(** A call that does not draw the id of a closed order again leaves the
    order on record as it is. *)
Lemma handle_keeps_closed_order r s order_id o :
  orders_db s !! order_id = Some o →
  o_status o = "cancelled" ∨ o_status o = "returned" →
  ¬ draws_order_id order_id r →
  orders_db (handle r s) !! order_id = Some o.
Proof.
  intros Ho Hclosed Hfresh.
  assert (Hupd : ∀ other status,
            orders_db (update_order_status other status s).2 !! order_id
            = Some o).
  { intros other status. rewrite update_order_status_unfold.
    destruct (orders_db s !! other) as [o'|] eqn:Ho'; [|exact Ho].
    destruct (is_valid_status_transition (o_status o') status) eqn:Hmove;
      [|exact Ho].
    simpl. destruct (decide (other = order_id)) as [->|Hne].
    - rewrite Ho in Ho'. injection Ho' as <-.
      by rewrite closed_status_no_move in Hmove.
    - by rewrite lookup_insert_ne. }
  destruct r as [uid user_id items currency | other user_id | other
                 | other reason | other status | product_id quantity_change
                 | uid_ntf uid_q product_id quantity | product_id quantity];
    simpl.
  - rewrite create_order_unfold.
    destruct (users_db s !! user_id) as [user|]; [|exact Ho].
    destruct (negb (is_active user)); [exact Ho|].
    destruct (negb (validate_currency currency)); [exact Ho|].
    destruct (validate_order_items items s) as [v|]; [|exact Ho].
    destruct (negb (valid v)); [exact Ho|].
    cbv zeta. cbn [snd]. unfold reserve_order_stock.
    destruct (stock_loop_frame (λ item, - i_quantity item)
                (o_items (create_order_model uid user_id items currency))
                (create_order_record
                   (create_order_model uid user_id items currency) s).2)
      as (_ & -> & _).
    simpl. by rewrite lookup_insert_ne.
  - rewrite cancel_order_unfold.
    destruct (orders_db s !! other) as [o'|] eqn:Ho'; [|exact Ho].
    destruct (bool_decide (o_user_id o' ≠ user_id)); [exact Ho|].
    specialize (Hupd other "cancelled").
    rewrite update_order_status_unfold, Ho' in Hupd.
    destruct (is_valid_status_transition (o_status o') "cancelled");
      [|exact Ho].
    cbn [snd]. by rewrite release_order_stock_orders.
  - destruct (submit_order_state other s) as [-> | ->]; [exact Ho|].
    apply Hupd.
  - rewrite process_refund_state.
    destruct (orders_db s !! other) as [o'|] eqn:Ho'; [|exact Ho].
    specialize (Hupd other "returned").
    rewrite update_order_status_unfold, Ho' in Hupd.
    destruct (is_valid_status_transition (o_status o') "returned");
      [|exact Ho].
    by rewrite release_order_stock_orders.
  - apply Hupd.
  - by destruct (update_stock_frame product_id quantity_change s)
      as (_ & -> & _).
  - by rewrite reserve_stock_orders.
  - rewrite release_stock_state.
    by destruct (update_stock_frame product_id quantity s) as (_ & -> & _).
Qed.

Lemma serve_keeps_closed_order requests order_id o :
  Forall (λ r, ¬ draws_order_id order_id r) requests →
  o_status o = "cancelled" ∨ o_status o = "returned" →
  ∀ s, orders_db s !! order_id = Some o →
       orders_db (serve requests s) !! order_id = Some o.
Proof.
  intros Hfresh Hclosed. unfold serve.
  induction Hfresh as [|r rest Hr _ IH]; intros s Ho; simpl; [exact Ho|].
  apply IH. by apply handle_keeps_closed_order.
Qed.

(** X3. Once [cancel_order] or [process_refund] has succeeded on an order,
    then after any further calls of the core, none of which is a
    [create_order] that draws the id of that order again, every
    [cancel_order], [process_refund], [submit_order] and
    [update_order_status] on that order is answered with an error and leaves
    every table as it is: no later call on the order releases its stock a
    second time. *)
Theorem released_order_is_closed
    (s : db) (order_id : string) (later : list request) :
  Forall (λ r, ¬ draws_order_id order_id r) later →
  (∀ user_id data,
     (cancel_order order_id user_id s).1 = format_response data →
     ∀ s1, s1 = serve later (cancel_order order_id user_id s).2 →
       (∀ caller, ∃ code message,
          cancel_order order_id caller s1 = (ErrorResponse code message, s1))
       ∧ (∀ reason, ∃ code message,
            process_refund order_id reason s1
            = (ErrorResponse code message, s1))
       ∧ (∃ code message,
            submit_order order_id s1 = (ErrorResponse code message, s1))
       ∧ (∀ status, update_order_status order_id status s1 = (None, s1)))
  ∧ (∀ reason data,
       (process_refund order_id reason s).1 = format_response data →
       ∀ s1, s1 = serve later (process_refund order_id reason s).2 →
         (∀ caller, ∃ code message,
            cancel_order order_id caller s1 = (ErrorResponse code message, s1))
         ∧ (∀ reason', ∃ code message,
              process_refund order_id reason' s1
              = (ErrorResponse code message, s1))
         ∧ (∃ code message,
              submit_order order_id s1 = (ErrorResponse code message, s1))
         ∧ (∀ status, update_order_status order_id status s1 = (None, s1))).
Proof.
  intros Hfresh.
  assert (Hclosed : ∀ s0 o status,
            orders_db s0 !! order_id = Some (set_status status o) →
            status = "cancelled" ∨ status = "returned" →
            ∀ s1, s1 = serve later s0 →
            (∀ caller, ∃ code message,
               cancel_order order_id caller s1
               = (ErrorResponse code message, s1))
            ∧ (∀ reason, ∃ code message,
                 process_refund order_id reason s1
                 = (ErrorResponse code message, s1))
            ∧ (∃ code message,
                 submit_order order_id s1 = (ErrorResponse code message, s1))
            ∧ (∀ status',
                 update_order_status order_id status' s1 = (None, s1))).
  { intros s0 o status Ho Hst s1 ->.
    pose proof (serve_keeps_closed_order later order_id
                  (set_status status o) Hfresh Hst s0 Ho) as Ho1.
    destruct (closed_order_rejects _ order_id _ Ho1 Hst)
      as (Hc & Hr & Hsub & Hu).
    split; [exact Hc|]. split; [|by split].
    intros reason. rewrite Hr. by eexists _, _. }
  split.
  - intros user_id data Hok s1 Hs1. revert Hok.
    rewrite cancel_order_unfold in Hs1 |- *.
    destruct (orders_db s !! order_id) as [o|] eqn:Ho; [|done].
    destruct (bool_decide (o_user_id o ≠ user_id)); [done|].
    destruct (is_valid_status_transition (o_status o) "cancelled"); [|done].
    intros _. cbn [snd] in Hs1.
    refine (Hclosed _ o "cancelled" _ (or_introl eq_refl) s1 Hs1).
    rewrite release_order_stock_orders. simpl. apply lookup_insert_eq.
  - intros reason data Hok s1 Hs1. revert Hok.
    rewrite process_refund_unfold in Hs1 |- *.
    destruct (orders_db s !! order_id) as [o|] eqn:Ho; [|done].
    destruct (is_valid_status_transition (o_status o) "returned"); [|done].
    intros _. cbv zeta in Hs1. cbn [snd] in Hs1.
    refine (Hclosed _ o "returned" _ (or_intror eq_refl) s1 Hs1).
    rewrite release_order_stock_orders. simpl. apply lookup_insert_eq.
Qed.

Lemma released_order_is_closed_witness :
  let later := [CreateOrder uuid_a "u1" [three_of_P] "USD";
                UpdateStock "P" 1;
                SubmitOrder "ord_123e4567"] in
  let s1 := serve later
              (cancel_order "ord_1" "u1" (shop_with_order 2 "created")).2 in
  (∀ caller, ∃ code message,
     cancel_order "ord_1" caller s1 = (ErrorResponse code message, s1))
  ∧ (∀ reason, ∃ code message,
       process_refund "ord_1" reason s1 = (ErrorResponse code message, s1))
  ∧ (∃ code message,
       submit_order "ord_1" s1 = (ErrorResponse code message, s1))
  ∧ (∀ status, update_order_status "ord_1" status s1 = (None, s1)).
Proof.
  intros later s1.
  refine (proj1 (released_order_is_closed (shop_with_order 2 "created")
                   "ord_1" later _)
            "u1" (order_of_u1 "cancelled") _ s1 eq_refl).
  - repeat (apply Forall_cons_2; [by intros ?|]). apply Forall_nil_2.
  - reflexivity.
Defined.

(** The condition on the later calls is needed: a [create_order] whose uuid
    shares its first eight characters with the uuid of a cancelled order
    puts a new order on record under the same id, and [cancel_order] on that
    id succeeds once more. *)
Lemma drawn_again_order_id_reopens :
  let s1 := (create_order uuid_a "u1" [three_of_P] "USD" (shop 9)).2 in
  let s2 := (cancel_order "ord_123e4567" "u1" s1).2 in
  let s3 := (create_order uuid_a' "u1" [three_of_P] "USD" s2).2 in
  draws_order_id "ord_123e4567" (CreateOrder uuid_a' "u1" [three_of_P] "USD")
  ∧ (cancel_order "ord_123e4567" "u1" s2).1
    = format_error "INVALID_STATE" "Cannot cancel in current state"
  ∧ (cancel_order "ord_123e4567" "u1" s3).1
    = format_response
        (set_status "cancelled"
           (create_order_model uuid_a' "u1" [three_of_P] "USD"))
  ∧ stock_of "P" s1 = Some 6 ∧ stock_of "P" s2 = Some 9
  ∧ stock_of "P" s3 = Some 6
  ∧ stock_of "P" (cancel_order "ord_123e4567" "u1" s3).2 = Some 9.
Proof. by vm_compute. Qed.

(** ** The stored total and the recomputed total *)

(** A property of single orders that [create_order_model] establishes and a
    status change keeps holds of every order after every call. *)
Lemma handle_orders_invariant (Q : order_dict → Prop) r s :
  (∀ uid user_id items currency,
     Q (create_order_model uid user_id items currency)) →
  (∀ status o, Q o → Q (set_status status o)) →
  map_Forall (λ _, Q) (orders_db s) →
  map_Forall (λ _, Q) (orders_db (handle r s)).
Proof.
  intros Hnew Hstatus Hs.
  assert (Hupd : ∀ order_id status,
            map_Forall (λ _, Q)
              (orders_db (update_order_status order_id status s).2)).
  { intros order_id status. rewrite update_order_status_unfold.
    destruct (orders_db s !! order_id) as [o|] eqn:Ho; [|exact Hs].
    destruct (is_valid_status_transition (o_status o) status); [|exact Hs].
    simpl. apply map_Forall_insert_2; [|exact Hs].
    apply Hstatus. exact (Hs _ _ Ho). }
  destruct r; simpl.
  - rewrite create_order_unfold.
    destruct (users_db s !! user_id) as [user|]; [|exact Hs].
    destruct (negb (is_active user)); [exact Hs|].
    destruct (negb (validate_currency currency)); [exact Hs|].
    destruct (validate_order_items items s) as [v|]; [|exact Hs].
    destruct (negb (valid v)); [exact Hs|].
    cbv zeta. cbn [snd]. unfold reserve_order_stock.
    destruct (stock_loop_frame (λ item, - i_quantity item)
                (o_items (create_order_model uid user_id items currency))
                (create_order_record
                   (create_order_model uid user_id items currency) s).2)
      as (_ & -> & _).
    simpl. apply map_Forall_insert_2; [apply Hnew | exact Hs].
  - rewrite cancel_order_unfold.
    destruct (orders_db s !! order_id) as [o|] eqn:Ho; [|exact Hs].
    destruct (bool_decide (o_user_id o ≠ user_id)); [exact Hs|].
    specialize (Hupd order_id "cancelled").
    rewrite update_order_status_unfold, Ho in Hupd.
    destruct (is_valid_status_transition (o_status o) "cancelled");
      [|exact Hs].
    cbn [snd]. by rewrite release_order_stock_orders.
  - destruct (submit_order_state order_id s) as [-> | ->]; [exact Hs|].
    apply Hupd.
  - rewrite process_refund_state.
    destruct (orders_db s !! order_id) as [o|] eqn:Ho; [|exact Hs].
    specialize (Hupd order_id "returned").
    rewrite update_order_status_unfold, Ho in Hupd.
    destruct (is_valid_status_transition (o_status o) "returned");
      [|exact Hs].
    by rewrite release_order_stock_orders.
  - apply Hupd.
  - by destruct (update_stock_frame product_id quantity_change s)
      as (_ & -> & _).
  - by rewrite reserve_stock_orders.
  - rewrite release_stock_state.
    by destruct (update_stock_frame product_id quantity s) as (_ & -> & _).
Qed.

Lemma serve_totals_consistent requests :
  ∀ s, totals_consistent s → totals_consistent (serve requests s).
Proof.
  unfold serve. induction requests as [|r rest IH]; intros s Hs; simpl.
  - exact Hs.
  - apply IH. by apply handle_orders_invariant.
Qed.

(** X4. The total that [calculate_order_total] recomputes from the items is
    the total the order stores, for every order on record after any sequence
    of calls of the core, provided it was so before the calls (as it is when
    no order is on record yet). *)
Theorem recomputed_total_is_stored_total
    (requests : list request) (s : db) (order_id : string) (o : order_dict) :
  totals_consistent s →
  orders_db (serve requests s) !! order_id = Some o →
  calculate_order_total order_id (serve requests s) = o_total o.
Proof.
  intros Hs Ho.
  pose proof (serve_totals_consistent requests s Hs _ _ Ho) as Htotal.
  simpl in Htotal.
  unfold calculate_order_total, get_order_items, find_order_by_id.
  by rewrite Ho.
Qed.

Lemma recomputed_total_is_stored_total_witness :
  calculate_order_total "ord_123e4567"
    (serve [CreateOrder uuid_a "u1" [three_of_P; three_of_P] "USD";
            SubmitOrder "ord_123e4567"] (shop 9))
  = 60%float.
Proof.
  apply (recomputed_total_is_stored_total
           [CreateOrder uuid_a "u1" [three_of_P; three_of_P] "USD";
            SubmitOrder "ord_123e4567"] (shop 9) "ord_123e4567"
           (set_status "pending"
              (create_order_model uuid_a "u1" [three_of_P; three_of_P]
                 "USD"))).
  - unfold totals_consistent, shop; simpl. apply map_Forall_empty.
  - reflexivity.
Defined.

(** ** What no call of the core touches *)

Lemma same_but_stock_refl p : same_but_stock p p.
Proof. by repeat split. Qed.

Lemma same_but_stock_trans p1 p2 p3 :
  same_but_stock p1 p2 → same_but_stock p2 p3 → same_but_stock p1 p3.
Proof. unfold same_but_stock. intros (?&?&?&?&?) (?&?&?&?&?). by repeat split; etrans. Qed.

Lemma catalogue_kept_same_products s s' :
  products_db s' = products_db s → catalogue_kept s s'.
Proof.
  intros E pid. rewrite E. destruct (products_db s !! pid); constructor.
  apply same_but_stock_refl.
Qed.

Lemma catalogue_kept_trans s1 s2 s3 :
  catalogue_kept s1 s2 → catalogue_kept s2 s3 → catalogue_kept s1 s3.
Proof.
  intros H12 H23 pid. specialize (H12 pid). specialize (H23 pid).
  destruct H12 as [p1 p2 H12|]; inversion H23; subst; constructor.
  by eapply same_but_stock_trans.
Qed.

Lemma update_stock_catalogue product_id delta s :
  catalogue_kept s (update_stock product_id delta s).2.
Proof.
  rewrite update_stock_unfold.
  destruct (products_db s !! product_id) as [p|] eqn:Hp;
    [|by apply catalogue_kept_same_products].
  destruct (get_stock p + delta <? 0);
    [by apply catalogue_kept_same_products|].
  intros pid. simpl. destruct (decide (product_id = pid)) as [<-|Hne].
  - rewrite lookup_insert_eq, Hp. constructor. by repeat split.
  - rewrite lookup_insert_ne by done.
    destruct (products_db s !! pid); constructor. apply same_but_stock_refl.
Qed.

Lemma stock_loop_catalogue (f : order_item → Z) items s :
  catalogue_kept s
    (for_each (λ item, update_stock (i_product_id item) (f item)) items s).2.
Proof.
  apply (for_each_invariant _ (catalogue_kept s)).
  - intros item s1 H1. eapply catalogue_kept_trans; [exact H1|].
    apply update_stock_catalogue.
  - by apply catalogue_kept_same_products.
Qed.

Lemma handle_frame r s :
  users_db (handle r s) = users_db s ∧ catalogue_kept s (handle r s).
Proof.
  assert (Hsame : users_db s = users_db s ∧ catalogue_kept s s)
    by (split; [done | by apply catalogue_kept_same_products]).
  assert (Hloop : ∀ (f : order_item → Z) items s0,
            users_db s0 = users_db s → products_db s0 = products_db s →
            users_db (for_each (λ item, update_stock (i_product_id item)
                                          (f item)) items s0).2 = users_db s
            ∧ catalogue_kept s
                (for_each (λ item, update_stock (i_product_id item) (f item))
                   items s0).2).
  { intros f items s0 Hu Hp. split.
    - destruct (stock_loop_frame f items s0) as (-> & _). exact Hu.
    - eapply catalogue_kept_trans; [|apply stock_loop_catalogue].
      by apply catalogue_kept_same_products. }
  assert (Hupd : ∀ product_id delta,
            users_db (update_stock product_id delta s).2 = users_db s
            ∧ catalogue_kept s (update_stock product_id delta s).2).
  { intros product_id delta. split; [|apply update_stock_catalogue].
    by destruct (update_stock_frame product_id delta s) as (-> & _). }
  assert (Hstatus : ∀ order_id status,
            users_db (update_order_status order_id status s).2 = users_db s
            ∧ catalogue_kept s (update_order_status order_id status s).2).
  { intros order_id status.
    destruct (update_order_status_frame order_id status s) as (Hu & Hp & _).
    split; [exact Hu | by apply catalogue_kept_same_products]. }
  destruct r; simpl.
  - rewrite create_order_unfold.
    destruct (users_db s !! user_id) as [user|]; [|exact Hsame].
    destruct (negb (is_active user)); [exact Hsame|].
    destruct (negb (validate_currency currency)); [exact Hsame|].
    destruct (validate_order_items items s) as [v|]; [|exact Hsame].
    destruct (negb (valid v)); [exact Hsame|].
    cbv zeta. cbn [snd]. by apply Hloop.
  - rewrite cancel_order_unfold.
    destruct (orders_db s !! order_id) as [o|]; [|exact Hsame].
    destruct (bool_decide (o_user_id o ≠ user_id)); [exact Hsame|].
    destruct (is_valid_status_transition (o_status o) "cancelled");
      [|exact Hsame].
    cbn [snd]. by apply Hloop.
  - destruct (submit_order_state order_id s) as [-> | ->];
      [exact Hsame | apply Hstatus].
  - rewrite process_refund_state.
    destruct (orders_db s !! order_id) as [o|]; [|exact Hsame].
    destruct (is_valid_status_transition (o_status o) "returned");
      [|exact Hsame].
    by apply Hloop.
  - apply Hstatus.
  - apply Hupd.
  - rewrite reserve_stock_unfold.
    destruct (products_db s !! product_id) as [p|] eqn:Hp; [|exact Hsame].
    destruct (Z.leb_spec quantity (get_stock p)); [|exact Hsame].
    cbv zeta. cbn [snd].
    pose proof (Hupd product_id (- quantity)) as Hu.
    rewrite (update_stock_committed product_id (- quantity) s p Hp) in Hu
      by lia.
    destruct (get_stock p + - quantity <=? 10); exact Hu.
  - rewrite release_stock_state. apply Hupd.
Qed.

(** X5. No sequence of calls of the core changes the user table, and none
    adds or removes a product or changes a product's id, name, sku, price or
    active flag: of the catalogue only the stock moves. *)
Theorem core_keeps_users_and_catalogue (requests : list request) (s : db) :
  users_db (serve requests s) = users_db s
  ∧ catalogue_kept s (serve requests s).
Proof.
  unfold serve. revert s.
  induction requests as [|r rest IH]; intros s; simpl.
  - split; [done | by apply catalogue_kept_same_products].
  - destruct (IH (handle r s)) as [Hu Hc].
    destruct (handle_frame r s) as [Hu' Hc'].
    split; [by rewrite Hu | by eapply catalogue_kept_trans].
Qed.

(** X6. From a ledger without negative stock and an order table whose items
    all have positive quantities, every sequence of calls of the core, the
    reservations and refunds among them, leads to such a ledger and such an
    order table again. *)
Theorem core_keeps_data_model (requests : list request) (s : db) :
  data_model s → data_model (serve requests s).
Proof. apply serve_data_model. Qed.

Lemma core_keeps_data_model_witness :
  data_model
    (serve [CreateOrder uuid_a "u1" [three_of_P] "USD";
            ReserveStock uuid_a uuid_b "P" 4;
            CancelOrder "ord_123e4567" "u1";
            UpdateStock "P" (-9)] (shop 5)).
Proof.
  apply (core_keeps_data_model
           [CreateOrder uuid_a "u1" [three_of_P] "USD";
            ReserveStock uuid_a uuid_b "P" 4;
            CancelOrder "ord_123e4567" "u1";
            UpdateStock "P" (-9)] (shop 5)).
  apply data_model_shop. lia.
Defined.

(** ** Reservation and release through the inventory service *)

(** X7. [reserve_stock] succeeds exactly when the product exists and holds
    at least the quantity asked for; it then takes the quantity off the stock
    and reports what remains. In every other case it answers [OUT_OF_STOCK],
    also for a product that does not exist, and changes nothing; it never
    answers [RESERVE_FAILED]. *)
Theorem reserve_stock_outcomes
    (uid_ntf uid_q product_id : string) (quantity : Z) (s : db) :
  (products_db s !! product_id = None →
   reserve_stock uid_ntf uid_q product_id quantity s
   = (format_error "OUT_OF_STOCK" "Insufficient stock", s))
  ∧ (∀ p, products_db s !! product_id = Some p →
          get_stock p < quantity →
          reserve_stock uid_ntf uid_q product_id quantity s
          = (format_error "OUT_OF_STOCK" "Insufficient stock", s))
  ∧ (∀ p, products_db s !! product_id = Some p →
          quantity ≤ get_stock p →
          (reserve_stock uid_ntf uid_q product_id quantity s).1
          = format_response {| reserved := quantity;
                               remaining := get_stock p - quantity |}
          ∧ stock_of product_id
              (reserve_stock uid_ntf uid_q product_id quantity s).2
            = Some (get_stock p - quantity))
  ∧ (∀ code message,
       (reserve_stock uid_ntf uid_q product_id quantity s).1
       = ErrorResponse code message →
       code = "OUT_OF_STOCK"
       ∧ (reserve_stock uid_ntf uid_q product_id quantity s).2 = s).
Proof.
  split; [|split; [|split]].
  - intros Hp. by rewrite reserve_stock_unfold, Hp.
  - intros p Hp Hlt. rewrite reserve_stock_unfold, Hp.
    destruct (Z.leb_spec quantity (get_stock p)); [lia | done].
  - intros p Hp Hle. rewrite reserve_stock_unfold, Hp.
    destruct (Z.leb_spec quantity (get_stock p)); [|lia].
    cbv zeta. cbn [fst snd].
    replace (get_stock p - quantity) with (get_stock p + - quantity) by lia.
    split; [reflexivity|].
    destruct (get_stock p + - quantity <=? 10);
      unfold stock_of; simpl; by rewrite lookup_insert_eq.
  - intros code message. rewrite reserve_stock_unfold.
    destruct (products_db s !! product_id) as [p|];
      [|by intros [= <- _]].
    destruct (quantity <=? get_stock p); [done | by intros [= <- _]].
Qed.



Lemma release_stock_unfold product_id quantity s :
  release_stock product_id quantity s =
  match products_db s !! product_id with
  | None => (format_error "RELEASE_FAILED" "Could not release stock", s)
  | Some p =>
      if get_stock p + quantity <? 0
      then (format_error "RELEASE_FAILED" "Could not release stock", s)
      else (format_response {| released := quantity;
                               current_stock := get_stock p + quantity |},
            set_products
              (<[product_id := set_stock (get_stock p + quantity) p]>
                 (products_db s)) s)
  end.
Proof.
  unfold release_stock, bind. rewrite update_stock_unfold.
  destruct (products_db s !! product_id) as [p|]; [|reflexivity].
  destruct (get_stock p + quantity <? 0); reflexivity.
Qed.

(** X9. [release_stock] answers [RELEASE_FAILED] and changes nothing when
    the product does not exist or when the quantity, being negative, would
    take the stock below zero; otherwise it adds the quantity to the stock
    and reports the new stock. *)
Theorem release_stock_outcomes (product_id : string) (quantity : Z) (s : db) :
  (products_db s !! product_id = None →
   release_stock product_id quantity s
   = (format_error "RELEASE_FAILED" "Could not release stock", s))
  ∧ (∀ p, products_db s !! product_id = Some p →
          get_stock p + quantity < 0 →
          release_stock product_id quantity s
          = (format_error "RELEASE_FAILED" "Could not release stock", s))
  ∧ (∀ p, products_db s !! product_id = Some p →
          0 ≤ get_stock p + quantity →
          (release_stock product_id quantity s).1
          = format_response {| released := quantity;
                               current_stock := get_stock p + quantity |}
          ∧ stock_of product_id (release_stock product_id quantity s).2
            = Some (get_stock p + quantity)
          ∧ ∀ other, other ≠ product_id →
              products_db (release_stock product_id quantity s).2 !! other
              = products_db s !! other).
Proof.
  split; [|split].
  - intros Hp. by rewrite release_stock_unfold, Hp.
  - intros p Hp Hneg. rewrite release_stock_unfold, Hp.
    destruct (Z.ltb_spec (get_stock p + quantity) 0); [done | lia].
  - intros p Hp Hok. rewrite release_stock_unfold, Hp.
    destruct (Z.ltb_spec (get_stock p + quantity) 0); [lia|].
    cbn [fst snd]. split; [reflexivity|]. split.
    + unfold stock_of; simpl. by rewrite lookup_insert_eq.
    + intros other Hne. simpl. by rewrite lookup_insert_ne.
Qed.

(** X10. On a product whose stock is not negative, a reservation that
    succeeds followed by the release of the same quantity brings the stock
    back to what it was. *)
Theorem reserve_then_release_restores_stock
    (uid_ntf uid_q product_id : string) (quantity : Z) (s : db)
    (p : product_dict) :
  products_db s !! product_id = Some p →
  0 ≤ get_stock p →
  quantity ≤ get_stock p →
  (release_stock product_id quantity
     (reserve_stock uid_ntf uid_q product_id quantity s).2).1
  = format_response {| released := quantity; current_stock := get_stock p |}
  ∧ stock_of product_id
      (release_stock product_id quantity
         (reserve_stock uid_ntf uid_q product_id quantity s).2).2
    = Some (get_stock p).
Proof.
  intros Hp Hnonneg Hle.
  set (s1 := (reserve_stock uid_ntf uid_q product_id quantity s).2).
  assert (Hp1 : products_db s1 !! product_id
                = Some (set_stock (get_stock p + - quantity) p)).
  { unfold s1. rewrite reserve_stock_unfold, Hp.
    destruct (Z.leb_spec quantity (get_stock p)); [|lia]. cbv zeta.
    destruct (get_stock p + - quantity <=? 10); simpl;
      by rewrite lookup_insert_eq. }
  rewrite release_stock_unfold, Hp1.
  change (get_stock (set_stock ?n p)) with n.
  destruct (Z.ltb_spec (get_stock p + - quantity + quantity) 0); [lia|].
  replace (get_stock p + - quantity + quantity) with (get_stock p) by lia.
  cbn [fst snd]. split; [reflexivity|].
  unfold stock_of; simpl. by rewrite lookup_insert_eq.
Qed.

Lemma reserve_then_release_restores_stock_witness :
  (release_stock "P" 3 (reserve_stock uuid_a uuid_b "P" 3 (shop 5)).2).1
  = format_response {| released := 3; current_stock := 5 |}
  ∧ stock_of "P"
      (release_stock "P" 3 (reserve_stock uuid_a uuid_b "P" 3 (shop 5)).2).2
    = Some 5.
Proof.
  apply (reserve_then_release_restores_stock uuid_a uuid_b "P" 3 (shop 5)
           (product_P 5)); [reflexivity | by vm_compute | by vm_compute].
Defined.

(** ** Setting the stock *)

Lemma update_inventory_unfold product_id new_quantity s :
  update_inventory product_id new_quantity s =
  match products_db s !! product_id with
  | None => (format_error "NOT_FOUND" "Product not found", s)
  | Some p =>
      (format_response {| updated_product_id := product_id;
                          new_stock := new_quantity |},
       if new_quantity <? 0 then s
       else set_products
              (<[product_id := set_stock new_quantity p]> (products_db s)) s)
  end.
Proof.
  unfold update_inventory, bind, gets, find_product_by_id.
  destruct (products_db s !! product_id) as [p|] eqn:Hp; [|reflexivity].
  rewrite update_stock_unfold, Hp.
  replace (get_stock p + (new_quantity - get_stock p)) with new_quantity
    by lia.
  destruct (new_quantity <? 0); reflexivity.
Qed.

(** X11. [update_inventory] answers [NOT_FOUND] for a product that does not
    exist. For a product that exists it always answers with a success that
    reports the quantity asked for as the new stock; the stock becomes that
    quantity when the quantity is not negative, and stays what it was when
    the quantity is negative. *)
Theorem update_inventory_outcomes
    (product_id : string) (new_quantity : Z) (s : db) :
  (products_db s !! product_id = None →
   update_inventory product_id new_quantity s
   = (format_error "NOT_FOUND" "Product not found", s))
  ∧ (∀ p, products_db s !! product_id = Some p →
          (update_inventory product_id new_quantity s).1
          = format_response {| updated_product_id := product_id;
                               new_stock := new_quantity |}
          ∧ (0 ≤ new_quantity →
             stock_of product_id (update_inventory product_id new_quantity s).2
             = Some new_quantity)
          ∧ (new_quantity < 0 →
             (update_inventory product_id new_quantity s).2 = s)).
Proof.
  split.
  - intros Hp. by rewrite update_inventory_unfold, Hp.
  - intros p Hp. rewrite update_inventory_unfold, Hp. cbn [fst snd].
    split; [reflexivity|].
    destruct (Z.ltb_spec new_quantity 0); split; try lia; try done.
    intros _. unfold stock_of; simpl. by rewrite lookup_insert_eq.
Qed.

(** ** The notification queue *)

Lemma insert_by_priority_head entry q :
  Forall (by_priority entry) q → insert_by_priority entry q = entry :: q.
Proof.
  destruct 1 as [|e rest He _]; simpl; [done|].
  unfold by_priority in He.
  by destruct (Z.leb_spec (q_priority entry) (q_priority e)); [|lia].
Qed.

Lemma insert_by_priority_sorted entry q :
  queue_sorted q → queue_sorted (insert_by_priority entry q).
Proof.
  induction 1 as [|e rest Hrest IH He]; simpl.
  - repeat constructor.
  - destruct (Z.leb_spec (q_priority entry) (q_priority e)) as [Hle|Hlt].
    + constructor; [by constructor|]. constructor; [exact Hle|].
      eapply Forall_impl; [exact He|].
      unfold by_priority. intros y Hy. simpl in Hy. lia.
    + constructor; [exact IH|].
      rewrite insert_by_priority_perm. constructor; [|exact He].
      unfold by_priority. lia.
Qed.

Lemma sort_queue_list_sorted q : queue_sorted (sort_queue_list q).
Proof.
  induction q as [|e rest IH]; simpl; [constructor|].
  by apply insert_by_priority_sorted.
Qed.

Lemma filter_none {A} (P : A → Prop) `{!∀ x, Decision (P x)} (l : list A) :
  Forall (λ x, ¬ P x) l → filter P l = [].
Proof.
  induction 1 as [|x rest Hx _ IH]; [done|].
  by rewrite filter_cons_False.
Qed.

Lemma Forall_filter_kept {A} (P Q : A → Prop) `{!∀ x, Decision (Q x)}
    (l : list A) :
  Forall P l → Forall P (filter Q l).
Proof.
  rewrite !Forall_forall. intros Hall x [_ Hx]%list_elem_of_filter.
  by apply Hall.
Qed.

(** Sorting a sorted queue with one entry appended puts the entry behind the
    entries of its own and of smaller priority. *)
Lemma sort_queue_list_append q entry :
  queue_sorted q →
  sort_queue_list (q ++ [entry])
  = filter (λ e, q_priority e ≤ q_priority entry) q
    ++ entry :: filter (λ e, q_priority entry < q_priority e) q.
Proof.
  induction 1 as [|x rest Hrest IH Hx]; [reflexivity|].
  change (sort_queue_list ((x :: rest) ++ [entry]))
    with (insert_by_priority x (sort_queue_list (rest ++ [entry]))).
  rewrite IH.
  destruct (decide (q_priority x ≤ q_priority entry)) as [Hle|Hgt].
  - rewrite (filter_cons_True (λ e, q_priority e ≤ q_priority entry)) by done.
    rewrite (filter_cons_False (λ e, q_priority entry < q_priority e))
      by (simpl; lia).
    apply insert_by_priority_head.
    apply Forall_app. split; [by apply Forall_filter_kept|].
    constructor; [exact Hle | by apply Forall_filter_kept].
  - rewrite (filter_cons_False (λ e, q_priority e ≤ q_priority entry))
      by done.
    rewrite (filter_cons_True (λ e, q_priority entry < q_priority e))
      by (simpl; lia).
    rewrite (filter_none (λ e, q_priority e ≤ q_priority entry)).
    2:{ eapply Forall_impl; [exact Hx|]. unfold by_priority.
        intros y Hy. simpl in *. lia. }
    simpl.
    destruct (Z.leb_spec (q_priority x) (q_priority entry)); [lia|].
    f_equal. apply insert_by_priority_head. by apply Forall_filter_kept.
Qed.

Lemma queue_notification_unfold uid notification priority s :
  queue_notification uid notification priority s =
  ({| q_id := generate_id uid "q"; q_notification := notification;
      q_priority := priority; q_status := "queued" |},
   set_queue
     (sort_queue_list
        (queue s ++ [{| q_id := generate_id uid "q";
                        q_notification := notification;
                        q_priority := priority;
                        q_status := "queued" |}])) s).
Proof. reflexivity. Qed.

(** X12. After [queue_notification] the queue is sorted by priority and holds
    the entries it held and the new one. When the queue was sorted before, as
    it is whenever every entry came in through [queue_notification], the new
    entry stands behind the entries of its own and of smaller priority and
    before those of greater priority, and the other entries keep their
    order. *)
Theorem queue_notification_orders_queue
    (uid : string) (notification : notification_dict) (priority : Z)
    (s : db) :
  queue_sorted (queue (queue_notification uid notification priority s).2)
  ∧ queue (queue_notification uid notification priority s).2
    ≡ₚ queue s ++ [(queue_notification uid notification priority s).1]
  ∧ q_notification (queue_notification uid notification priority s).1
    = notification
  ∧ q_priority (queue_notification uid notification priority s).1 = priority
  ∧ q_status (queue_notification uid notification priority s).1 = "queued"
  ∧ (queue_sorted (queue s) →
     queue (queue_notification uid notification priority s).2
     = filter (λ e, q_priority e ≤ priority) (queue s)
       ++ (queue_notification uid notification priority s).1
          :: filter (λ e, priority < q_priority e) (queue s)).
Proof.
  rewrite queue_notification_unfold. cbn [fst snd queue set_queue].
  split; [apply sort_queue_list_sorted|].
  split; [apply sort_queue_list_perm|].
  repeat split. intros Hsorted.
  by rewrite sort_queue_list_append.
Qed.

(** ** Working the queue off *)

Lemma slice_to_from {A} (n : Z) (xs : list A) :
  slice_to n xs ++ slice_from n xs = xs.
Proof.
  unfold slice_to, slice_from. destruct (0 <=? n); apply take_drop.
Qed.

Lemma kept_entries (batch : list queue_entry) :
  filter (λ e, q_status e ≠ "sent") (process_entry <$> batch)
  = set_entry_status "failed"
      <$> filter (λ e, dispatch_notification (q_notification e) = false) batch.
Proof.
  induction batch as [|e rest IH]; [reflexivity|].
  rewrite fmap_cons. unfold process_entry at 1.
  destruct (dispatch_notification (q_notification e)) eqn:Hd.
  - rewrite filter_cons_False by (simpl; by intros H; apply H).
    by rewrite (filter_cons_False _ e) by (by rewrite Hd).
  - rewrite filter_cons_True by done.
    rewrite (filter_cons_True _ e) by done.
    by rewrite fmap_cons, IH.
Qed.

Lemma dispatch_partition (batch : list queue_entry) :
  (length (filter (λ e, dispatch_notification (q_notification e) = true)
             batch)
   + length (filter (λ e, dispatch_notification (q_notification e) = false)
               batch))%nat
  = length batch.
Proof.
  induction batch as [|e rest IH]; [reflexivity|].
  destruct (dispatch_notification (q_notification e)) eqn:Hd.
  - rewrite (filter_cons_True _ e) by done.
    rewrite (filter_cons_False _ e) by (by rewrite Hd). simpl. lia.
  - rewrite (filter_cons_False _ e) by (by rewrite Hd).
    rewrite (filter_cons_True _ e) by done. simpl. lia.
Qed.

(** X13. [process_queue] looks at the batch [_queue[:batch_size]] only. The
    entries of the batch whose channel is email, sms, push or webhook are
    counted as processed and leave the queue; the others are counted as
    errors and stay at the head of the queue, in their order, with the status
    [failed], followed by the entries behind the batch. The two counts add up
    to the size of the batch, the reported remainder is the length of the
    queue left, and no other table changes. *)
Theorem process_queue_outcome (batch_size : Z) (s : db) :
  queue (process_queue batch_size s).2
  = (set_entry_status "failed"
       <$> filter (λ e, dispatch_notification (q_notification e) = false)
             (slice_to batch_size (queue s)))
    ++ slice_from batch_size (queue s)
  ∧ processed (process_queue batch_size s).1
    + errors (process_queue batch_size s).1
    = Z.of_nat (length (slice_to batch_size (queue s)))
  ∧ remaining_entries (process_queue batch_size s).1
    = Z.of_nat (length (queue s)) - processed (process_queue batch_size s).1
  ∧ remaining_entries (process_queue batch_size s).1
    = Z.of_nat (length (queue (process_queue batch_size s).2))
  ∧ users_db (process_queue batch_size s).2 = users_db s
  ∧ products_db (process_queue batch_size s).2 = products_db s
  ∧ orders_db (process_queue batch_size s).2 = orders_db s
  ∧ user_order_index (process_queue batch_size s).2 = user_order_index s.
Proof.
  unfold process_queue, bind, gets, modify, ret.
  cbn [fst snd queue set_queue processed errors remaining_entries
       users_db products_db orders_db user_order_index].
  rewrite kept_entries.
  pose proof (dispatch_partition (slice_to batch_size (queue s))) as Hpart.
  pose proof (f_equal length (slice_to_from batch_size (queue s))) as Hlen.
  rewrite length_app in Hlen.
  repeat split; try lia.
  rewrite length_app, length_fmap. lia.
Qed.

(** ** Listing and deleting orders *)

(** No order the core builds carries [created_at]: the sort by date finds
    every key equal and, being stable, leaves the list as it is. *)
Lemma sort_by_date_id orders : sort_by_date orders = orders.
Proof.
  induction orders as [|o rest IH]; [reflexivity|].
  simpl. fold (sort_by_date rest). rewrite IH. by destruct rest.
Qed.

Lemma slice_to_subseteq {A} (n : Z) (xs : list A) : slice_to n xs ⊆ xs.
Proof. unfold slice_to. destruct (0 <=? n); apply subseteq_take. Qed.

Lemma slice_to_length {A} (n : Z) (xs : list A) :
  0 ≤ n → (length (slice_to n xs) ≤ Z.to_nat n)%nat.
Proof.
  intros Hn. unfold slice_to. destruct (Z.leb_spec 0 n); [|lia].
  rewrite length_take. lia.
Qed.

Lemma list_orders_by_user_unfold user_id limit s :
  list_orders_by_user user_id limit s
  = slice_to limit
      (omap (λ oid, orders_db s !! oid)
         (default [] (user_order_index s !! user_id))).
Proof. unfold list_orders_by_user. by rewrite sort_by_date_id. Qed.

(** X14. [list_orders_by_user] walks the ids indexed for the user in the
    order in which they were indexed, skips the ids that are no longer on
    record, and cuts the result at [limit]: every order it lists is on record
    under an id of the user's index, for a [limit] that is not negative it
    lists at most [limit] orders, and these are the oldest ones. A user
    without index entry gets the empty list. *)
Theorem list_orders_by_user_lists_recorded
    (user_id : string) (limit : Z) (s : db) :
  list_orders_by_user user_id limit s
  = slice_to limit
      (omap (λ oid, orders_db s !! oid)
         (default [] (user_order_index s !! user_id)))
  ∧ (∀ o, o ∈ list_orders_by_user user_id limit s →
          ∃ oid, oid ∈ default [] (user_order_index s !! user_id)
                 ∧ orders_db s !! oid = Some o)
  ∧ (0 ≤ limit →
     (length (list_orders_by_user user_id limit s) ≤ Z.to_nat limit)%nat)
  ∧ (user_order_index s !! user_id = None →
     list_orders_by_user user_id limit s = []).
Proof.
  rewrite list_orders_by_user_unfold.
  split; [reflexivity|]. split; [|split].
  - intros o Ho. apply slice_to_subseteq in Ho.
    by apply list_elem_of_omap in Ho.
  - apply slice_to_length.
  - intros ->. simpl. unfold slice_to.
    destruct (0 <=? limit); apply take_nil.
Qed.

Lemma delete_order_record_unfold order_id s :
  delete_order_record order_id s =
  match orders_db s !! order_id with
  | None => (false, s)
  | Some _ => (true, set_orders (delete order_id (orders_db s)) s)
  end.
Proof.
  unfold delete_order_record, bind, gets.
  by destruct (orders_db s !! order_id).
Qed.

(** X15. [delete_order_record] answers [False] and changes nothing for an id
    that is not on record. Otherwise it answers [True] and takes the order
    off the order table, leaving every other order and every other table as
    they were; the id stays in the user's index, and the listings skip it. *)
Theorem delete_order_record_outcomes (order_id : string) (s : db) :
  (orders_db s !! order_id = None →
   delete_order_record order_id s = (false, s))
  ∧ (is_Some (orders_db s !! order_id) →
     (delete_order_record order_id s).1 = true
     ∧ orders_db (delete_order_record order_id s).2 !! order_id = None
     ∧ (∀ other, other ≠ order_id →
          orders_db (delete_order_record order_id s).2 !! other
          = orders_db s !! other)
     ∧ user_order_index (delete_order_record order_id s).2
       = user_order_index s
     ∧ products_db (delete_order_record order_id s).2 = products_db s
     ∧ ∀ user_id limit o,
         o ∈ list_orders_by_user user_id limit
               (delete_order_record order_id s).2 →
         ∃ oid, oid ≠ order_id
                ∧ oid ∈ default [] (user_order_index s !! user_id)
                ∧ orders_db s !! oid = Some o).
Proof.
  rewrite delete_order_record_unfold. split.
  - by intros ->.
  - intros [o Ho]. rewrite Ho. cbn [fst snd].
    split; [reflexivity|]. split; [simpl; apply lookup_delete_eq|].
    split; [intros other Hne; simpl; by rewrite lookup_delete_ne|].
    split; [reflexivity|]. split; [reflexivity|].
    intros user_id limit o' Hin.
    rewrite list_orders_by_user_unfold in Hin.
    apply slice_to_subseteq, list_elem_of_omap in Hin as (oid & Hoid & Hfind).
    simpl in Hfind, Hoid. exists oid.
    destruct (decide (oid = order_id)) as [->|Hne].
    + by rewrite lookup_delete_eq in Hfind.
    + rewrite lookup_delete_ne in Hfind by done. done.
Qed.

Lemma delete_order_record_outcomes_example :
  (delete_order_record "ord_1" (shop_with_order 2 "created")).1 = true
  ∧ list_orders_by_user "u1" 50
      (delete_order_record "ord_1" (shop_with_order 2 "created")).2 = []
  ∧ user_order_index
      (delete_order_record "ord_1" (shop_with_order 2 "created")).2 !! "u1"
    = Some ["ord_1"].
Proof. repeat split; reflexivity. Qed.

(** ** A created order is indexed and listed *)

Lemma create_order_record_index o s :
  user_order_index (create_order_record o s).2 !! o_user_id o
  = Some (default [] (user_order_index s !! o_user_id o) ++ [o_id o]).
Proof.
  rewrite create_order_record_unfold. simpl. rewrite lookup_insert_eq.
  destruct (user_order_index s !! o_user_id o) eqn:E; simpl.
  - by rewrite E.
  - by rewrite lookup_insert_eq.
Qed.

Lemma length_omap_le {A B} (f : A → option B) (l : list A) :
  (length (omap f l) ≤ length l)%nat.
Proof.
  induction l as [|x l IH]; [done|].
  cbn [omap list_omap]. destruct (f x); simpl; lia.
Qed.

(** X16. An accepted [create_order] appends the id of the new order to the
    ids indexed for the user, and [list_orders_by_user] lists the new order
    last, provided the limit exceeds the number of ids the user had before. *)
Theorem created_order_is_listed
    (uid user_id : string) (items : list item_request) (currency : string)
    (s : db) (user : user_dict) (limit : Z) :
  users_db s !! user_id = Some user →
  is_active user = true →
  upper currency ∈ get_valid_currencies →
  items ≠ [] →
  Forall (item_valid s) items →
  Z.of_nat (length (default [] (user_order_index s !! user_id))) < limit →
  user_order_index (create_order uid user_id items currency s).2 !! user_id
  = Some (default [] (user_order_index s !! user_id)
          ++ [generate_id uid "ord"])
  ∧ last (list_orders_by_user user_id limit
            (create_order uid user_id items currency s).2)
    = Some (create_order_model uid user_id items currency).
Proof.
  intros Hu Hact Hcur Hne Hall Hlimit.
  rewrite (create_order_accepted _ _ _ _ _ _ Hu Hact Hcur Hne Hall).
  set (order := create_order_model uid user_id items currency).
  cbn [snd]. unfold reserve_order_stock.
  destruct (stock_loop_frame (λ item, - i_quantity item) (o_items order)
              (create_order_record order s).2) as (_ & Horders & Hindex & _).
  assert (Hidx : user_order_index
                   (for_each (λ item, update_stock (i_product_id item)
                                        (- i_quantity item))
                      (o_items order) (create_order_record order s).2).2
                 !! user_id
                 = Some (default [] (user_order_index s !! user_id)
                         ++ [generate_id uid "ord"])).
  { rewrite Hindex. apply (create_order_record_index order s). }
  split; [exact Hidx|].
  rewrite list_orders_by_user_unfold, Hidx, Horders. simpl.
  rewrite omap_app. simpl. rewrite lookup_insert_eq. simpl.
  set (older := omap _ _).
  assert (length older ≤ length (default [] (user_order_index s !! user_id)))%nat
    as Holder by apply length_omap_le.
  unfold slice_to. destruct (Z.leb_spec 0 limit); [|lia].
  rewrite take_ge by (rewrite length_app; simpl; lia).
  by rewrite last_snoc.
Qed.

Lemma created_order_is_listed_witness :
  user_order_index
    (create_order uuid_a "u1" [three_of_P] "USD"
       (shop_with_order 5 "created")).2 !! "u1"
  = Some ["ord_1"; "ord_123e4567"]
  ∧ last (list_orders_by_user "u1" 50
            (create_order uuid_a "u1" [three_of_P] "USD"
               (shop_with_order 5 "created")).2)
    = Some (create_order_model uuid_a "u1" [three_of_P] "USD").
Proof.
  apply (created_order_is_listed uuid_a "u1" [three_of_P] "USD"
           (shop_with_order 5 "created") user_u1 50).
  - reflexivity.
  - reflexivity.
  - unfold get_valid_currencies. set_solver.
  - discriminate.
  - apply Forall_singleton. unfold item_valid.
    split; [cbv; split; [reflexivity | discriminate]|].
    split; [split; reflexivity|]. split; [reflexivity|]. by eexists.
  - by vm_compute.
Defined.

(** ** The sku index *)

(** X17. A product registered with [create_product_record] is found again
    under its id, and under its sku provided its id is not the empty string;
    a product whose id is the empty string is on record but
    [find_product_by_sku] never finds it. Products under other ids and the
    entries of other skus are not touched. *)
Theorem create_product_record_lookup
    (product : product_dict) (index : gmap string string) (s : db) :
  find_product_by_id (p_id product)
    (create_product_record product index s).2 = Some product
  ∧ (p_id product ≠ "" →
     find_product_by_sku (p_sku product)
       (create_product_record product index s).1.2
       (create_product_record product index s).2 = Some product)
  ∧ (p_id product = "" →
     find_product_by_sku (p_sku product)
       (create_product_record product index s).1.2
       (create_product_record product index s).2 = None)
  ∧ (∀ other, other ≠ p_id product →
       find_product_by_id other (create_product_record product index s).2
       = find_product_by_id other s)
  ∧ (∀ sku, sku ≠ p_sku product →
       (create_product_record product index s).1.2 !! sku = index !! sku).
Proof.
  unfold create_product_record, find_product_by_sku, find_product_by_id.
  cbn [fst snd products_db set_products].
  rewrite !lookup_insert_eq.
  split; [reflexivity|]. split; [|split; [|split]].
  - intros Hid. by rewrite bool_decide_eq_false_2.
  - intros Hid. by rewrite bool_decide_eq_true_2.
  - intros other Hne. by rewrite lookup_insert_ne.
  - intros sku Hne. by rewrite lookup_insert_ne.
Qed.

(** X18. [delete_product_record] answers [False] and changes nothing for an
    id that is not on record. Otherwise it answers [True]; the product is
    then found neither under its id nor under its sku, whichever product the
    sku entry pointed to, and the other products and the entries of the other
    skus are as before. *)
Theorem delete_product_record_outcomes
    (product_id : string) (index : gmap string string) (s : db) :
  (products_db s !! product_id = None →
   delete_product_record product_id index s = (false, index, s))
  ∧ (∀ p, products_db s !! product_id = Some p →
          (delete_product_record product_id index s).1.1 = true
          ∧ find_product_by_id product_id
              (delete_product_record product_id index s).2 = None
          ∧ find_product_by_sku (p_sku p)
              (delete_product_record product_id index s).1.2
              (delete_product_record product_id index s).2 = None
          ∧ (∀ other, other ≠ product_id →
               find_product_by_id other
                 (delete_product_record product_id index s).2
               = find_product_by_id other s)
          ∧ (∀ sku, sku ≠ p_sku p →
               (delete_product_record product_id index s).1.2 !! sku
               = index !! sku)).
Proof.
  unfold delete_product_record, find_product_by_sku, find_product_by_id.
  split.
  - by intros ->.
  - intros p ->. cbn [fst snd products_db set_products].
    rewrite !lookup_delete_eq.
    split; [reflexivity|]. split; [reflexivity|]. split; [reflexivity|].
    split.
    + intros other Hne. by rewrite lookup_delete_ne.
    + intros sku Hne. by rewrite lookup_delete_ne.
Qed.

(** ** Synchronisation with an external inventory *)

Lemma sync_single_product_unfold index item s :
  sync_single_product index item s =
  match sync_sku item with
  | None => (false, s)
  | Some sku =>
      if bool_decide (sku = "") then (false, s)
      else
        match find_product_by_sku sku index s with
        | None => (false, s)
        | Some p =>
            (true,
             (update_stock (p_id p)
                (default 0 (sync_quantity item) - get_stock p) s).2)
        end
  end.
Proof.
  unfold sync_single_product.
  destruct (sync_sku item) as [sku|]; [|reflexivity].
  destruct (bool_decide (sku = "")); [reflexivity|].
  unfold bind, gets.
  destruct (find_product_by_sku sku index s) as [p|]; [|reflexivity].
  by destruct (update_stock _ _ s).
Qed.

Lemma sync_each_cons index item rest counts s :
  sync_each index (item :: rest) counts s =
  sync_each index rest
    (if (sync_single_product index item s).1
     then {| synced := synced counts + 1; sync_errors := sync_errors counts |}
     else {| synced := synced counts; sync_errors := sync_errors counts + 1 |})
    (sync_single_product index item s).2.
Proof.
  cbn [sync_each]. unfold bind.
  by destruct (sync_single_product index item s).
Qed.

Lemma sync_each_counts index external_data :
  ∀ counts s,
    synced (sync_each index external_data counts s).1
    + sync_errors (sync_each index external_data counts s).1
    = synced counts + sync_errors counts + Z.of_nat (length external_data)
    ∧ synced counts ≤ synced (sync_each index external_data counts s).1
    ∧ sync_errors counts
      ≤ sync_errors (sync_each index external_data counts s).1.
Proof.
  induction external_data as [|item rest IH]; intros counts s.
  - simpl. lia.
  - rewrite sync_each_cons, length_cons.
    destruct (IH (if (sync_single_product index item s).1
                  then {| synced := synced counts + 1;
                          sync_errors := sync_errors counts |}
                  else {| synced := synced counts;
                          sync_errors := sync_errors counts + 1 |})
                (sync_single_product index item s).2) as (H1 & H2 & H3).
    destruct (sync_single_product index item s).1;
      cbn [synced sync_errors] in *; lia.
Qed.

(** X19. [sync_single_product] answers [False] and changes nothing when the
    item has no sku, an empty sku, or a sku that [find_product_by_sku] does
    not resolve, and in no other case. In every other case it answers [True]
    and leaves the tables as the call of [update_stock] on the id the product
    carries, with the difference to the stock of the product, leaves them:
    for a product on record under that id, the stock is the quantity of the
    item when that is not negative (0 when the item has no quantity) and the
    other products are as before, and nothing changes when the quantity is
    negative. [sync_inventory] counts every item exactly once, as synced or
    as error. *)
Theorem sync_inventory_counts
    (index : gmap string string) (external_data : list sync_item) (s : db) :
  (∀ item,
     sync_sku item = None ∨ sync_sku item = Some ""
     ∨ (∃ sku, sync_sku item = Some sku
               ∧ find_product_by_sku sku index s = None) →
     sync_single_product index item s = (false, s))
  ∧ (∀ item,
       (sync_single_product index item s).1 = false →
       sync_sku item = None ∨ sync_sku item = Some ""
       ∨ (∃ sku, sync_sku item = Some sku
                 ∧ find_product_by_sku sku index s = None))
  ∧ (∀ item sku p,
       sync_sku item = Some sku → sku ≠ "" →
       find_product_by_sku sku index s = Some p →
       sync_single_product index item s
       = (true,
          (update_stock (p_id p)
             (default 0 (sync_quantity item) - get_stock p) s).2)
       ∧ (products_db s !! p_id p = Some p →
          0 ≤ default 0 (sync_quantity item) →
          stock_of (p_id p) (sync_single_product index item s).2
          = Some (default 0 (sync_quantity item))
          ∧ ∀ other, other ≠ p_id p →
              products_db (sync_single_product index item s).2 !! other
              = products_db s !! other)
       ∧ (products_db s !! p_id p = Some p →
          default 0 (sync_quantity item) < 0 →
          (sync_single_product index item s).2 = s))
  ∧ (∃ counts,
       (sync_inventory index external_data s).1 = format_response counts
       ∧ 0 ≤ synced counts ∧ 0 ≤ sync_errors counts
       ∧ synced counts + sync_errors counts
         = Z.of_nat (length external_data)).
Proof.
  split; [|split; [|split]].
  - intros item. rewrite sync_single_product_unfold.
    intros [-> | [-> | (sku & -> & Hnone)]]; [done|done|].
    destruct (bool_decide (sku = "")); [done|]. by rewrite Hnone.
  - intros item. rewrite sync_single_product_unfold.
    destruct (sync_sku item) as [sku|]; [|by left].
    destruct (bool_decide (sku = "")) eqn:Hempty.
    { apply bool_decide_eq_true in Hempty as ->. right. by left. }
    destruct (find_product_by_sku sku index s) eqn:Hfind; [done|].
    intros _. right. right. by exists sku.
  - intros item sku p Hsku Hne Hfind.
    rewrite sync_single_product_unfold, Hsku, bool_decide_eq_false_2, Hfind
      by done.
    split; [reflexivity|]. cbn [fst snd]. split.
    + intros Hp Hq.
      rewrite (update_stock_committed _ _ _ _ Hp) by lia.
      unfold stock_of. cbn [snd products_db set_products]. split.
      * rewrite lookup_insert_eq. cbn [fmap option_fmap option_map].
        change (get_stock (set_stock ?n p)) with n. f_equal. lia.
      * intros other Hother. by rewrite lookup_insert_ne.
    + intros Hp Hq. rewrite update_stock_unfold, Hp.
      destruct (Z.ltb_spec (get_stock p
                            + (default 0 (sync_quantity item) - get_stock p))
                  0); [done|lia].
  - unfold sync_inventory, bind.
    pose proof (sync_each_counts index external_data
                  {| synced := 0; sync_errors := 0 |} s) as (H1 & H2 & H3).
    destruct (sync_each index external_data _ s) as [counts s1].
    exists counts. simpl in *. repeat split; try done; lia.
Qed.

(** ** Sanitising text *)

Lemma remove_html_tags_from_clean in_tag value :
  contains_char "<" (remove_html_tags_from in_tag value) = false
  ∧ contains_char ">" (remove_html_tags_from in_tag value) = false.
Proof.
  revert in_tag. induction value as [|c rest IH]; intros in_tag; [done|].
  simpl. destruct (Ascii.eqb c "<") eqn:Hlt; [apply IH|].
  destruct (Ascii.eqb c ">") eqn:Hgt; [apply IH|].
  destruct in_tag; simpl; [apply IH|].
  rewrite Hlt, Hgt. apply IH.
Qed.

Lemma remove_html_tags_from_id value :
  contains_char "<" value = false →
  contains_char ">" value = false →
  remove_html_tags_from false value = value.
Proof.
  induction value as [|c rest IH]; [done|]. simpl.
  intros [-> Hlt]%orb_false_iff [-> Hgt]%orb_false_iff. simpl.
  by rewrite IH.
Qed.

Lemma remove_html_tags_from_open value :
  contains_char ">" value = false → remove_html_tags_from true value = "".
Proof.
  induction value as [|c rest IH]; [done|]. simpl.
  intros [-> Hgt]%orb_false_iff.
  destruct (Ascii.eqb c "<"); by apply IH.
Qed.

Lemma remove_html_tags_from_unclosed in_tag before after :
  contains_char ">" after = false →
  remove_html_tags_from in_tag (before +:+ String "<" after)
  = remove_html_tags_from in_tag before.
Proof.
  intros Hafter. revert in_tag.
  induction before as [|c rest IH]; intros in_tag.
  - simpl. by apply remove_html_tags_from_open.
  - change (String c rest +:+ String "<" after)
      with (String c (rest +:+ String "<" after)).
    cbn [remove_html_tags_from].
    destruct (Ascii.eqb c "<"); [apply IH|].
    destruct (Ascii.eqb c ">"); [apply IH|].
    destruct in_tag; simpl; [apply IH|]. by rewrite IH.
Qed.

(** X20. What [remove_html_tags] returns holds neither [<] nor [>], and so
    does what [sanitize_string] returns; a text without these characters is
    returned as it is, so that removing tags twice is removing them once; and
    a [<] that no [>] follows takes the rest of the text with it. *)
Theorem remove_html_tags_properties (value : string) :
  contains_char "<" (remove_html_tags value) = false
  ∧ contains_char ">" (remove_html_tags value) = false
  ∧ contains_char "<" (sanitize_string value) = false
  ∧ contains_char ">" (sanitize_string value) = false
  ∧ (contains_char "<" value = false →
     contains_char ">" value = false →
     remove_html_tags value = value)
  ∧ remove_html_tags (remove_html_tags value) = remove_html_tags value
  ∧ (∀ rest, contains_char ">" rest = false →
       remove_html_tags (value +:+ String "<" rest)
       = remove_html_tags value).
Proof.
  unfold sanitize_string, remove_html_tags.
  split; [apply remove_html_tags_from_clean|].
  split; [apply remove_html_tags_from_clean|].
  split; [apply remove_html_tags_from_clean|].
  split; [apply remove_html_tags_from_clean|].
  split; [apply remove_html_tags_from_id|].
  split.
  - apply remove_html_tags_from_id; apply remove_html_tags_from_clean.
  - intros rest. apply remove_html_tags_from_unclosed.
Qed.

(** ** Error messages *)

Lemma string_length_app (a b : string) :
  String.length (a +:+ b) = (String.length a + String.length b)%nat.
Proof. induction a as [|c a IH]; simpl; [done | by rewrite IH]. Qed.

Lemma substring_0_length n (value : string) :
  (String.length (String.substring 0 n value) ≤ n)%nat.
Proof.
  revert value. induction n as [|n IH]; intros [|c value]; simpl; try lia.
  specialize (IH value). lia.
Qed.

(** X21. The message of an error dictionary built by [format_error] has at
    most 500 characters: a message of at most 500 characters is kept as it
    is, a longer one is cut to its first 497 characters followed by three
    dots. The code is kept as given. *)
Theorem format_error_message_bounded (A : Type) (code message : string) :
  ∃ shown,
    @format_error A code message = ErrorResponse code shown
    ∧ (String.length shown ≤ 500)%nat
    ∧ ((String.length message ≤ 500)%nat → shown = message)
    ∧ ((500 < String.length message)%nat →
       shown = String.substring 0 497 message +:+ "...").
Proof.
  unfold format_error, truncate_string.
  destruct (Nat.leb_spec (String.length message) 500) as [Hle|Hgt].
  - exists message. repeat split; [done|]. lia.
  - eexists. split; [reflexivity|]. split; [|split; [lia|done]].
    rewrite string_length_app.
    pose proof (substring_0_length (500 - 3) message).
    change (String.length "...") with 3%nat. lia.
Qed.

(** ** Names and e-mail addresses *)

Lemma contains_special_chars_brackets value :
  contains_special_chars value = false →
  contains_char "<" value = false ∧ contains_char ">" value = false.
Proof.
  induction value as [|c rest IH]; [done|]. simpl.
  intros [Hc Hrest]%orb_false_iff. destruct (IH Hrest) as [-> ->].
  rewrite !orb_false_r.
  split; apply Ascii.eqb_neq; intros ->; by vm_compute in Hc.
Qed.

Lemma lstrip_contains c value :
  contains_char c value = false → contains_char c (lstrip value) = false.
Proof.
  induction value as [|c' rest IH]; [done|]. simpl.
  intros H. destruct (is_space c'); [|exact H].
  apply orb_false_iff in H as [_ H]. by apply IH.
Qed.

Lemma rstrip_contains c value :
  contains_char c value = false → contains_char c (rstrip value) = false.
Proof.
  induction value as [|c' rest IH]; [done|]. simpl.
  intros [Hc Hrest]%orb_false_iff. specialize (IH Hrest).
  destruct (rstrip rest) as [|c'' rest'].
  - destruct (is_space c'); [done|]. simpl. by rewrite Hc.
  - simpl in *. by rewrite Hc, IH.
Qed.

Lemma sanitize_valid_name name :
  validate_name name = true → sanitize_string name = strip name.
Proof.
  unfold validate_name.
  destruct (bool_decide (name = "") || (String.length name <? 2)%nat);
    [done|].
  intros Hname%negb_true_iff.
  apply contains_special_chars_brackets in Hname as [Hlt Hgt].
  unfold sanitize_string, remove_html_tags, strip.
  apply remove_html_tags_from_id;
    by apply rstrip_contains, lstrip_contains.
Qed.

(** X22. [create_user] raises [ValueError("Invalid name")] for a name that
    [validate_name] rejects, whatever the address, and
    [ValueError("Invalid email")] for a valid name with an address that
    [validate_email] rejects. Otherwise it returns an active user of role
    [user] whose address is the one given and whose name is the given name
    with the white space at its ends stripped (the characters of [is_space])
    and nothing else changed. *)
Theorem create_user_outcomes (uid name email : string) :
  (validate_name name = false → create_user uid name email = inl "Invalid name")
  ∧ (validate_name name = true →
     validate_email email = false →
     create_user uid name email = inl "Invalid email")
  ∧ (validate_name name = true →
     validate_email email = true →
     create_user uid name email
     = inr {| u_id := generate_id uid "usr";
              u_name := strip name;
              u_email := email;
              u_role := "user";
              u_active := Some true |}).
Proof.
  unfold create_user. split; [|split].
  - by intros ->.
  - by intros -> ->.
  - intros Hname Hemail. rewrite Hname, Hemail. simpl.
    unfold create_user_model. by rewrite (sanitize_valid_name _ Hname).
Qed.

Lemma split_char_nonempty sep value : split_char sep value ≠ [].
Proof.
  destruct value as [|c rest]; [done|]. simpl.
  destruct (split_char sep rest); [done|].
  by destruct (Ascii.eqb c sep).
Qed.

Lemma split_char_one sep value part :
  split_char sep value = [part] →
  value = part ∧ contains_char sep value = false.
Proof.
  revert part. induction value as [|c rest IH]; intros part.
  - by intros [= <-].
  - simpl. destruct (split_char sep rest) as [|p ps] eqn:Hs.
    { by destruct (split_char_nonempty sep rest). }
    destruct (Ascii.eqb c sep) eqn:Hc; [done|].
    intros [= <- ->]. destruct (IH p eq_refl) as [-> Hno].
    by rewrite Hno.
Qed.

Lemma split_char_two sep value first second :
  split_char sep value = [first; second] →
  value = first +:+ String sep second
  ∧ contains_char sep first = false
  ∧ contains_char sep second = false.
Proof.
  revert first. induction value as [|c rest IH]; intros first; [done|].
  simpl. destruct (split_char sep rest) as [|p ps] eqn:Hs.
  { by destruct (split_char_nonempty sep rest). }
  destruct (Ascii.eqb c sep) eqn:Hc.
  - intros [= <- -> ->]. apply Ascii.eqb_eq in Hc as ->.
    destruct (split_char_one sep rest second Hs) as [-> Hno].
    by repeat split.
  - intros [= <- ->]. destruct (IH p eq_refl) as (-> & Hp & Hsecond).
    repeat split; [|done]. simpl. by rewrite Hc.
Qed.

Lemma split_char_none sep value :
  contains_char sep value = false → split_char sep value = [value].
Proof.
  induction value as [|c rest IH]; [done|]. simpl.
  intros [Hc Hrest]%orb_false_iff. by rewrite (IH Hrest), Hc.
Qed.

Lemma split_char_app sep first second :
  contains_char sep first = false →
  split_char sep (first +:+ String sep second)
  = first :: split_char sep second.
Proof.
  induction first as [|c rest IH].
  - intros _. simpl. rewrite Ascii.eqb_refl.
    destruct (split_char sep second) eqn:Hs; [|done].
    by destruct (split_char_nonempty sep second).
  - simpl. intros [Hc Hrest]%orb_false_iff.
    change (split_char sep (String c (rest +:+ String sep second)))
      with (match split_char sep (rest +:+ String sep second) with
            | [] => [EmptyString]
            | part :: parts =>
                if Ascii.eqb c sep then EmptyString :: part :: parts
                else String c part :: parts
            end).
    by rewrite (IH Hrest), Hc.
Qed.

Lemma contains_char_app c (a b : string) :
  contains_char c (a +:+ b) = contains_char c a || contains_char c b.
Proof.
  induction a as [|c' a IH]; [done|]. simpl. by rewrite IH, orb_assoc.
Qed.

(** X23. [validate_email] accepts exactly the addresses of the form
    [local@domain] in which neither part holds an [@], and the domain holds a
    dot and has at least three characters. Nothing is asked of the local
    part, which may be empty. *)
Theorem validate_email_accepts (email : string) :
  validate_email email = true
  ↔ ∃ local domain,
      email = local +:+ String "@" domain
      ∧ contains_char "@" local = false
      ∧ contains_char "@" domain = false
      ∧ contains_char "." domain = true
      ∧ (3 ≤ String.length domain)%nat.
Proof.
  unfold validate_email. split.
  - destruct (bool_decide (email = "") || negb (contains_char "@" email));
      [done|].
    destruct (split_char "@" email) as [|local [|domain [|]]] eqn:Hsplit;
      try done.
    intros Hdomain. exists local, domain.
    destruct (split_char_two _ _ _ _ Hsplit) as (-> & Hl & Hd).
    repeat split; try done.
    + unfold validate_domain in Hdomain.
      destruct (contains_char "." domain); [done|].
      by rewrite orb_true_r in Hdomain.
    + unfold validate_domain in Hdomain.
      destruct (bool_decide (domain = "") || negb (contains_char "." domain));
        [done|].
      by apply Nat.leb_le.
  - intros (local & domain & -> & Hl & Hd & Hdot & Hlen).
    rewrite bool_decide_eq_false_2 by (by destruct local).
    rewrite contains_char_app. simpl. rewrite orb_true_r. simpl.
    rewrite split_char_app, split_char_none by done.
    unfold validate_domain.
    rewrite bool_decide_eq_false_2 by (intros ->; simpl in Hlen; lia).
    rewrite Hdot. cbn [negb orb]. by apply Nat.leb_le.
Qed.

(** ** Discounts *)

Lemma lookup_discount_cases code :
  lookup_discount code =
  if decide (upper code = "SAVE10") then Some 10
  else if decide (upper code = "SAVE20") then Some 20
  else None.
Proof.
  unfold lookup_discount, discount_codes.
  cbn [list_to_map foldr uncurry fst snd].
  repeat (rewrite lookup_insert; case_decide; subst;
          [ repeat case_decide; congruence | ]).
  rewrite lookup_empty. repeat case_decide; congruence.
Qed.

(** X24. [apply_discount] answers [NOT_FOUND] when the order is not on
    record, whatever the code, and [INVALID_CODE] when the code, upper-cased,
    is neither [SAVE10] nor [SAVE20]. For [SAVE10] it quotes the stored total
    times 0.9 and for [SAVE20] the stored total times 0.8, in any mix of
    cases, next to the stored total and the code as it was typed. *)
Theorem apply_discount_outcomes (order_id code : string) (s : db) :
  (orders_db s !! order_id = None →
   apply_discount order_id code s
   = format_error "NOT_FOUND" "Order not found")
  ∧ (∀ o, orders_db s !! order_id = Some o →
          upper code ≠ "SAVE10" → upper code ≠ "SAVE20" →
          apply_discount order_id code s
          = format_error "INVALID_CODE" "Discount code not valid")
  ∧ (∀ o, orders_db s !! order_id = Some o →
          upper code = "SAVE10" →
          apply_discount order_id code s
          = format_response
              {| original := o_total o;
                 discounted := PrimFloat.mul (o_total o) 0.9%float;
                 quoted_code := code |})
  ∧ (∀ o, orders_db s !! order_id = Some o →
          upper code = "SAVE20" →
          apply_discount order_id code s
          = format_response
              {| original := o_total o;
                 discounted := PrimFloat.mul (o_total o) 0.8%float;
                 quoted_code := code |}).
Proof.
  unfold apply_discount, find_order_by_id. rewrite lookup_discount_cases.
  split; [by intros ->|].
  split; [|split]; intros o -> **.
  - by rewrite !decide_False.
  - by rewrite decide_True.
  - rewrite decide_False, decide_True by congruence. reflexivity.
Qed.

(** ** Counting orders *)

(** X25. [count_orders] counts the whole order table when it is given no
    user id, and also when it is given the empty string, under which
    [index_order_by_user] files the orders that carry no user id. For any
    other user it counts the orders that [list_orders_by_user] lists, which
    are at most as many as the ids indexed for the user and never more than
    999999; and [get_order_history] summarises at most 999 orders. *)
Theorem count_orders_bounds (s : db) :
  count_orders None s = size (orders_db s)
  ∧ count_orders (Some "") s = size (orders_db s)
  ∧ (∀ user_id, user_id ≠ "" →
       count_orders (Some user_id) s
       = length (list_orders_by_user user_id 999999 s)
       ∧ (count_orders (Some user_id) s
          ≤ length (default [] (user_order_index s !! user_id)))%nat
       ∧ Z.of_nat (count_orders (Some user_id) s) ≤ 999999)
  ∧ (∀ user_id, Z.of_nat (length (get_order_history user_id s)) ≤ 999).
Proof.
  split; [reflexivity|]. split; [reflexivity|]. split.
  - intros user_id Hne. unfold count_orders.
    rewrite bool_decide_eq_false_2 by done.
    split; [reflexivity|]. rewrite list_orders_by_user_unfold. split.
    + etrans; [|apply (length_omap_le (λ oid, orders_db s !! oid))].
      unfold slice_to. destruct (0 <=? 999999); rewrite length_take; lia.
    + pose proof (slice_to_length 999999
                    (omap (λ oid, orders_db s !! oid)
                       (default [] (user_order_index s !! user_id)))).
      lia.
  - intros user_id. unfold get_order_history. rewrite length_fmap.
    pose proof (slice_to_length 999 (list_orders_by_user user_id 0 s)).
    rewrite list_orders_by_user_unfold.
    pose proof (slice_to_length 999
                  (omap (λ oid, orders_db s !! oid)
                     (default [] (user_order_index s !! user_id)))).
    lia.
Qed.
